(** * Neuroplay: scoring, decision-task schedule and stats bookkeeping

    A shallow embedding of the pure logic of the Neuroplay application:

    - [types/performance]   : the data model (TaskType, TaskMetrics, ...);
    - [utils/scoring]       : [ScoringService], the seven score formulas;
    - [app/tasks/decision-task] : the reward schedule and [calculateMetrics];
    - [utils/storage]       : [StorageService] over an AsyncStorage store;
    - [app/(tabs)/challenges] : the daily challenge and its screen;
    - the rules of the Tower of Hanoi, the tones of the sound test, the
      check of the spatial-memory input, and the figures of the analytics,
      records and progress screens.

    Conventions of the embedding.

    - A JavaScript [number] that the code only counts with (trial numbers,
      rewards, streak, tasksCompleted) is a [Z]; a [number] that the code
      divides is a [Q], an exact rational.  Rounding error of binary
      floating point is not modelled.
    - An optional metric field is an [option Q]; [None] stands for a value
      that is [undefined] or [NaN].  Both are falsy, and every formula tests
      a field for truthiness before it reads it.
    - A [Date] is its epoch time in milliseconds, a [Z]; [toDateString] is
      the number of the local calendar day, for a zone at a fixed offset
      from UTC (no daylight-saving shift).
    - [async] functions are computations in a state monad over the device
      (the AsyncStorage contents and the clock).  The calls to AsyncStorage
      succeed, so the [catch] branches are never entered; a value read back
      is the value written ([JSON.parse] after [JSON.stringify], dates
      revived); the clock does not advance within one operation.
    - [Math.random] is an arbitrary sequence of numbers, consumed in order. *)

From Stdlib Require Import String DecimalString ZArith QArith Qround Qabs Qminmax List Bool Lia Lqa.
From Stdlib Require Import Permutation Sorted.
From ExtLib Require Import Structures.Monad Structures.MonadState Data.Monads.StateMonad.
Import ListNotations.
Import MonadNotation.

Local Open Scope Z_scope.
Local Open Scope Q_scope.

(** ** JavaScript primitives *)

Module JS.

(** [Math.round]: nearest integer, a tie goes towards plus infinity. *)
Definition Math_round (x : Q) : Z := Qfloor (x + (1 # 2)).

(** [!x] for an optional number: absent, NaN or zero. *)
Definition falsy (x : option Q) : bool :=
  match x with
  | None => true
  | Some q => Qeq_bool q 0
  end.

(** [x >= y] and [x < y], [x > y] on numbers. *)
Definition geb (x y : Q) : bool := Qle_bool y x.
Definition ltb (x y : Q) : bool := negb (Qle_bool y x).
Definition gtb (x y : Q) : bool := negb (Qle_bool x y).

(** [xs.reduce((sum, x) => sum + f(x), 0)] *)
Definition reduce_sum {A : Type} (f : A -> Q) (xs : list A) : Q :=
  fold_left (fun sum x => sum + f x) xs 0.

(** [xs.length] as a number. *)
Definition len {A : Type} (xs : list A) : Q := inject_Z (Z.of_nat (length xs)).

(** [xs.slice(0, n)] and [xs.slice(-n)]. *)
Definition slice_first {A : Type} (n : nat) (xs : list A) : list A := firstn n xs.
Definition slice_last {A : Type} (n : nat) (xs : list A) : list A :=
  skipn (length xs - n) xs.

End JS.

(** ** types/performance *)

Inductive TaskType : Type :=
| tapping_speed
| stroop_test
| reaction_time
| tower_of_hanoi
| spatial_memory
| decision_task
| sound_discrimination.

Definition TaskType_eq_dec (a b : TaskType) : {a = b} + {a <> b}.
Proof. decide equality. Defined.

Definition TaskType_eqb (a b : TaskType) : bool :=
  if TaskType_eq_dec a b then true else false.

Inductive DoorChoice : Type := left_door | right_door.
Inductive RewardType : Type := high | low | none.

Definition is_left (c : DoorChoice) : bool :=
  match c with left_door => true | right_door => false end.
Definition is_right (c : DoorChoice) : bool :=
  match c with left_door => false | right_door => true end.

Record Trial : Type := mkTrial {
  trial : Z;
  choice : DoorChoice;
  reward : Z;
  rewardType : RewardType;
  reactionTime : Z
}.

(** The numeric fields of [TaskMetrics] and the decision task's trial log.
    ([reactionTimes], [accuracyByFrequency] and [responses] are read by no
    formula and are left out.) *)
Record TaskMetrics : Type := mkMetrics {
  numberOfTaps : option Q;
  duration : option Q;
  correctAnswers : option Q;
  incorrectAnswers : option Q;
  averageReactionTime : option Q;
  moves : option Q;
  solveTime : option Q;
  minMoves : option Q;
  correctMatches : option Q;
  totalAttempts : option Q;
  sequenceLength : option Q;
  leftDoorChoices : option Q;
  rightDoorChoices : option Q;
  totalReward : option Q;
  adaptationRate : option Q;
  riskTakingScore : option Q;
  learningScore : option Q;
  choices : option (list Trial);
  correctIdentifications : option Q;
  incorrectIdentifications : option Q;
  averageResponseTime : option Q
}.

Definition emptyMetrics : TaskMetrics :=
  mkMetrics None None None None None None None None None None None
            None None None None None None None None None None.

Record UserPerformance : Type := mkPerformance {
  id : string;
  taskType : TaskType;
  score : Q;
  date : Z;
  metrics : TaskMetrics
}.

Record DailyChallenge : Type := mkChallenge {
  challengeId : string;
  challengeDate : Z;
  tasks : list TaskType;
  completed : bool;
  completedTasks : list TaskType
}.

(** [Record<TaskType, number>]: one number per task type. *)
Definition ScoreTable : Type := TaskType -> Q.

(** [{ ...table, [k]: v }] *)
Definition setScore (table : ScoreTable) (k : TaskType) (v : Q) : ScoreTable :=
  fun t => if TaskType_eq_dec t k then v else table t.

Record UserStats : Type := mkStats {
  totalScore : Q;
  streak : Z;
  tasksCompleted : Z;
  averageScores : ScoreTable;
  lastActivity : Z
}.

(** ** utils/scoring *)

Module ScoringService.
Import JS.

(** The value of a field that has passed its truthiness test. *)
Definition val (x : option Q) : Q :=
  match x with Some q => q | None => 0 end.

(** The piecewise-linear map from taps per second to points, before
    rounding (the [let score] of [calculateTappingScore]). *)
Definition tappingPoints (tapsPerSecond : Q) : Q :=
  if geb tapsPerSecond 9 then 95 + Qmin 5 ((tapsPerSecond - 9) * 2)
  else if geb tapsPerSecond 7 then 85 + ((tapsPerSecond - 7) / 2) * 10
  else if geb tapsPerSecond 5 then 70 + ((tapsPerSecond - 5) / 2) * 15
  else if geb tapsPerSecond 3 then 50 + ((tapsPerSecond - 3) / 2) * 20
  else if geb tapsPerSecond 1 then 20 + ((tapsPerSecond - 1) / 2) * 30
  else tapsPerSecond * 20.

Definition calculateTappingScore (m : TaskMetrics) : Z :=
  if falsy (numberOfTaps m) || falsy (duration m) then 0%Z
  else
    let tapsPerSecond := val (numberOfTaps m) / (val (duration m) / 1000) in
    let score := tappingPoints tapsPerSecond in
    Z.min (Math_round score) 100.

Definition calculateStroopScore (m : TaskMetrics) : Z :=
  if falsy (correctAnswers m) || falsy (incorrectAnswers m)
     || falsy (averageReactionTime m) then 0%Z
  else
    let accuracy :=
      val (correctAnswers m) / (val (correctAnswers m) + val (incorrectAnswers m)) in
    let speedBonus := Qmax 0 ((2000 - val (averageReactionTime m)) / 20) in
    Z.min (Math_round (accuracy * 70 + speedBonus)) 100.

Definition calculateReactionTimeScore (m : TaskMetrics) : Z :=
  if falsy (averageReactionTime m) then 0%Z
  else
    let baseScore := Qmax 0 ((1000 - val (averageReactionTime m)) / 10) in
    Z.min (Math_round baseScore) 100.

Definition calculateTowerOfHanoiScore (m : TaskMetrics) : Z :=
  if falsy (moves m) || falsy (solveTime m) || falsy (minMoves m) then 0%Z
  else
    let efficiency := val (minMoves m) / val (moves m) in
    let timeBonus := Qmax 0 ((120000 - val (solveTime m)) / 1200) in
    Z.min (Math_round (efficiency * 60 + timeBonus)) 100.

Definition calculateSpatialMemoryScore (m : TaskMetrics) : Z :=
  if falsy (correctMatches m) || falsy (totalAttempts m)
     || falsy (sequenceLength m) then 0%Z
  else
    let accuracy := val (correctMatches m) / val (totalAttempts m) in
    let lengthBonus := val (sequenceLength m) * 5 in
    Z.min (Math_round (accuracy * 70 + lengthBonus)) 100.

Definition calculateDecisionTaskScore (m : TaskMetrics) : Z :=
  if falsy (totalReward m) || falsy (adaptationRate m)
     || falsy (riskTakingScore m) || falsy (learningScore m) then 0%Z
  else
    let rewardScore := Qmin (val (totalReward m) / 10) 40 in
    let adaptationScore := val (adaptationRate m) * 30 in
    let riskScore := val (riskTakingScore m) * 15 in
    let learningScorePoints := val (learningScore m) * 15 in
    Z.min (Math_round (rewardScore + adaptationScore + riskScore + learningScorePoints)) 100.

Definition calculateSoundDiscriminationScore (m : TaskMetrics) : Z :=
  if falsy (correctIdentifications m) || falsy (incorrectIdentifications m)
     || falsy (averageResponseTime m) then 0%Z
  else
    let accuracy :=
      val (correctIdentifications m)
      / (val (correctIdentifications m) + val (incorrectIdentifications m)) in
    let speedBonus := Qmax 0 ((3000 - val (averageResponseTime m)) / 30) in
    Z.min (Math_round (accuracy * 80 + speedBonus)) 100.

Definition calculateScore (t : TaskType) (m : TaskMetrics) : Z :=
  match t with
  | tapping_speed => calculateTappingScore m
  | stroop_test => calculateStroopScore m
  | reaction_time => calculateReactionTimeScore m
  | tower_of_hanoi => calculateTowerOfHanoiScore m
  | spatial_memory => calculateSpatialMemoryScore m
  | decision_task => calculateDecisionTaskScore m
  | sound_discrimination => calculateSoundDiscriminationScore m
  end.

(** [scores] is the object as its list of entries, in key order;
    [Object.values] drops the keys. *)
Definition Object_values {K : Type} (scores : list (K * Q)) : list Q :=
  map snd scores.

Definition calculateOverallScore {K : Type} (scores : list (K * Q)) : Z :=
  let values := filter (fun score => gtb score 0) (Object_values scores) in
  if Nat.eqb (length values) 0 then 0%Z
  else Math_round (reduce_sum (fun score => score) values / len values).

End ScoringService.

(** ** app/tasks/decision-task *)

Module DecisionTask.
Import JS.

Inductive GameState : Type :=
| ready | playing | reward_shown | frustration | continue_prompt | finished.

Record GamePhase : Type := mkPhase {
  name : string;
  startTrial : Z;
  endTrial : Z;
  leftProbability : Q;   (* probability that the left door gives the high reward *)
  rightProbability : Q   (* probability that the right door gives the high reward *)
}.

(** The callback that [handleDoorChoice] leaves with [setTimeout]. *)
Inductive Timer : Type := showContinuePrompt | finishGameLater | nextTrial.

(** The component's state: its [useState] cells, the [startTime] ref, the
    timer it has set, and how many values [Math.random] has produced. *)
Record Component : Type := mkComponent {
  gameState : GameState;
  currentTrial : Z;
  totalReward : Z;
  trials : list Trial;
  lastReward : option (Z * RewardType);
  startTime : Z;
  timer : option Timer;
  drawn : nat
}.

Definition totalTrials : Z := 50.
Definition highReward : Z := 10.
Definition lowReward : Z := 2.

Definition gamePhases : list GamePhase :=
  [ mkPhase "Initial Learning" 1 7 (8 # 10) (2 # 10);
    mkPhase "Probability Reversal" 8 30 (3 # 10) (7 # 10);
    mkPhase "Frustration Period" 31 40 (1 # 10) (1 # 10);
    mkPhase "Recovery" 41 50 (6 # 10) (4 # 10) ].

Definition getCurrentPhase (t : Z) : GamePhase :=
  match find (fun phase => (startTrial phase <=? t)%Z && (t <=? endTrial phase)%Z)
             gamePhases with
  | Some phase => phase
  | None => nth 0 gamePhases (mkPhase "" 0 0 0 0)
  end.

Section Play.
(** The values that successive calls of [Math.random] return. *)
Variable draws : nat -> Q.

(** The reward of one trial: the amount, its type, and the number of
    random values drawn once it is settled. *)
Definition resolveReward (t : Z) (c : DoorChoice) (k : nat)
  : Z * RewardType * nat :=
  let phase := getCurrentPhase t in
  if (31 <=? t)%Z && (t <=? 40)%Z then
    (* Frustration period - mostly no rewards *)
    let random := draws k in
    if ltb random (1 # 10) then
      let r :=
        match c with
        | left_door =>
            if ltb (draws (S k)) (leftProbability phase)
            then highReward else lowReward
        | right_door =>
            if ltb (draws (S k)) (rightProbability phase)
            then highReward else lowReward
        end in
      (r, if (r =? highReward)%Z then high else low, S (S k))
    else (0%Z, none, S k)
  else
    (* Normal periods *)
    let random := draws k in
    let probability :=
      match c with
      | left_door => leftProbability phase
      | right_door => rightProbability phase
      end in
    if ltb random probability then (highReward, high, S k)
    else (lowReward, low, S k).

(** [handleDoorChoice(choice)], called when [Date.now()] is [now]. *)
Definition handleDoorChoice (c : DoorChoice) (now : Z) (s : Component) : Component :=
  match gameState s with
  | playing =>
      let rt := (now - startTime s)%Z in
      let '(r, ty, k) := resolveReward (currentTrial s) c (drawn s) in
      let tr := mkTrial (currentTrial s) c r ty rt in
      mkComponent reward_shown
                  (currentTrial s)
                  (totalReward s + r)%Z
                  (trials s ++ [tr])
                  (Some (r, ty))
                  (startTime s)
                  (Some (if (currentTrial s =? 40)%Z then showContinuePrompt
                         else if (totalTrials <=? currentTrial s)%Z then finishGameLater
                         else nextTrial))
                  k
  | _ => s
  end.
End Play.

Definition startGame (now : Z) (s : Component) : Component :=
  mkComponent playing 1 0 [] None now (timer s) (drawn s).

(** ** [calculateMetrics] *)

Definition phaseTransitions : list Z := [8; 31; 41]%Z.

Definition leftRate (ts : list Trial) : Q :=
  len (filter (fun t => is_left (choice t)) ts) / len ts.

Definition beforeTrials (ts : list Trial) (transitionTrial : Z) : list Trial :=
  filter (fun t => (transitionTrial - 3 <=? trial t)%Z && (trial t <? transitionTrial)%Z) ts.

Definition afterTrials (ts : list Trial) (transitionTrial : Z) : list Trial :=
  filter (fun t => (transitionTrial <=? trial t)%Z && (trial t <? transitionTrial + 3)%Z) ts.

(** The body of the [forEach] over the phase transitions. *)
Definition adaptationStep (ts : list Trial) (adaptationScore : Q) (transitionTrial : Z) : Q :=
  let before := beforeTrials ts transitionTrial in
  let after := afterTrials ts transitionTrial in
  if (0 <? length before)%nat && (0 <? length after)%nat then
    let beforeLeftRate := leftRate before in
    let afterLeftRate := leftRate after in
    let adaptationChange := Qabs (afterLeftRate - beforeLeftRate) in
    adaptationScore + adaptationChange
  else adaptationScore.

Definition adaptationScore (ts : list Trial) : Q :=
  fold_left (adaptationStep ts) phaseTransitions 0 / len phaseTransitions.

Definition frustrationTrials (ts : list Trial) : list Trial :=
  filter (fun t => (31 <=? trial t)%Z && (trial t <=? 40)%Z) ts.

Definition riskTaking (ts : list Trial) : Q :=
  if (0 <? length (frustrationTrials ts))%nat then leftRate (frustrationTrials ts)
  else 1 # 2.

Definition meanReward (ts : list Trial) : Q :=
  reduce_sum (fun t => inject_Z (reward t)) ts / len ts.

(** With no trial at all both means are 0/0 and the result is NaN. *)
Definition learning (ts : list Trial) : option Q :=
  match ts with
  | [] => None
  | _ =>
      let earlyReward := meanReward (slice_first 10 ts) in
      let lateReward := meanReward (slice_last 10 ts) in
      Some (Qmax 0 ((lateReward - earlyReward) / inject_Z highReward))
  end.

Definition calculateMetrics (s : Component) : TaskMetrics :=
  let leftChoices := length (filter (fun t => is_left (choice t)) (trials s)) in
  let rightChoices := length (filter (fun t => is_right (choice t)) (trials s)) in
  mkMetrics None None None None None None None None None None None
            (Some (inject_Z (Z.of_nat leftChoices)))
            (Some (inject_Z (Z.of_nat rightChoices)))
            (Some (inject_Z (totalReward s)))
            (Some (adaptationScore (trials s)))
            (Some (riskTaking (trials s)))
            (learning (trials s))
            (Some (trials s))
            None None None.

End DecisionTask.

(** ** utils/storage *)

Module StorageService.
Import JS.
Local Open Scope monad_scope.

(** The three keys of the store, each absent ([None]) or holding the
    value whose JSON text is stored under it. *)
Record AsyncStorage : Type := mkStorage {
  PERFORMANCES : option (list UserPerformance);
  DAILY_CHALLENGES : option (list DailyChallenge);
  USER_STATS : option UserStats
}.

(** The device: the store, the clock read by [new Date()] and
    [Date.now()], and the offset of local time from UTC (both in ms). *)
Record Device : Type := mkDevice {
  store : AsyncStorage;
  clock : Z;
  tzOffset : Z
}.

Definition Async : Type -> Type := state Device.

Definition msPerDay : Z := (24 * 60 * 60 * 1000)%Z.

(** [date.toDateString()]: the calendar day of an instant in local time,
    as the number of the day. *)
Definition toDateString (tz t : Z) : Z := ((t + tz) / msPerDay)%Z.

Definition Date_now : Async Z := gets clock.

Definition localZone : Async Z := gets tzOffset.

Definition getStore : Async AsyncStorage := gets store.

Definition putStore (f : AsyncStorage -> AsyncStorage) : Async unit :=
  modify (fun d => mkDevice (f (store d)) (clock d) (tzOffset d)) ;; ret tt.

Definition setPerformances (v : list UserPerformance) : Async unit :=
  putStore (fun s => mkStorage (Some v) (DAILY_CHALLENGES s) (USER_STATS s)).

Definition setDailyChallenges (v : list DailyChallenge) : Async unit :=
  putStore (fun s => mkStorage (PERFORMANCES s) (Some v) (USER_STATS s)).

Definition setUserStats (v : UserStats) : Async unit :=
  putStore (fun s => mkStorage (PERFORMANCES s) (DAILY_CHALLENGES s) (Some v)).

(** *** Performance data *)

Definition getPerformances : Async (list UserPerformance) :=
  s <- getStore ;;
  match PERFORMANCES s with
  | None => ret []
  | Some performances => ret performances
  end.

Definition getPerformancesByTask (t : TaskType) : Async (list UserPerformance) :=
  all <- getPerformances ;;
  ret (filter (fun p => TaskType_eqb (taskType p) t) all).

(** *** Daily challenges *)

Definition getDailyChallenges : Async (list DailyChallenge) :=
  s <- getStore ;;
  match DAILY_CHALLENGES s with
  | None => ret []
  | Some challenges => ret challenges
  end.

Definition saveDailyChallenge (challenge : DailyChallenge) : Async unit :=
  existing <- getDailyChallenges ;;
  let updated :=
    filter (fun c => negb (String.eqb (challengeId c) (challengeId challenge))) existing in
  setDailyChallenges (updated ++ [challenge]).

Definition getTodaysChallenge : Async (option DailyChallenge) :=
  challenges <- getDailyChallenges ;;
  tz <- localZone ;;
  now <- Date_now ;;
  let today := toDateString tz now in
  ret (find (fun c => (toDateString tz (challengeDate c) =? today)%Z) challenges).

Definition includes (xs : list TaskType) (t : TaskType) : bool :=
  existsb (TaskType_eqb t) xs.

Definition markChallengeTaskComplete (t : TaskType) : Async unit :=
  found <- getTodaysChallenge ;;
  match found with
  | None => ret tt
  | Some challenge =>
      if negb (includes (completedTasks challenge) t) then
        let pushed := completedTasks challenge ++ [t] in
        saveDailyChallenge
          (mkChallenge (challengeId challenge) (challengeDate challenge)
                       (tasks challenge)
                       (Nat.eqb (length pushed) (length (tasks challenge)))
                       pushed)
      else ret tt
  end.

(** *** User stats *)

Definition defaultStats (now : Z) : UserStats :=
  mkStats 0 0 0 (fun _ => 0) now.

Definition getUserStats : Async UserStats :=
  s <- getStore ;;
  match USER_STATS s with
  | None => now <- Date_now ;; ret (defaultStats now)
  | Some stats => ret stats
  end.

Definition updateUserStats (performance : UserPerformance) : Async unit :=
  stats <- getUserStats ;;
  performances <- getPerformances ;;
  (* Calculate new averages *)
  let taskPerformances :=
    filter (fun p => TaskType_eqb (taskType p) (taskType performance)) performances in
  let averageScore := reduce_sum score taskPerformances / len taskPerformances in
  (* Update streak *)
  tz <- localZone ;;
  now <- Date_now ;;
  let today := toDateString tz now in
  now' <- Date_now ;;
  let yesterday := toDateString tz (now' - msPerDay)%Z in
  let lastActivityDate := toDateString tz (lastActivity stats) in
  let newStreak :=
    if (lastActivityDate =? yesterday)%Z then (streak stats + 1)%Z
    else if negb (lastActivityDate =? today)%Z then 1%Z
    else streak stats in
  now'' <- Date_now ;;
  setUserStats
    (mkStats (totalScore stats + score performance)
             newStreak
             (tasksCompleted stats + 1)%Z
             (setScore (averageScores stats) (taskType performance) averageScore)
             now'') ;;
  (* Mark challenge task as complete if applicable *)
  markChallengeTaskComplete (taskType performance).

Definition savePerformance (performance : UserPerformance) : Async unit :=
  existing <- getPerformances ;;
  setPerformances (existing ++ [performance]) ;;
  (* Update user stats *)
  updateUserStats performance.

Definition clearAllData : Async unit :=
  putStore (fun _ => mkStorage None None None).

End StorageService.

(** ** app/(tabs)/challenges *)

Module Challenges.

Definition allTasks : list TaskType :=
  [ tapping_speed; stroop_test; reaction_time; tower_of_hanoi;
    spatial_memory; decision_task; sound_discrimination ].

(** [shuffled] is the order that the random sort leaves [allTasks] in. *)
Definition generateDailyChallenge (shuffled : list TaskType) (ident : string) (now : Z)
  : DailyChallenge :=
  let selectedTasks := firstn 3 shuffled in
  mkChallenge ident now selectedTasks false [].

End Challenges.

(** ** Vocabulary of the specification *)

Module Spec.
Import JS ScoringService.

(** The numeric metric fields, by name. *)
Inductive MetricField : Type :=
| NumberOfTaps | Duration
| CorrectAnswers | IncorrectAnswers | AverageReactionTime
| Moves | SolveTime | MinMoves
| CorrectMatches | TotalAttempts | SequenceLength
| TotalReward | AdaptationRate | RiskTakingScore | LearningScore
| CorrectIdentifications | IncorrectIdentifications | AverageResponseTime.

Definition field (f : MetricField) (m : TaskMetrics) : option Q :=
  match f with
  | NumberOfTaps => numberOfTaps m
  | Duration => duration m
  | CorrectAnswers => correctAnswers m
  | IncorrectAnswers => incorrectAnswers m
  | AverageReactionTime => averageReactionTime m
  | Moves => moves m
  | SolveTime => solveTime m
  | MinMoves => minMoves m
  | CorrectMatches => correctMatches m
  | TotalAttempts => totalAttempts m
  | SequenceLength => sequenceLength m
  | TotalReward => totalReward m
  | AdaptationRate => adaptationRate m
  | RiskTakingScore => riskTakingScore m
  | LearningScore => learningScore m
  | CorrectIdentifications => correctIdentifications m
  | IncorrectIdentifications => incorrectIdentifications m
  | AverageResponseTime => averageResponseTime m
  end.

(** The fields that the formula of a task type reads. *)
Definition requiredFields (t : TaskType) : list MetricField :=
  match t with
  | tapping_speed => [NumberOfTaps; Duration]
  | stroop_test => [CorrectAnswers; IncorrectAnswers; AverageReactionTime]
  | reaction_time => [AverageReactionTime]
  | tower_of_hanoi => [Moves; SolveTime; MinMoves]
  | spatial_memory => [CorrectMatches; TotalAttempts; SequenceLength]
  | decision_task => [TotalReward; AdaptationRate; RiskTakingScore; LearningScore]
  | sound_discrimination =>
      [CorrectIdentifications; IncorrectIdentifications; AverageResponseTime]
  end.

(** A valid bag: counts and durations are positive, the metrics derived
    from a decision-task log lie in [0,1].  A field may be absent. *)
Definition derived (f : MetricField) : bool :=
  match f with
  | AdaptationRate | RiskTakingScore | LearningScore => true
  | _ => false
  end.

Definition validField (f : MetricField) (x : option Q) : Prop :=
  match x with
  | None => True
  | Some q => if derived f then 0 <= q /\ q <= 1 else 0 < q
  end.

Definition validMetrics (m : TaskMetrics) : Prop :=
  forall f, validField f (field f m).

(** The value that a formula rounds and clamps, when it gets that far. *)
Definition rawScore (t : TaskType) (m : TaskMetrics) : option Q :=
  if existsb (fun f => falsy (field f m)) (requiredFields t) then None
  else
    Some
      match t with
      | tapping_speed =>
          tappingPoints (val (numberOfTaps m) / (val (duration m) / 1000))
      | stroop_test =>
          val (correctAnswers m) / (val (correctAnswers m) + val (incorrectAnswers m)) * 70
          + Qmax 0 ((2000 - val (averageReactionTime m)) / 20)
      | reaction_time =>
          Qmax 0 ((1000 - val (averageReactionTime m)) / 10)
      | tower_of_hanoi =>
          val (minMoves m) / val (moves m) * 60
          + Qmax 0 ((120000 - val (solveTime m)) / 1200)
      | spatial_memory =>
          val (correctMatches m) / val (totalAttempts m) * 70
          + val (sequenceLength m) * 5
      | decision_task =>
          Qmin (val (totalReward m) / 10) 40 + val (adaptationRate m) * 30
          + val (riskTakingScore m) * 15 + val (learningScore m) * 15
      | sound_discrimination =>
          val (correctIdentifications m)
          / (val (correctIdentifications m) + val (incorrectIdentifications m)) * 80
          + Qmax 0 ((3000 - val (averageResponseTime m)) / 30)
      end.

(** The arithmetic mean of a list of numbers. *)
Definition total (xs : list Q) : Q := fold_right Qplus 0 xs.
Definition mean (xs : list Q) : Q := total xs / inject_Z (Z.of_nat (length xs)).

(** The strictly positive entries of a mapping. *)
Definition positiveEntries {K : Type} (scores : list (K * Q)) : list Q :=
  filter (fun v => if Qlt_le_dec 0 v then true else false) (map snd scores).

Definition tappingBag (taps ms : Q) : TaskMetrics :=
  mkMetrics (Some taps) (Some ms) None None None None None None None None None
            None None None None None None None None None None.

(** *** Decision task *)

(** The share of left choices in a list of trials. *)
Definition leftFraction (ts : list Trial) : Q :=
  inject_Z (Z.of_nat (length (filter (fun t => is_left (choice t)) ts)))
  / inject_Z (Z.of_nat (length ts)).

(** The change of the share of left choices across a transition: the three
    trial numbers from the transition on against the three before it.
    There is none when either side has no recorded trial. *)
Definition transitionChange (ts : list Trial) (transition : Z) : option Q :=
  let before :=
    filter (fun t => (transition - 3 <=? trial t)%Z && (trial t <? transition)%Z) ts in
  let after :=
    filter (fun t => (transition <=? trial t)%Z && (trial t <? transition + 3)%Z) ts in
  match before, after with
  | _ :: _, _ :: _ => Some (Qabs (leftFraction after - leftFraction before))
  | _, _ => None
  end.

Definition orZero (x : option Q) : Q :=
  match x with Some q => q | None => 0 end.

Definition present (xs : list (option Q)) : list Q :=
  flat_map (fun x => match x with Some q => [q] | None => [] end) xs.

(** The average as the claim words it: over the transitions that are not
    skipped, in the sum and in the divisor alike. *)
Definition averageOverCounted (ts : list Trial) : Q :=
  mean (present (map (transitionChange ts) [8; 31; 41]%Z)).

(** The probability of the high reward behind a door, by trial number. *)
Definition doorProbability (t : Z) (c : DoorChoice) : Q :=
  if (t <=? 7)%Z then match c with left_door => 8 # 10 | right_door => 2 # 10 end
  else if (t <=? 30)%Z then match c with left_door => 3 # 10 | right_door => 7 # 10 end
  else if (t <=? 40)%Z then 1 # 10
  else match c with left_door => 6 # 10 | right_door => 4 # 10 end.

(** The reward rule in words: [first] and [second] are two draws. *)
Definition rewardRule (t : Z) (c : DoorChoice) (first second : Q) : Z * RewardType :=
  if (31 <=? t)%Z && (t <=? 40)%Z then
    if Qlt_le_dec first (1 # 10) then
      if Qlt_le_dec second (doorProbability t c) then (10%Z, high) else (2%Z, low)
    else (0%Z, none)
  else
    if Qlt_le_dec first (doorProbability t c) then (10%Z, high) else (2%Z, low).

(** A session that is stopped at the prompt after trial 40: left for the
    first seven trials, right up to trial 30, left again afterwards. *)
Definition stoppedAtForty : list Trial :=
  map (fun n =>
         let t := Z.of_nat n in
         mkTrial t
                 (if (t <=? 7)%Z then left_door
                  else if (t <=? 30)%Z then right_door else left_door)
                 2 low 500)
      (seq 1 40).

Definition sessionEnded (ts : list Trial) (total : Z) : DecisionTask.Component :=
  DecisionTask.mkComponent DecisionTask.finished 40 total ts None 0 None 0.

(** A session waiting for the choice of trial [t], shown at [start]. *)
Definition awaitingChoice (t start : Z) : DecisionTask.Component :=
  DecisionTask.mkComponent DecisionTask.playing t 0 [] None start None 0.

(** *** Storage *)

(** A device that has stored nothing, in the UTC zone. *)
Definition freshDevice (now : Z) : StorageService.Device :=
  StorageService.mkDevice (StorageService.mkStorage None None None) now 0.

(** A device whose only content is the challenge created at [now], with
    the first three task types as its tasks. *)
Definition challengeDevice (now : Z) : StorageService.Device :=
  StorageService.mkDevice
    (StorageService.mkStorage
       None
       (Some [Challenges.generateDailyChallenge Challenges.allTasks "challenge-1" now])
       None)
    now 0.

(** A device with stored statistics and history. *)
Definition deviceWith (ps : list UserPerformance) (st : UserStats) (now : Z)
  : StorageService.Device :=
  StorageService.mkDevice (StorageService.mkStorage (Some ps) None (Some st)) now 0.

(** The part of the challenge invariant that does not mention [tasks]
    membership: no task is listed as completed twice, and the flag says
    whether as many tasks are completed as the challenge has. *)
Definition countInvariant (c : DailyChallenge) : Prop :=
  NoDup (completedTasks c)
  /\ (completed c = true <-> length (completedTasks c) = length (tasks c)).

Definition challengesOf (d : StorageService.Device) : list DailyChallenge :=
  match StorageService.DAILY_CHALLENGES (StorageService.store d) with
  | Some cs => cs
  | None => []
  end.

(** What the challenge screen shows of a challenge. *)
Definition progress (c : DailyChallenge) : list TaskType * list TaskType * bool :=
  (tasks c, completedTasks c, completed c).

Definition session (t : TaskType) (points : Q) (now : Z) : UserPerformance :=
  mkPerformance "session" t points now emptyMetrics.


Definition stroopBag (correct incorrect rt : Q) : TaskMetrics :=
  mkMetrics None None (Some correct) (Some incorrect) (Some rt) None None None None
            None None None None None None None None None None None None.

End Spec.

(** ** The device between operations *)

Module Env.
Import StorageService.

(** The device when its clock shows [now]. *)
Definition setClock (now : Z) (d : Device) : Device :=
  mkDevice (store d) now (tzOffset d).

(** A performance saved when the clock shows [fst x]. *)
Definition saveAt (x : Z * UserPerformance) (d : Device) : Device :=
  execState (savePerformance (snd x)) (setClock (fst x) d).

(** Performances saved one after the other, each at its own time. *)
Definition replay (xs : list (Z * UserPerformance)) (d : Device) : Device :=
  fold_left (fun dev x => saveAt x dev) xs d.

Definition statsOf (d : Device) : UserStats := evalState getUserStats d.
Definition historyOf (d : Device) : list UserPerformance := evalState getPerformances d.

Definition ofType (t : TaskType) (ps : list UserPerformance) : list UserPerformance :=
  filter (fun p => TaskType_eqb (taskType p) t) ps.

(** The statistics agree with the history: the count, the total, the
    average of every task type that has a performance, and a streak that is
    at most the number of sessions. *)
Definition consistent (d : Device) : Prop :=
  tasksCompleted (statsOf d) = Z.of_nat (length (historyOf d))
  /\ totalScore (statsOf d) == Spec.total (map score (historyOf d))
  /\ (forall t, ofType t (historyOf d) <> [] ->
        averageScores (statsOf d) t == Spec.mean (map score (ofType t (historyOf d))))
  /\ (0 <= streak (statsOf d) <= tasksCompleted (statsOf d))%Z.

End Env.

(** ** app/(tabs)/challenges: loading the screen *)

Module ChallengesScreen.
Import StorageService.
Local Open Scope monad_scope.
Local Open Scope string_scope.

(** [`challenge-${Date.now()}`] *)
Definition challengeIdAt (now : Z) : string :=
  "challenge-" ++ NilZero.string_of_int (Z.to_int now).

(** [loadChallengeData]; [shuffled] is what the random sort makes of
    [allTasks] should a challenge have to be generated.  The result is what
    the screen then shows. *)
Definition loadChallengeData (shuffled : list TaskType)
  : Async (DailyChallenge * UserStats) :=
  found <- getTodaysChallenge ;;
  challenge <- match found with
               | Some c => ret c
               | None =>
                   now <- Date_now ;;
                   now' <- Date_now ;;
                   let c := Challenges.generateDailyChallenge
                              shuffled (challengeIdAt now) now' in
                   saveDailyChallenge c ;;
                   ret c
               end ;;
  stats <- getUserStats ;;
  ret (challenge, stats).

End ChallengesScreen.

(** ** Challenges by calendar day *)

Module Calendar.
Import StorageService.

Definition todaysChallenge (d : Device) : option DailyChallenge :=
  evalState getTodaysChallenge d.

(** The calendar day on which a challenge was created, on this device. *)
Definition dayOf (d : Device) (c : DailyChallenge) : Z :=
  toDateString (tzOffset d) (challengeDate c).

(** No two stored challenges belong to the same calendar day. *)
Definition onePerDay (d : Device) : Prop :=
  NoDup (map (dayOf d) (Spec.challengesOf d)).

(** A challenge on which nothing has been completed yet. *)
Definition untouched (c : DailyChallenge) : Prop :=
  completedTasks c = [] /\ completed c = false.

End Calendar.

(** ** app/tasks/tower-of-hanoi *)

Module TowerOfHanoi.

Inductive GameState : Type := ready | playing | finished.

Record Disk : Type := mkDisk {
  diskId : nat;
  size : Z;
  color : string
}.

Record Tower : Type := mkTower {
  towerId : nat;
  disks : list Disk          (* bottom first, the top disk is the last *)
}.

(** The cells of the component that the rules of the game read and write;
    [finishScheduled] says that the timer that runs [finishGame] has been
    set.  (The start time, the clock on the screen and the scores are left
    out.) *)
Record Game : Type := mkGame {
  gameState : GameState;
  towers : list Tower;
  selectedDisk : option (nat * nat);     (* towerId, diskId *)
  moves : Z;
  difficulty : nat;
  finishScheduled : bool
}.

Definition diskColors : list string :=
  ["#EF4444"; "#F59E0B"; "#10B981"; "#3B82F6"; "#8B5CF6"]%string.

(** [disks.sort((a, b) => b.size - a.size)]: a stable sort, largest first. *)
Fixpoint insertBySize (d : Disk) (ds : list Disk) : list Disk :=
  match ds with
  | [] => [d]
  | x :: rest => if (size x <? size d)%Z then d :: x :: rest
                 else x :: insertBySize d rest
  end.

Definition sortLargestFirst (ds : list Disk) : list Disk :=
  fold_left (fun sorted d => insertBySize d sorted) ds [].

Definition initializeGame (g : Game) : Game :=
  let initialDisks :=
    map (fun i => mkDisk i (Z.of_nat (difficulty g) - Z.of_nat i)
                         (nth (i mod length diskColors) diskColors EmptyString))
        (seq 0 (difficulty g)) in
  let initialTowers :=
    [ mkTower 0 (sortLargestFirst initialDisks); mkTower 1 []; mkTower 2 [] ] in
  mkGame (gameState g) initialTowers None 0 (difficulty g) (finishScheduled g).

Definition startGame (g : Game) : Game :=
  mkGame playing (towers g) (selectedDisk g) 0 (difficulty g) (finishScheduled g).

Definition getMinimumMoves (numDisks : nat) : Z := (2 ^ Z.of_nat numDisks - 1)%Z.

(** [ds[ds.length - 1]] *)
Definition topDisk (ds : list Disk) : option Disk :=
  nth_error ds (length ds - 1).

(** [None] stands for the TypeError of reading [disks] of a tower that does
    not exist. *)
Definition canMoveDisk (g : Game) (fromTowerId toTowerId : nat) : option bool :=
  match nth_error (towers g) fromTowerId with
  | None => None
  | Some fromTower =>
      match topDisk (disks fromTower) with
      | None => Some false
      | Some diskToMove =>
          match nth_error (towers g) toTowerId with
          | None => None
          | Some toTower =>
              match topDisk (disks toTower) with
              | None => Some true
              | Some topDiskOnDestination =>
                  Some (size diskToMove <? size topDiskOnDestination)%Z
              end
          end
      end
  end.

(** The towers with [f] applied to the disks of tower number [i]. *)
Definition onTower (i : nat) (f : list Disk -> list Disk) (ts : list Tower) : list Tower :=
  map (fun p => if Nat.eqb (fst p) i then mkTower (towerId (snd p)) (f (disks (snd p)))
                else snd p)
      (combine (seq 0 (length ts)) ts).

Definition moveDisk (g : Game) (fromTowerId toTowerId : nat) : option Game :=
  match canMoveDisk g fromTowerId toTowerId with
  | None => None
  | Some false => Some g
  | Some true =>
      match nth_error (towers g) fromTowerId with
      | None => None
      | Some fromTower =>
          match topDisk (disks fromTower) with
          | None => None
          | Some diskToMove =>
              let newTowers :=
                onTower toTowerId (fun ds => ds ++ [diskToMove])
                        (onTower fromTowerId (@removelast Disk) (towers g)) in
              match nth_error newTowers 2 with
              | None => None
              | Some goal =>
                  Some (mkGame (gameState g) newTowers None (moves g + 1)%Z
                               (difficulty g)
                               (if Nat.eqb (length (disks goal)) (difficulty g)
                                then true else finishScheduled g))
              end
          end
      end
  end.

Definition handleTowerPress (g : Game) (pressed : nat) : option Game :=
  match gameState g with
  | playing =>
      match selectedDisk g with
      | None =>
          (* Select a disk *)
          match nth_error (towers g) pressed with
          | None => None
          | Some tower =>
              match topDisk (disks tower) with
              | Some top =>
                  Some (mkGame (gameState g) (towers g) (Some (pressed, diskId top))
                               (moves g) (difficulty g) (finishScheduled g))
              | None => Some g
              end
          end
      | Some (selectedTower, _) =>
          if Nat.eqb selectedTower pressed then
            (* Deselect if tapping the same tower *)
            Some (mkGame (gameState g) (towers g) None (moves g) (difficulty g)
                         (finishScheduled g))
          else
            (* Try to move *)
            moveDisk g selectedTower pressed
      end
  | _ => Some g
  end.

(** A run of presses, stopped by the first TypeError. *)
Fixpoint pressAll (g : Game) (presses : list nat) : option Game :=
  match presses with
  | [] => Some g
  | p :: rest =>
      match handleTowerPress g p with
      | None => None
      | Some g' => pressAll g' rest
      end
  end.

(** The game on the screen once it has been started with [n] disks. *)
Definition newGame (n : nat) : Game :=
  startGame (initializeGame (mkGame ready [] None 0 n false)).

(** [over] may lie somewhere above [below]: it is the smaller disk. *)
Definition above (below over : Disk) : Prop := (size over < size below)%Z.

(** Every tower holds its disks with each one smaller than those below. *)
Definition stacked (ts : list Tower) : Prop :=
  Forall (fun t => StronglySorted above (disks t)) ts.

Definition allDisks (ts : list Tower) : list Disk := flat_map disks ts.

(** The screen shows three towers, well stacked, and a selection, if there
    is one, names one of them. *)
Definition wellFormed (g : Game) : Prop :=
  length (towers g) = 3%nat
  /\ stacked (towers g)
  /\ match selectedDisk g with
     | Some (i, _) => (i < 3)%nat
     | None => True
     end.

End TowerOfHanoi.

(** ** utils/audioGenerator *)

Module AudioGenerator.

(** Predefined frequencies for the test (in Hz). *)
Definition FREQUENCIES : list (string * Q) :=
  [ ("C4", 26163 # 100); ("D4", 29366 # 100); ("E4", 32963 # 100);
    ("F4", 34923 # 100); ("G4", 392); ("A4", 440); ("B4", 49388 # 100);
    ("C5", 52325 # 100); ("D5", 58733 # 100); ("E5", 65925 # 100) ]%string.

Section Names.
(** [`${frequency.toFixed(1)}Hz`], the text for a frequency without a name. *)
Variable toFixedHz : Q -> string.

Definition getFrequencyName (frequency : Q) : string :=
  match find (fun entry => JS.ltb (Qabs (snd entry - frequency)) 1) FREQUENCIES with
  | Some entry => fst entry
  | None => toFixedHz frequency
  end.
End Names.

End AudioGenerator.

(** ** app/tasks/sound-discrimination *)

Module SoundDiscrimination.
Import JS.

Inductive ToneRelation : Type := higher | lower | same.

Definition availableFrequencies : list Q :=
  [ 26163 # 100; 29366 # 100; 32963 # 100; 34923 # 100; 392; 440 ].

(** [xs.indexOf(x)], -1 when [x] does not occur. *)
Fixpoint indexOf (xs : list Q) (x : Q) : Z :=
  match xs with
  | [] => (-1)%Z
  | y :: rest =>
      if Qeq_bool y x then 0%Z
      else let i := indexOf rest x in if (i <? 0)%Z then (-1)%Z else (i + 1)%Z
  end.

(** [xs[i]] for a whole number [i]; [None] is [undefined]. *)
Definition at_ (xs : list Q) (i : Z) : option Q :=
  if (i <? 0)%Z then None else nth_error xs (Z.to_nat i).

Section Trials.
(** The values that successive calls of [Math.random] return. *)
Variable draws : nat -> Q.

(** [generateTrial], with [k] random values drawn before it: the tones, the
    relation of the last tone, and the number of values drawn afterwards.
    The result is [None] when the base tone is [undefined], which no draw in
    [0,1) brings about. *)
Definition generateTrial (k : nat) : option (list Q * ToneRelation * nat) :=
  match at_ availableFrequencies (Qfloor (draws k * len availableFrequencies)) with
  | None => None
  | Some baseFrequency =>
      let frequencies := [baseFrequency; baseFrequency; baseFrequency] in
      (* 40% chance of being different, 60% chance of being same *)
      let shouldBeDifferent := gtb (draws (S k)) (6 # 10) in
      if shouldBeDifferent then
        let isHigher := gtb (draws (S (S k))) (5 # 10) in
        let baseIndex := indexOf availableFrequencies baseFrequency in
        let '(lastFrequency, relation) :=
          if isHigher && (baseIndex <? Z.of_nat (length availableFrequencies) - 1)%Z then
            (at_ availableFrequencies (baseIndex + 1), higher)
          else if negb isHigher && (0 <? baseIndex)%Z then
            (at_ availableFrequencies (baseIndex - 1), lower)
          else (Some baseFrequency, same) in
        match lastFrequency with
        | None => None
        | Some lastTone => Some (frequencies ++ [lastTone], relation, S (S (S k)))
        end
      else Some (frequencies ++ [baseFrequency], same, S (S k))
  end.
End Trials.

End SoundDiscrimination.

(** ** Analytics: the Brain & Body Score *)

Module Analytics.
Import JS.

Record SkillData : Type := mkSkills {
  memory : Q;
  reactionTime : Q;
  attention : Q;
  problemSolving : Q;
  motorControl : Q
}.

Record BrainBodyScore : Type := mkBrainBody {
  current : Z;
  tier : Z;
  tierName : string;
  progress : Z      (* progress to the next tier, 0-100 *)
}.

(** [x || 0] for a number. *)
Definition orZero (x : Q) : Q := if Qeq_bool x 0 then 0 else x.

(** [Object.values(stats.averageScores)], in the order of the keys. *)
Definition averageValues (stats : UserStats) : list Q :=
  map (averageScores stats) Challenges.allTasks.

Definition calculateSkillBreakdown (stats : UserStats) : SkillData :=
  mkSkills
    (orZero (averageScores stats spatial_memory))
    (orZero (averageScores stats reaction_time))
    (orZero ((averageScores stats stroop_test
              + averageScores stats sound_discrimination) / 2))
    (orZero ((averageScores stats tower_of_hanoi
              + averageScores stats decision_task) / 2))
    (orZero (averageScores stats tapping_speed)).

(** The average of the task types that have a score. *)
Definition averageScore (stats : UserStats) : Q :=
  let scores := filter (fun score => gtb score 0) (averageValues stats) in
  if (0 <? length scores)%nat
  then reduce_sum (fun score => score) scores / len scores
  else 0.

Definition calculateBrainBodyScore (stats : UserStats) : BrainBodyScore :=
  let avg := averageScore stats in
  (* Determine tier based on score *)
  let '(tier, tierName, progress) :=
    if geb avg 90 then (5%Z, "Cognitive Elite"%string, 100)
    else if geb avg 80 then (4%Z, "Brain Master"%string, ((avg - 80) / 10) * 100)
    else if geb avg 65 then (3%Z, "Mind Athlete"%string, ((avg - 65) / 15) * 100)
    else if geb avg 45 then (2%Z, "Brain Builder"%string, ((avg - 45) / 20) * 100)
    else (1%Z, "Beginner"%string, (avg / 45) * 100) in
  mkBrainBody (Math_round avg) tier tierName (Math_round progress).

(** The averages as the entries of the object. *)
Definition entries (stats : UserStats) : list (TaskType * Q) :=
  map (fun t => (t, averageScores stats t)) Challenges.allTasks.

End Analytics.

(** ** components/PersonalRecords and the progress screen *)

Module PersonalRecords.
Import JS.

Record Records : Type := mkRecords {
  highestScore : Q;
  bestStreak : nat;
  totalSessions : nat;
  averageScore : Z
}.

(** [Math.max(...xs)] of numbers of which [x] is the first. *)
Definition Math_max (x : Q) (xs : list Q) : Q := fold_left Qmax xs x.

(** One turn of the loop that counts the sessions of 70 points or more in a
    row: the current run and the best run. *)
Definition countRun (state : nat * nat) (p : UserPerformance) : nat * nat :=
  let '(currentStreak, best) := state in
  if geb (score p) 70 then (S currentStreak, Nat.max best (S currentStreak))
  else (0%nat, best).

Definition calculateRecords (performances : list UserPerformance) : Records :=
  match performances with
  | [] => mkRecords 0 0 0 0
  | first :: others =>
      let scores := map score performances in
      let highest := Math_max (score first) (map score others) in
      let total := length performances in
      let average := Math_round (reduce_sum (fun x => x) scores / len scores) in
      (* the loop runs from the last performance to the first *)
      let best := snd (fold_left countRun (rev performances) (0%nat, 0%nat)) in
      mkRecords highest best total average
  end.

(** Performances of 70 points or more. *)
Definition strong (p : UserPerformance) : Prop := 70 <= score p.

(** [k] performances in a row, all strong: somewhere in the list, and at its
    end. *)
Definition runOf (ps : list UserPerformance) (k : nat) : Prop :=
  exists front run back,
    ps = front ++ run ++ back /\ length run = k /\ Forall strong run.

Definition runAtEnd (ps : list UserPerformance) (k : nat) : Prop :=
  exists front run, ps = front ++ run /\ length run = k /\ Forall strong run.

End PersonalRecords.

Module Progress.
Import JS.

Record TaskStats : Type := mkTaskStats {
  average : Z;
  best : Q;
  total : nat;
  recent : list UserPerformance
}.

(** [getTaskStats(taskType)] over the performances that the screen holds. *)
Definition getTaskStats (performances : list UserPerformance) (t : TaskType)
  : option TaskStats :=
  let taskPerformances := filter (fun p => TaskType_eqb (taskType p) t) performances in
  match taskPerformances with
  | [] => None
  | first :: others =>
      let scores := map score taskPerformances in
      let avg := reduce_sum (fun x => x) scores / len scores in
      Some (mkTaskStats (Math_round avg)
                        (PersonalRecords.Math_max (score first) (map score others))
                        (length taskPerformances)
                        (slice_first 5 taskPerformances))
  end.

(** [loadBestScore] of a task screen: the best score shown afterwards, given
    the one shown before. *)
Definition loadBestScore (t : TaskType) (bestScore : Q) : StorageService.Async Q :=
  bind (StorageService.getPerformancesByTask t)
       (fun performances =>
          match performances with
          | [] => ret bestScore
          | first :: others =>
              ret (PersonalRecords.Math_max (score first) (map score others))
          end).

End Progress.

(** ** app/tasks/decision-task: a session on the screen *)

Module DecisionSession.
Import DecisionTask.
Local Open Scope monad_scope.

(** The cells of [Component] together with the two further cells that the
    screen shows. *)
Record Screen : Type := mkScreen {
  cells : Component;
  currentPhase : option GamePhase;
  showContinuePrompt : bool
}.

Definition onReady (now : Z) : Screen :=
  mkScreen (mkComponent ready 0 0 [] None 0 None 0) None false.

(** [startGame], pressed when [Date.now()] is [now]. *)
Definition startGame (now : Z) (scr : Screen) : Screen :=
  mkScreen (DecisionTask.startGame now (cells scr))
           (Some (getCurrentPhase 1))
           (showContinuePrompt scr).

Section Session.
Variable draws : nat -> Q.

(** A door is pressed. *)
Definition choose (c : DoorChoice) (now : Z) (scr : Screen) : Screen :=
  mkScreen (handleDoorChoice draws c now (cells scr))
           (currentPhase scr) (showContinuePrompt scr).

(** The callback set after trial 40. *)
Definition promptCallback (scr : Screen) : Screen :=
  let s := cells scr in
  mkScreen (mkComponent continue_prompt (currentTrial s) (totalReward s) (trials s)
                        (lastReward s) (startTime s) None (drawn s))
           (currentPhase scr) true.

(** The callback set after any other trial but the last, run when
    [Date.now()] is [now]. *)
Definition nextTrialCallback (now : Z) (scr : Screen) : Screen :=
  let s := cells scr in
  mkScreen (mkComponent playing (currentTrial s + 1)%Z (totalReward s) (trials s)
                        (lastReward s) now None (drawn s))
           (Some (getCurrentPhase (currentTrial s + 1)))
           (showContinuePrompt scr).

(** [handleContinueChoice(true)] *)
Definition continueGame (now : Z) (scr : Screen) : Screen :=
  let s := cells scr in
  mkScreen (mkComponent playing (currentTrial s + 1)%Z (totalReward s) (trials s)
                        (lastReward s) now (timer s) (drawn s))
           (Some (getCurrentPhase (currentTrial s + 1)))
           false.

(** One trial: the door is pressed at [pressed] and the timer that this sets
    runs at [later].  The timer of the last trial runs [finishGame], which is
    not part of this step: the screen then waits with the reward shown. *)
Definition playTrial (x : DoorChoice * Z * Z) (scr : Screen) : Screen :=
  let '(c, pressed, later) := x in
  let shown := choose c pressed scr in
  match gameState (cells scr), timer (cells shown) with
  | playing, Some DecisionTask.showContinuePrompt => promptCallback shown
  | playing, Some DecisionTask.nextTrial => nextTrialCallback later shown
  | _, _ => shown
  end.

Definition playAll (xs : list (DoorChoice * Z * Z)) (scr : Screen) : Screen :=
  fold_left (fun screen x => playTrial x screen) xs scr.
End Session.

(** [`decision-${Date.now()}`] *)
Definition sessionIdAt (now : Z) : string :=
  ("decision-" ++ NilZero.string_of_int (Z.to_int now))%string.

(** [finishGame], reading the cells [s] and the best score [bestScore]: it
    saves the performance and yields the score and the best score that the
    screen shows afterwards. *)
Definition finishGame (s : Component) (bestScore : Z) : StorageService.Async (Z * Z) :=
  let metrics := calculateMetrics s in
  let calculatedScore := ScoringService.calculateScore decision_task metrics in
  now <- StorageService.Date_now ;;
  now' <- StorageService.Date_now ;;
  StorageService.savePerformance
    (mkPerformance (sessionIdAt now) decision_task (inject_Z calculatedScore) now' metrics) ;;
  ret (calculatedScore,
       if (bestScore <? calculatedScore)%Z then calculatedScore else bestScore).

(** The rewards that a trial can bring, with their types. *)
Definition rewardOfRule (t : Trial) : Prop :=
  (reward t = 10%Z /\ rewardType t = high)
  \/ (reward t = 2%Z /\ rewardType t = low)
  \/ (reward t = 0%Z /\ rewardType t = none /\ (31 <= trial t <= 40)%Z).

Definition sumRewards (ts : list Trial) : Z :=
  fold_right (fun t acc => (reward t + acc)%Z) 0%Z ts.

End DecisionSession.

(** ** app/tasks/spatial-memory: checking the input *)

Module SpatialMemory.

(** [userSeq.every((cell, index) => cell === sequence[index])], from
    position [index] on; a position beyond the end of [sequence] holds
    [undefined], which no cell equals. *)
Fixpoint everyFrom (index : nat) (userSeq sequence : list Z) : bool :=
  match userSeq with
  | [] => true
  | cell :: rest =>
      match nth_error sequence index with
      | Some shown => (cell =? shown)%Z && everyFrom (S index) rest sequence
      | None => false
      end
  end.

Definition isCorrect (userSeq sequence : list Z) : bool :=
  everyFrom 0 userSeq sequence.

End SpatialMemory.

(** ** The metrics that the task screens hand to the scoring service *)

Module Bags.

(** The reaction-time screen: [{ reactionTimes, averageReactionTime }]. *)
Definition reactionBag (average : Q) : TaskMetrics :=
  mkMetrics None None None None (Some average) None None None None None None
            None None None None None None None None None None.

(** The Tower of Hanoi screen: [{ moves, solveTime, minMoves }]. *)
Definition hanoiBag (movesUsed solveTimeMs minimum : Q) : TaskMetrics :=
  mkMetrics None None None None None (Some movesUsed) (Some solveTimeMs) (Some minimum)
            None None None None None None None None None None None None None.

End Bags.

(** * Properties *)

Import JS ScoringService Spec.

(** ** Arithmetic of the primitives *)

Lemma geb_true (x y : Q) : geb x y = true <-> y <= x.
Proof. unfold geb. apply Qle_bool_iff. Qed.

Lemma geb_false (x y : Q) : geb x y = false <-> x < y.
Proof.
  unfold geb. split; intro H.
  - apply Qnot_le_lt. intro Hle. apply Qle_bool_iff in Hle. congruence.
  - destruct (Qle_bool y x) eqn:E; trivial.
    apply Qle_bool_iff in E. exfalso. apply (Qlt_not_le _ _ H E).
Qed.

Lemma ltb_true (x y : Q) : ltb x y = true <-> x < y.
Proof.
  unfold ltb. rewrite negb_true_iff. apply geb_false.
Qed.

Lemma gtb_true (x y : Q) : gtb x y = true <-> y < x.
Proof.
  unfold gtb. rewrite negb_true_iff. apply (geb_false y x).
Qed.

Lemma Math_round_nonneg (x : Q) : 0 <= x -> (0 <= Math_round x)%Z.
Proof.
  intro H. unfold Math_round.
  change 0%Z with (Qfloor 0). apply Qfloor_resp_le. lra.
Qed.

Lemma Math_round_nearest (x : Q) : Qabs (inject_Z (Math_round x) - x) <= 1 # 2.
Proof.
  unfold Math_round.
  pose proof (Qfloor_le (x + (1 # 2))) as Hlo.
  pose proof (Qlt_floor (x + (1 # 2))) as Hhi.
  rewrite inject_Z_plus in Hhi. change (inject_Z 1) with 1 in Hhi.
  apply Qabs_Qle_condition. split; lra.
Qed.

Lemma Qdiv_pos (a b : Q) : 0 < a -> 0 < b -> 0 < a / b.
Proof.
  intros Ha Hb. unfold Qdiv.
  apply Qmult_lt_0_compat; [assumption | apply Qinv_lt_0_compat; assumption].
Qed.

(** ** The tapping curve *)

Ltac split_rate r :=
  repeat match goal with
    | |- context [geb r ?c] =>
        let E := fresh "E" in
        destruct (geb r c) eqn:E;
        [apply geb_true in E | apply geb_false in E];
        cbv iota
    end.

Ltac split_min :=
  repeat match goal with
    | |- context [Qmin ?a ?b] =>
        let H := fresh "Hmin" in
        let H' := fresh "Hmin" in
        destruct (Q.min_spec a b) as [[H H'] | [H H']];
        rewrite H'
    end.

Ltac halves := unfold Qdiv; change (/ 2) with (1 # 2).

Lemma tappingPoints_monotone (r s : Q) :
  r <= s -> tappingPoints r <= tappingPoints s.
Proof.
  intro Hrs. unfold tappingPoints.
  split_rate r; split_rate s; split_min; halves; lra.
Qed.

Lemma tappingPoints_lipschitz (r s : Q) :
  Qabs (tappingPoints r - tappingPoints s) <= 20 * Qabs (r - s).
Proof.
  assert (bound : forall a b, a <= b ->
            tappingPoints b - tappingPoints a <= 20 * (b - a)).
  { intros a b Hab. unfold tappingPoints.
    split_rate a; split_rate b; split_min; halves; lra. }
  destruct (Qlt_le_dec r s) as [Hlt | Hle].
  - assert (Hm := tappingPoints_monotone r s (Qlt_le_weak _ _ Hlt)).
    assert (Hb := bound r s (Qlt_le_weak _ _ Hlt)).
    rewrite (Qabs_neg (tappingPoints r - tappingPoints s)) by lra.
    rewrite (Qabs_neg (r - s)) by lra. lra.
  - assert (Hm := tappingPoints_monotone s r Hle).
    assert (Hb := bound s r Hle).
    rewrite (Qabs_pos (tappingPoints r - tappingPoints s)) by lra.
    rewrite (Qabs_pos (r - s)) by lra. lra.
Qed.

Lemma tappingPoints_continuous (b eps : Q) :
  0 < eps ->
  exists delta, 0 < delta /\
    forall r, Qabs (r - b) < delta -> Qabs (tappingPoints r - tappingPoints b) < eps.
Proof.
  intro Heps. exists (eps / 20). split.
  - apply Qdiv_pos; lra.
  - intros r Hr.
    apply Qle_lt_trans with (20 * Qabs (r - b)).
    + apply tappingPoints_lipschitz.
    + assert (H : 20 * (eps / 20) == eps) by (field).
      lra.
Qed.

Lemma tappingPoints_nonneg (r : Q) : 0 <= r -> 0 <= tappingPoints r.
Proof.
  intro H. apply Qle_trans with (tappingPoints 0).
  - vm_compute. discriminate.
  - apply tappingPoints_monotone. exact H.
Qed.

(** C6.  Before rounding, the tapping score is a continuous and
    non-decreasing function of the tap rate over the non-negative rates; the
    rates 1, 3, 5, 7, 9 map to 20, 50, 70, 85, 95; and 52 taps in 10000 ms
    score 72. *)
Theorem tapping_curve_shape :
  (forall b, In b [1; 3; 5; 7; 9] ->
     forall eps, 0 < eps ->
       exists delta, 0 < delta /\
         forall r, 0 <= r -> Qabs (r - b) < delta ->
           Qabs (tappingPoints r - tappingPoints b) < eps)
  /\ (forall r s, 0 <= r -> r <= s -> tappingPoints r <= tappingPoints s)
  /\ (tappingPoints 1 == 20 /\ tappingPoints 3 == 50 /\ tappingPoints 5 == 70
      /\ tappingPoints 7 == 85 /\ tappingPoints 9 == 95)
  /\ (forall taps ms, falsy (Some taps) = false -> falsy (Some ms) = false ->
        calculateTappingScore (tappingBag taps ms)
        = Z.min (Math_round (tappingPoints (taps / (ms / 1000)))) 100)
  /\ calculateTappingScore (tappingBag 52 10000) = 72%Z.
Proof.
  split; [| split; [| split; [| split]]].
  - intros b _ eps Heps.
    destruct (tappingPoints_continuous b eps Heps) as [delta [Hd Hc]].
    exists delta. split; [exact Hd | intros r _ Hr; apply Hc; exact Hr].
  - intros r s _ Hrs. apply tappingPoints_monotone. exact Hrs.
  - repeat split; reflexivity.
  - intros taps ms Ht Hm. unfold calculateTappingScore, tappingBag.
    cbn [numberOfTaps duration]. rewrite Ht, Hm. reflexivity.
  - reflexivity.
Qed.

Lemma tapping_curve_shape_witness :
  tappingPoints (26 # 5) <= tappingPoints 6
  /\ calculateTappingScore (tappingBag 52 10000) = 72%Z.
Proof.
  destruct tapping_curve_shape as [_ [Hmono [_ [_ Hex]]]].
  split; [apply Hmono; lra | exact Hex].
Defined.

(** ** Guards and ranges of the formulas *)

Lemma calculateScore_raw (t : TaskType) (m : TaskMetrics) :
  calculateScore t m =
  match rawScore t m with
  | None => 0%Z
  | Some raw => Z.min (Math_round raw) 100
  end.
Proof.
  destruct t; unfold rawScore, calculateScore, requiredFields, existsb, field;
    [ unfold calculateTappingScore
    | unfold calculateStroopScore
    | unfold calculateReactionTimeScore
    | unfold calculateTowerOfHanoiScore
    | unfold calculateSpatialMemoryScore
    | unfold calculateDecisionTaskScore
    | unfold calculateSoundDiscriminationScore ];
    repeat match goal with
      | |- context [falsy ?x] => destruct (falsy x)
      end; reflexivity.
Qed.

(** C4.  When a field that the formula of the task type reads is absent or
    zero, the score is 0; the function is total, so nothing is raised. *)
Theorem calculateScore_missing_metric (t : TaskType) (m : TaskMetrics) (f : MetricField) :
  In f (requiredFields t) -> falsy (field f m) = true -> calculateScore t m = 0%Z.
Proof.
  intros Hin Hf. rewrite calculateScore_raw. unfold rawScore.
  assert (Hguard : existsb (fun g => falsy (field g m)) (requiredFields t) = true).
  { apply existsb_exists. exists f. split; assumption. }
  rewrite Hguard. reflexivity.
Qed.

Lemma calculateScore_missing_metric_witness :
  calculateScore stroop_test (stroopBag 18 0 1200) = 0%Z.
Proof.
  apply (calculateScore_missing_metric stroop_test _ IncorrectAnswers).
  - simpl. right. left. reflexivity.
  - reflexivity.
Defined.

Ltac open_field Hv F :=
  let V := fresh "V" in
  pose proof (Hv F) as V; unfold validField, field, derived in V;
  match type of V with
  | match ?x with _ => _ end =>
      let q := fresh "q" in
      let E := fresh "E" in
      destruct x as [q|]; cbn [falsy orb val];
      [ destruct (Qeq_bool q 0) eqn:E; cbn [orb] | ]; try exact I
  end.

Ltac bonus_nonneg :=
  repeat match goal with
    | |- context [Qmax 0 ?x] =>
        let B := fresh "B" in
        pose proof (Q.le_max_l 0 x) as B;
        generalize dependent (Qmax 0 x); intros
    end.

Lemma rawScore_nonneg (t : TaskType) (m : TaskMetrics) :
  validMetrics m ->
  match rawScore t m with
  | None => True
  | Some raw => 0 <= raw
  end.
Proof.
  intro Hv.
  destruct t; unfold rawScore, requiredFields, existsb, field.
  - open_field Hv NumberOfTaps. open_field Hv Duration.
    apply tappingPoints_nonneg. apply Qlt_le_weak.
    apply Qdiv_pos; [assumption | apply Qdiv_pos; [assumption | reflexivity]].
  - open_field Hv CorrectAnswers. open_field Hv IncorrectAnswers.
    open_field Hv AverageReactionTime.
    assert (A : 0 < q / (q + q0)) by (apply Qdiv_pos; lra).
    bonus_nonneg. generalize dependent (q / (q + q0)). intros. lra.
  - open_field Hv AverageReactionTime. apply Q.le_max_l.
  - open_field Hv Moves. open_field Hv SolveTime. open_field Hv MinMoves.
    assert (A : 0 < q1 / q) by (apply Qdiv_pos; lra).
    bonus_nonneg. generalize dependent (q1 / q). intros. lra.
  - open_field Hv CorrectMatches. open_field Hv TotalAttempts.
    open_field Hv SequenceLength.
    assert (A : 0 < q / q0) by (apply Qdiv_pos; lra).
    generalize dependent (q / q0). intros. lra.
  - open_field Hv TotalReward. open_field Hv AdaptationRate.
    open_field Hv RiskTakingScore. open_field Hv LearningScore.
    assert (A : 0 <= Qmin (q / 10) 40).
    { apply Q.min_glb; [apply Qlt_le_weak, Qdiv_pos; lra | discriminate]. }
    generalize dependent (Qmin (q / 10) 40). intros. lra.
  - open_field Hv CorrectIdentifications. open_field Hv IncorrectIdentifications.
    open_field Hv AverageResponseTime.
    assert (A : 0 < q / (q + q0)) by (apply Qdiv_pos; lra).
    bonus_nonneg. generalize dependent (q / (q + q0)). intros. lra.
Qed.

(** C5.  On a valid bag every score is an integer between 0 and 100: the
    formula's value is not negative, it is rounded to the nearest integer and
    the result is clamped above at 100. *)
Theorem calculateScore_range (t : TaskType) (m : TaskMetrics) :
  validMetrics m ->
  (0 <= calculateScore t m <= 100)%Z
  /\ match rawScore t m with
     | None => calculateScore t m = 0%Z
     | Some raw =>
         0 <= raw
         /\ calculateScore t m = Z.min (Math_round raw) 100
         /\ Qabs (inject_Z (Math_round raw) - raw) <= 1 # 2
     end.
Proof.
  intro Hv.
  pose proof (rawScore_nonneg t m Hv) as Hraw.
  pose proof (calculateScore_raw t m) as Hcalc.
  destruct (rawScore t m) as [raw|].
  - pose proof (Math_round_nonneg raw Hraw) as Hround.
    split; [rewrite Hcalc; lia |].
    split; [exact Hraw | split; [exact Hcalc | apply Math_round_nearest]].
  - split; [rewrite Hcalc; lia | exact Hcalc].
Qed.

Lemma calculateScore_range_witness :
  validMetrics (stroopBag 18 2 1200)
  /\ (0 <= calculateScore stroop_test (stroopBag 18 2 1200) <= 100)%Z.
Proof.
  assert (Hv : validMetrics (stroopBag 18 2 1200)).
  { intro f. destruct f; simpl; try exact I; reflexivity. }
  split; [exact Hv | apply (calculateScore_range stroop_test _ Hv)].
Defined.

(** ** The overall score *)

Lemma reduce_sum_total {A : Type} (f : A -> Q) (xs : list A) :
  reduce_sum f xs == total (map f xs).
Proof.
  unfold reduce_sum.
  assert (G : forall acc, fold_left (fun sum x => sum + f x) xs acc
                          == acc + total (map f xs)).
  { induction xs as [|x xs IH]; intro acc; simpl.
    - lra.
    - rewrite IH. lra. }
  rewrite G. lra.
Qed.

Lemma positive_filter {K : Type} (scores : list (K * Q)) :
  filter (fun v => gtb v 0) (Object_values scores) = positiveEntries scores.
Proof.
  unfold positiveEntries, Object_values. apply filter_ext. intro v.
  destruct (Qlt_le_dec 0 v) as [Hpos | Hle].
  - apply gtb_true. exact Hpos.
  - destruct (gtb v 0) eqn:E; trivial.
    apply gtb_true in E. exfalso. apply (Qlt_not_le _ _ E Hle).
Qed.

(** C7.  The overall score is the rounded mean of the strictly positive
    entries, and 0 when there is none; zero entries do not count. *)
Theorem calculateOverallScore_mean {K : Type} (scores : list (K * Q)) :
  (positiveEntries scores = [] -> calculateOverallScore scores = 0%Z)
  /\ (positiveEntries scores <> [] ->
      calculateOverallScore scores = Math_round (mean (positiveEntries scores)))
  /\ calculateOverallScore (@nil (K * Q)) = 0%Z
  /\ calculateOverallScore [("a"%string, 0); ("b"%string, 80)] = 80%Z.
Proof.
  unfold calculateOverallScore. rewrite positive_filter.
  split; [| split; [| split]].
  - intros ->. reflexivity.
  - intro Hne. destruct (positiveEntries scores) as [|v vs] eqn:E; [congruence |].
    cbn [length Nat.eqb]. unfold Math_round, mean, len.
    apply Qfloor_comp. rewrite reduce_sum_total, map_id. reflexivity.
  - reflexivity.
  - reflexivity.
Qed.

Lemma calculateOverallScore_mean_witness :
  calculateOverallScore [(tapping_speed, 0); (stroop_test, 75); (reaction_time, 80)]
  = Math_round (mean [75; 80]).
Proof.
  destruct (calculateOverallScore_mean
              [(tapping_speed, 0); (stroop_test, 75); (reaction_time, 80)])
    as [_ [H _]].
  apply H. discriminate.
Defined.
(** ** Decision task: the derived metrics *)

Import DecisionTask.

Lemma adaptationStep_change (ts : list Trial) (acc : Q) (transition : Z) :
  adaptationStep ts acc transition == acc + orZero (transitionChange ts transition).
Proof.
  unfold adaptationStep, transitionChange, beforeTrials, DecisionTask.afterTrials.
  destruct (filter _ ts) as [|b bs]; cbn [length Nat.ltb Nat.leb andb orZero].
  - lra.
  - destruct (filter _ ts) as [|a rest]; cbn [length Nat.ltb Nat.leb andb orZero].
    + lra.
    + reflexivity.
Qed.

(** C3, as the code has it.  The adaptation rate is the sum of the changes at
    the transitions 8, 31 and 41 divided by 3; a transition with no recorded
    trial on one side adds nothing to the sum, and the divisor stays 3. *)
Theorem adaptationRate_fixed_divisor (s : Component) :
  exists a,
    adaptationRate (calculateMetrics s) = Some a
    /\ a == (orZero (transitionChange (trials s) 8)
             + orZero (transitionChange (trials s) 31)
             + orZero (transitionChange (trials s) 41)) / 3.
Proof.
  exists (adaptationScore (trials s)). split; [reflexivity |].
  unfold adaptationScore, phaseTransitions. cbn [fold_left].
  rewrite !adaptationStep_change.
  change (len [8%Z; 31%Z; 41%Z]) with 3.
  apply Qdiv_comp; [lra | reflexivity].
Qed.

(** C3, as the claim words it, fails on a session stopped after trial 40:
    the transition 41 is skipped, the code gives 2/3, the average over the
    two transitions that count is 1. *)
Lemma adaptationRate_average_counterexample :
  ~ (forall s : Component,
       exists a,
         adaptationRate (calculateMetrics s) = Some a
         /\ a == averageOverCounted (trials s)).
Proof.
  intro H.
  destruct (H (sessionEnded stoppedAtForty 80)) as [a [Ha Heq]].
  cbn [calculateMetrics adaptationRate] in Ha.
  injection Ha as <-.
  revert Heq. vm_compute. discriminate.
Qed.

(** ** Decision task: the reward of a trial *)

Lemma ltb_dec (x y : Q) :
  ltb x y = if Qlt_le_dec x y then true else false.
Proof.
  destruct (Qlt_le_dec x y) as [Hlt | Hle].
  - apply ltb_true. exact Hlt.
  - destruct (ltb x y) eqn:E; trivial.
    apply ltb_true in E. exfalso. apply (Qlt_not_le _ _ E Hle).
Qed.

Ltac decide_bounds :=
  repeat match goal with
    | |- context [(?a <=? ?b)%Z] =>
        destruct (Z.leb_spec a b); try lia; cbn [andb]
    end.

Lemma getCurrentPhase_probability (t : Z) (c : DoorChoice) :
  (1 <= t <= 50)%Z ->
  match c with
  | left_door => leftProbability (getCurrentPhase t)
  | right_door => rightProbability (getCurrentPhase t)
  end = doorProbability t c.
Proof.
  intro Ht. unfold getCurrentPhase, gamePhases, doorProbability.
  cbn [find startTrial endTrial].
  decide_bounds; destruct c; reflexivity.
Qed.

Lemma resolveReward_rule (draws : nat -> Q) (t : Z) (c : DoorChoice) (k : nat) :
  (1 <= t <= 50)%Z ->
  resolveReward draws t c k =
  (rewardRule t c (draws k) (draws (S k)),
   if (31 <=? t)%Z && (t <=? 40)%Z
   then if Qlt_le_dec (draws k) (1 # 10) then S (S k) else S k
   else S k).
Proof.
  intro Ht. unfold resolveReward, rewardRule.
  pose proof (getCurrentPhase_probability t c Ht) as Hp.
  destruct ((31 <=? t)%Z && (t <=? 40)%Z) eqn:Hf.
  - rewrite ltb_dec. destruct (Qlt_le_dec (draws k) (1 # 10)); [| reflexivity].
    destruct c; rewrite Hp, ltb_dec;
      destruct (Qlt_le_dec (draws (S k)) _); reflexivity.
  - rewrite Hp, ltb_dec.
    destruct (Qlt_le_dec (draws k) _); reflexivity.
Qed.

(** C8.  A door choice on trial [t] of 1..50 records the trial with the
    reward of the rule: outside trials 31-40 one draw against the door's
    probability picks 10 or 2; inside them a first draw below 0.1 lets a
    second draw against 0.1 pick 10 or 2, and otherwise the reward is 0 of
    type none. *)
Theorem handleDoorChoice_reward
  (draws : nat -> Q) (c : DoorChoice) (now : Z) (s : Component) :
  gameState s = playing ->
  (1 <= currentTrial s <= 50)%Z ->
  let t := currentTrial s in
  let first := draws (drawn s) in
  let second := draws (S (drawn s)) in
  let s' := handleDoorChoice draws c now s in
  trials s' =
    trials s ++ [mkTrial t c (fst (rewardRule t c first second))
                         (snd (rewardRule t c first second)) (now - startTime s)]
  /\ DecisionTask.totalReward s'
     = (DecisionTask.totalReward s + fst (rewardRule t c first second))%Z
  /\ lastReward s' = Some (rewardRule t c first second)
  /\ drawn s' =
     (if (31 <=? t)%Z && (t <=? 40)%Z
      then if Qlt_le_dec first (1 # 10) then S (S (drawn s)) else S (drawn s)
      else S (drawn s))
  /\ rewardRule t c first second =
     (if (31 <=? t)%Z && (t <=? 40)%Z
      then if Qlt_le_dec first (1 # 10)
           then if Qlt_le_dec second (1 # 10) then (highReward, high) else (lowReward, low)
           else (0%Z, none)
      else if Qlt_le_dec first (doorProbability t c)
           then (highReward, high) else (lowReward, low)).
Proof.
  intros Hplaying Ht t first second s'.
  subst s'. unfold handleDoorChoice. rewrite Hplaying.
  rewrite (resolveReward_rule draws _ c (drawn s) Ht).
  fold t first second.
  destruct (rewardRule t c first second) as [r ty] eqn:Hrule.
  cbn [trials DecisionTask.totalReward lastReward drawn fst snd].
  repeat split.
  rewrite <- Hrule. unfold rewardRule.
  destruct ((31 <=? t)%Z && (t <=? 40)%Z) eqn:Hf; [| reflexivity].
  assert (Hp : doorProbability t c = 1 # 10).
  { unfold doorProbability. apply andb_true_iff in Hf. destruct Hf as [H1 H2].
    apply Z.leb_le in H1, H2.
    destruct (Z.leb_spec t 7); [lia |].
    destruct (Z.leb_spec t 30); [lia |].
    destruct (Z.leb_spec t 40); [reflexivity | lia]. }
  rewrite Hp. reflexivity.
Qed.

Lemma handleDoorChoice_reward_witness :
  trials (handleDoorChoice (fun _ => 1 # 20) left_door 1500 (awaitingChoice 35 1000))
  = [mkTrial 35 left_door 10 high 500].
Proof.
  destruct (handleDoorChoice_reward (fun _ => 1 # 20) left_door 1500
              (awaitingChoice 35 1000)) as [H _].
  - reflexivity.
  - simpl. lia.
  - exact H.
Defined.

(** ** Storage: running the operations *)

Import StorageService.

Ltac run_async :=
  unfold savePerformance, updateUserStats, getUserStats, getPerformances,
    setPerformances, setUserStats, markChallengeTaskComplete, getTodaysChallenge,
    saveDailyChallenge, getDailyChallenges, setDailyChallenges, putStore, getStore,
    Date_now, localZone, execState, evalState;
  cbn.

Lemma markChallengeTaskComplete_frame (t : TaskType) (d : Device) :
  let d' := execState (markChallengeTaskComplete t) d in
  USER_STATS (store d') = USER_STATS (store d)
  /\ PERFORMANCES (store d') = PERFORMANCES (store d)
  /\ clock d' = clock d /\ tzOffset d' = tzOffset d.
Proof.
  destruct d as [[ps cs us] now tz]. run_async.
  destruct cs as [cs|]; cbn.
  - match goal with
    | |- context [find ?f cs] => destruct (find f cs) as [c|]
    end; cbn; [| repeat split].
    destruct (includes (completedTasks c) t); cbn; repeat split.
  - repeat split.
Qed.

(** [updateUserStats] stores the renewed statistics and then marks the
    challenge. *)
Lemma updateUserStats_runs (p : UserPerformance) (d : Device) :
  let stats := evalState getUserStats d in
  let performances := evalState getPerformances d in
  let taskPerformances :=
    filter (fun q => TaskType_eqb (taskType q) (taskType p)) performances in
  let today := toDateString (tzOffset d) (clock d) in
  let yesterday := toDateString (tzOffset d) (clock d - msPerDay) in
  let lastActivityDate := toDateString (tzOffset d) (lastActivity stats) in
  let renewed :=
    mkStats (totalScore stats + score p)
            (if (lastActivityDate =? yesterday)%Z then (streak stats + 1)%Z
             else if negb (lastActivityDate =? today)%Z then 1%Z
             else streak stats)
            (tasksCompleted stats + 1)%Z
            (setScore (averageScores stats) (taskType p)
                      (reduce_sum score taskPerformances / len taskPerformances))
            (clock d) in
  execState (updateUserStats p) d =
  execState (markChallengeTaskComplete (taskType p))
    (mkDevice (mkStorage (PERFORMANCES (store d)) (DAILY_CHALLENGES (store d))
                         (Some renewed))
              (clock d) (tzOffset d)).
Proof.
  destruct d as [[ps cs us] now tz]. run_async.
  destruct us as [st|], ps as [ps|]; reflexivity.
Qed.

(** The statistics that [updateUserStats] stores. *)
Lemma updateUserStats_stored (p : UserPerformance) (d : Device) :
  let stats := evalState getUserStats d in
  let performances := evalState getPerformances d in
  let taskPerformances :=
    filter (fun q => TaskType_eqb (taskType q) (taskType p)) performances in
  let today := toDateString (tzOffset d) (clock d) in
  let yesterday := toDateString (tzOffset d) (clock d - msPerDay) in
  let lastActivityDate := toDateString (tzOffset d) (lastActivity stats) in
  USER_STATS (store (execState (updateUserStats p) d)) =
  Some (mkStats (totalScore stats + score p)
                (if (lastActivityDate =? yesterday)%Z then (streak stats + 1)%Z
                 else if negb (lastActivityDate =? today)%Z then 1%Z
                 else streak stats)
                (tasksCompleted stats + 1)%Z
                (setScore (averageScores stats) (taskType p)
                          (reduce_sum score taskPerformances / len taskPerformances))
                (clock d)).
Proof.
  intros. rewrite updateUserStats_runs.
  match goal with
  | |- context [execState (markChallengeTaskComplete ?t) ?dev] =>
      destruct (markChallengeTaskComplete_frame t dev) as [Hs _]; rewrite Hs
  end.
  reflexivity.
Qed.

Lemma updateUserStats_keeps_history (p : UserPerformance) (d : Device) :
  PERFORMANCES (store (execState (updateUserStats p) d)) = PERFORMANCES (store d).
Proof.
  rewrite updateUserStats_runs.
  match goal with
  | |- context [execState (markChallengeTaskComplete ?t) ?dev] =>
      destruct (markChallengeTaskComplete_frame t dev) as [_ [Hp _]]; rewrite Hp
  end.
  reflexivity.
Qed.

Lemma savePerformance_runs (p : UserPerformance) (d : Device) :
  execState (savePerformance p) d =
  execState (updateUserStats p)
    (mkDevice (mkStorage (Some (evalState getPerformances d ++ [p]))
                         (DAILY_CHALLENGES (store d)) (USER_STATS (store d)))
              (clock d) (tzOffset d)).
Proof.
  destruct d as [[ps cs us] now tz]. run_async.
  destruct ps as [ps|]; reflexivity.
Qed.

(** ** Storage: the average of a task type *)

(** C9.  After a performance is saved, the history is the old one with the
    performance appended, and the stored average of its task type is the
    mean of the scores of all stored performances of that type. *)
Theorem savePerformance_average (p : UserPerformance) (d : Device) :
  let history := evalState getPerformances d in
  let d' := execState (savePerformance p) d in
  PERFORMANCES (store d') = Some (history ++ [p])
  /\ exists st,
       USER_STATS (store d') = Some st
       /\ averageScores st (taskType p) ==
          mean (map score
                    (filter (fun q => TaskType_eqb (taskType q) (taskType p))
                            (history ++ [p]))).
Proof.
  intros history d'. subst d'. rewrite savePerformance_runs. fold history.
  split.
  - rewrite updateUserStats_keeps_history. reflexivity.
  - eexists. split; [apply updateUserStats_stored |].
    cbn [averageScores]. unfold setScore.
    destruct (TaskType_eq_dec (taskType p) (taskType p)) as [_ | Hne];
      [| contradiction].
    unfold evalState at 1. cbn.
    unfold mean, len. apply Qdiv_comp.
    + apply (reduce_sum_total score).
    + rewrite length_map. reflexivity.
Qed.

(** ** Storage: what an update leaves alone *)

(** C10.  An update keeps the averages of the other six task types, and the
    history; of the statistics it renews the total, the count, the streak,
    the time of the last activity and the one average. *)
Theorem updateUserStats_frame (p : UserPerformance) (d : Device) :
  let prior := evalState getUserStats d in
  let d' := execState (updateUserStats p) d in
  PERFORMANCES (store d') = PERFORMANCES (store d)
  /\ exists st,
       USER_STATS (store d') = Some st
       /\ (forall t, t <> taskType p -> averageScores st t = averageScores prior t)
       /\ totalScore st = totalScore prior + score p
       /\ tasksCompleted st = (tasksCompleted prior + 1)%Z
       /\ lastActivity st = clock d.
Proof.
  intros prior d'. subst d'. split; [apply updateUserStats_keeps_history |].
  eexists. split; [apply updateUserStats_stored |].
  cbn [averageScores totalScore tasksCompleted lastActivity]. fold prior.
  repeat split.
  intros t Ht. unfold setScore.
  destruct (TaskType_eq_dec t (taskType p)); [contradiction | reflexivity].
Qed.

Lemma updateUserStats_frame_witness :
  exists st,
    USER_STATS (store (execState (updateUserStats (session stroop_test 90 86400000))
                                 (freshDevice 86400000))) = Some st
    /\ averageScores st tapping_speed = 0.
Proof.
  destruct (updateUserStats_frame (session stroop_test 90 86400000)
              (freshDevice 86400000)) as [_ [st [Hst [Hother _]]]].
  exists st. split; [exact Hst |].
  rewrite (Hother tapping_speed); [reflexivity | discriminate].
Defined.

(** ** Storage: the streak *)

Lemma yesterday_is_the_day_before (tz now : Z) :
  toDateString tz (now - msPerDay) = (toDateString tz now - 1)%Z.
Proof.
  unfold toDateString.
  replace (now - msPerDay + tz)%Z with (now + tz + (-1) * msPerDay)%Z by lia.
  rewrite Z.div_add by (unfold msPerDay; lia). lia.
Qed.

(** The streak after an update, by the calendar day of the last activity
    that [getUserStats] reports. *)
Lemma updateUserStats_streak (p : UserPerformance) (d : Device) :
  let prior := evalState getUserStats d in
  let today := toDateString (tzOffset d) (clock d) in
  let last := toDateString (tzOffset d) (lastActivity prior) in
  exists st,
    USER_STATS (store (execState (updateUserStats p) d)) = Some st
    /\ (last = (today - 1)%Z -> streak st = (streak prior + 1)%Z)
    /\ (last = today -> streak st = streak prior)
    /\ (last <> today -> last <> (today - 1)%Z -> streak st = 1%Z).
Proof.
  intros prior today last.
  eexists. split; [apply updateUserStats_stored |].
  cbn [streak]. fold prior. rewrite yesterday_is_the_day_before. fold today last.
  destruct (Z.eqb_spec last (today - 1)) as [Hy | Hy];
    destruct (Z.eqb_spec last today) as [Ht | Ht]; cbn [negb];
    repeat split; intros; try reflexivity; try lia; contradiction.
Qed.

(** C1, where the code departs from it.  With nothing stored, [getUserStats]
    reports a last activity at the present instant, which is today: the first
    performance ever saved leaves the streak at 0, not at 1. *)
Theorem first_save_leaves_streak_zero (p : UserPerformance) (d : Device) :
  USER_STATS (store d) = None ->
  exists st,
    USER_STATS (store (execState (savePerformance p) d)) = Some st
    /\ streak st = 0%Z.
Proof.
  intro Hnone. rewrite savePerformance_runs.
  match goal with
  | |- context [execState (updateUserStats p) ?dev] =>
      destruct (updateUserStats_streak p dev) as [st [Hst [_ [Htoday _]]]]
  end.
  exists st. split; [exact Hst |].
  rewrite Htoday.
  - unfold evalState, getUserStats, getStore, Date_now. cbn. rewrite Hnone. reflexivity.
  - unfold evalState, getUserStats, getStore, Date_now. cbn. rewrite Hnone. reflexivity.
Qed.

(** With stored statistics the streak follows the calendar: it grows after a
    day with activity, and starts again at 1 after a gap. *)
Example streak_continues_from_yesterday :
  let now := 1700000000000%Z in
  option_map streak
    (USER_STATS (store (execState (savePerformance (session stroop_test 90 now))
                                  (deviceWith [] (mkStats 200 4 3 (fun _ => 0)
                                                          (now - msPerDay)) now))))
  = Some 5%Z.
Proof. reflexivity. Qed.

Example streak_restarts_after_a_gap :
  let now := 1700000000000%Z in
  option_map streak
    (USER_STATS (store (execState (savePerformance (session stroop_test 90 now))
                                  (deviceWith [] (mkStats 200 4 3 (fun _ => 0)
                                                          (now - 3 * msPerDay)) now))))
  = Some 1%Z.
Proof. reflexivity. Qed.

Lemma first_save_leaves_streak_zero_witness :
  exists st,
    USER_STATS (store (execState (savePerformance (session tapping_speed 72 1700000000000))
                                 (freshDevice 1700000000000))) = Some st
    /\ streak st = 0%Z.
Proof.
  apply (first_save_leaves_streak_zero (session tapping_speed 72 1700000000000)
           (freshDevice 1700000000000)).
  reflexivity.
Defined.

(** ** Storage: the daily challenge *)

(** C2, where the code departs from it.  A saved performance of a task type
    that is not among the tasks of today's challenge is listed as completed
    all the same; three such performances set the [completed] flag although
    none of the challenge's tasks has been done, and a first task of the
    challenge then clears the flag again. *)
Theorem foreign_task_is_marked_complete :
  let now := 1700000000000%Z in
  let once :=
    execState (savePerformance (session decision_task 59 now)) (challengeDevice now) in
  let thrice :=
    execState (savePerformance (session tower_of_hanoi 40 now) ;;
               savePerformance (session spatial_memory 55 now) ;;
               savePerformance (session decision_task 59 now))%monad
              (challengeDevice now) in
  let fourth :=
    execState (savePerformance (session tapping_speed 72 now)) thrice in
  map progress (challengesOf (challengeDevice now))
    = [([tapping_speed; stroop_test; reaction_time], [], false)]
  /\ map progress (challengesOf once)
     = [([tapping_speed; stroop_test; reaction_time], [decision_task], false)]
  /\ map progress (challengesOf thrice)
     = [([tapping_speed; stroop_test; reaction_time],
         [tower_of_hanoi; spatial_memory; decision_task], true)]
  /\ map progress (challengesOf fourth)
     = [([tapping_speed; stroop_test; reaction_time],
         [tower_of_hanoi; spatial_memory; decision_task; tapping_speed], false)].
Proof.
  vm_compute. repeat split.
Qed.

Lemma includes_In (xs : list TaskType) (t : TaskType) :
  includes xs t = true <-> In t xs.
Proof.
  unfold includes. rewrite existsb_exists. split.
  - intros [x [Hin Heq]]. unfold TaskType_eqb in Heq.
    destruct (TaskType_eq_dec t x); [subst; exact Hin | discriminate].
  - intro Hin. exists t. split; [exact Hin |].
    unfold TaskType_eqb. destruct (TaskType_eq_dec t t); [reflexivity | contradiction].
Qed.

(** X8.  What does hold of every challenge, whatever task types are saved:
    no task type is listed twice and the flag follows the two lengths. *)
Lemma markChallengeTaskComplete_countInvariant (t : TaskType) (d : Device) :
  Forall countInvariant (challengesOf d) ->
  Forall countInvariant (challengesOf (execState (markChallengeTaskComplete t) d)).
Proof.
  destruct d as [[ps cs us] now tz]. unfold challengesOf. run_async.
  destruct cs as [cs|]; cbn; [| trivial].
  intro Hall.
  match goal with
  | |- context [find ?f cs] => destruct (find f cs) as [c|] eqn:Hfind
  end; cbn; [| exact Hall].
  destruct (includes (completedTasks c) t) eqn:Hinc; cbn; [exact Hall |].
  apply Forall_app. split.
  - rewrite Forall_forall in *. intros x Hx.
    apply filter_In in Hx. apply Hall. tauto.
  - constructor; [| constructor].
    apply find_some in Hfind. destruct Hfind as [Hin _].
    rewrite Forall_forall in Hall. destruct (Hall c Hin) as [Hnodup _].
    split; cbn.
    + apply NoDup_app; [exact Hnodup | repeat constructor; intros [] |].
      intros x Hx [<- | []].
      apply includes_In in Hx. congruence.
    + apply Nat.eqb_eq.
Qed.

(** The scenarios of the scoring engine. *)
Example stroop_session_is_clamped :
  calculateScore stroop_test (stroopBag 18 2 1200) = 100%Z.
Proof. reflexivity. Qed.

Example decision_session_scores_59 :
  calculateScore decision_task
    (mkMetrics None None None None None None None None None None None None None
               (Some 300) (Some (4 # 10)) (Some (6 # 10)) (Some (5 # 10))
               None None None None) = 59%Z.
Proof. reflexivity. Qed.

(** * Further properties of the code *)

(** ** Storage: history and statistics together *)

Import Env.

Lemma historyOf_stored (d : Device) :
  historyOf d = match PERFORMANCES (store d) with Some ps => ps | None => [] end.
Proof.
  destruct d as [[ps cs us] now tz]. unfold historyOf. run_async.
  destruct ps; reflexivity.
Qed.

Lemma statsOf_stored (d : Device) :
  statsOf d = match USER_STATS (store d) with
              | Some st => st
              | None => defaultStats (clock d)
              end.
Proof.
  destruct d as [[ps cs us] now tz]. unfold statsOf. run_async.
  destruct us; reflexivity.
Qed.

Lemma savePerformance_history (p : UserPerformance) (d : Device) :
  historyOf (execState (savePerformance p) d) = historyOf d ++ [p].
Proof.
  rewrite historyOf_stored, savePerformance_runs, updateUserStats_keeps_history.
  reflexivity.
Qed.

(** X1.  A saved performance is found again under its task type, after the
    earlier ones of that type, and under no other type. *)
Theorem getPerformancesByTask_after_save (t : TaskType) (p : UserPerformance) (d : Device) :
  evalState (getPerformancesByTask t) (execState (savePerformance p) d)
  = evalState (getPerformancesByTask t) d
    ++ (if TaskType_eq_dec (taskType p) t then [p] else []).
Proof.
  assert (byTask : forall dev,
            evalState (getPerformancesByTask t) dev = ofType t (historyOf dev)).
  { intro dev. destruct dev as [[ps cs us] now tz].
    unfold getPerformancesByTask, historyOf. run_async. destruct ps; reflexivity. }
  rewrite !byTask, savePerformance_history. unfold ofType.
  rewrite filter_app. cbn [filter]. unfold TaskType_eqb.
  destruct (TaskType_eq_dec (taskType p) t); reflexivity.
Qed.

Lemma savePerformance_stats (p : UserPerformance) (d : Device) :
  let st := statsOf d in
  let mine := ofType (taskType p) (historyOf d ++ [p]) in
  let today := toDateString (tzOffset d) (clock d) in
  let last := toDateString (tzOffset d) (lastActivity st) in
  statsOf (execState (savePerformance p) d) =
  mkStats (totalScore st + score p)
          (if (last =? today - 1)%Z then (streak st + 1)%Z
           else if negb (last =? today)%Z then 1%Z else streak st)
          (tasksCompleted st + 1)%Z
          (setScore (averageScores st) (taskType p) (reduce_sum score mine / len mine))
          (clock d).
Proof.
  intros st mine today last.
  rewrite statsOf_stored, savePerformance_runs, updateUserStats_stored.
  cbn [clock tzOffset]. rewrite yesterday_is_the_day_before.
  subst st mine today last.
  destruct d as [[ps cs us] now tz]. unfold statsOf, historyOf, ofType. run_async.
  destruct us, ps; reflexivity.
Qed.

Lemma total_app (xs ys : list Q) : total (xs ++ ys) == total xs + total ys.
Proof.
  unfold total. induction xs as [|x xs IH]; cbn [app fold_right].
  - lra.
  - rewrite IH. lra.
Qed.

Lemma ofType_snoc (t : TaskType) (ps : list UserPerformance) (p : UserPerformance) :
  ofType t (ps ++ [p]) =
  ofType t ps ++ (if TaskType_eq_dec (taskType p) t then [p] else []).
Proof.
  unfold ofType. rewrite filter_app. cbn [filter]. unfold TaskType_eqb.
  destruct (TaskType_eq_dec (taskType p) t); reflexivity.
Qed.

Lemma consistent_setClock (now : Z) (d : Device) :
  consistent d -> consistent (setClock now d).
Proof.
  unfold consistent. rewrite !statsOf_stored, !historyOf_stored.
  destruct d as [[ps cs us] clk tz]. cbn. destruct us; trivial.
Qed.

Lemma savePerformance_consistent (p : UserPerformance) (d : Device) :
  consistent d -> consistent (execState (savePerformance p) d).
Proof.
  intros [Hcount [Htotal [Havg Hstreak]]]. unfold consistent.
  rewrite savePerformance_stats, savePerformance_history.
  cbn [tasksCompleted totalScore averageScores streak].
  repeat split.
  - rewrite Hcount, length_app. cbn [length]. lia.
  - rewrite map_app, total_app, Htotal. cbn. lra.
  - intros t Hne. unfold setScore.
    destruct (TaskType_eq_dec t (taskType p)) as [-> | Hother].
    + unfold mean, len. apply Qdiv_comp.
      * apply (reduce_sum_total score).
      * rewrite length_map. reflexivity.
    + rewrite ofType_snoc in *.
      destruct (TaskType_eq_dec (taskType p) t) as [E | _]; [congruence |].
      rewrite app_nil_r in *. apply Havg. exact Hne.
  - destruct (_ =? _)%Z; [lia |]. destruct (negb _); lia.
  - destruct (_ =? _)%Z; [lia |]. destruct (negb _); lia.
Qed.

Lemma replay_consistent (xs : list (Z * UserPerformance)) (d : Device) :
  consistent d -> consistent (replay xs d).
Proof.
  revert d. induction xs as [|x xs IH]; intros d Hd; cbn [replay fold_left].
  - exact Hd.
  - apply IH. unfold saveAt.
    apply savePerformance_consistent, consistent_setClock, Hd.
Qed.

Lemma replay_history (xs : list (Z * UserPerformance)) (d : Device) :
  historyOf (replay xs d) = historyOf d ++ map snd xs.
Proof.
  revert d. induction xs as [|x xs IH]; intro d; cbn [replay fold_left map].
  - rewrite app_nil_r. reflexivity.
  - fold (replay xs (saveAt x d)). rewrite IH. unfold saveAt.
    rewrite savePerformance_history, <- app_assoc.
    rewrite !historyOf_stored. reflexivity.
Qed.

(** X2.  Whatever was stored before, after [clearAllData] and any number of
    saved performances (at any times) the statistics agree with the history:
    the history is the saved performances in order, [tasksCompleted] is their
    number, [totalScore] their sum, the average of every task type that
    occurs is the mean of its scores, and the streak lies between 0 and the
    number of sessions. *)
Theorem statistics_follow_history (xs : list (Z * UserPerformance)) (d : Device) :
  let d' := replay xs (execState clearAllData d) in
  historyOf d' = map snd xs
  /\ tasksCompleted (statsOf d') = Z.of_nat (length xs)
  /\ totalScore (statsOf d') == total (map score (map snd xs))
  /\ (forall t, ofType t (map snd xs) <> [] ->
        averageScores (statsOf d') t == mean (map score (ofType t (map snd xs))))
  /\ (0 <= streak (statsOf d') <= Z.of_nat (length xs))%Z.
Proof.
  intro d'.
  assert (Hclear : store (execState clearAllData d) = mkStorage None None None).
  { destruct d as [[ps cs us] now tz]. reflexivity. }
  assert (Hcons : consistent (execState clearAllData d)).
  { unfold consistent. rewrite !statsOf_stored, !historyOf_stored, Hclear. cbn.
    repeat split; try reflexivity; try lia; intros t Ht; contradiction. }
  assert (Hhist : historyOf d' = map snd xs).
  { subst d'. rewrite replay_history, historyOf_stored, Hclear. reflexivity. }
  destruct (replay_consistent xs _ Hcons) as [Hcount [Htotal [Havg Hstreak]]].
  fold d' in Hcount, Htotal, Havg, Hstreak.
  rewrite Hhist in Hcount, Htotal, Havg. rewrite length_map in Hcount.
  rewrite Hcount in Hstreak.
  repeat split; try assumption; lia.
Qed.

Lemma statistics_follow_history_witness :
  averageScores
    (statsOf (replay [(1700000000000%Z, session stroop_test 80 1700000000000);
                      (1700000500000%Z, session tapping_speed 72 1700000500000);
                      (1700090000000%Z, session stroop_test 90 1700090000000)]
                     (execState clearAllData (challengeDevice 1700000000000))))
    stroop_test
  == mean [80; 90].
Proof.
  destruct (statistics_follow_history
              [(1700000000000%Z, session stroop_test 80 1700000000000);
               (1700000500000%Z, session tapping_speed 72 1700000500000);
               (1700090000000%Z, session stroop_test 90 1700090000000)]
              (challengeDevice 1700000000000)) as [_ [_ [_ [Havg _]]]].
  apply (Havg stroop_test). discriminate.
Defined.

(** ** Storage: the streak from one session to the next *)

Lemma savePerformance_zone (p : UserPerformance) (d : Device) :
  tzOffset (execState (savePerformance p) d) = tzOffset d
  /\ clock (execState (savePerformance p) d) = clock d.
Proof.
  rewrite savePerformance_runs, updateUserStats_runs.
  match goal with
  | |- context [execState (markChallengeTaskComplete ?t) ?dev] =>
      destruct (markChallengeTaskComplete_frame t dev) as [_ [_ [Hc Hz]]];
      rewrite Hc, Hz
  end.
  split; reflexivity.
Qed.




(** ** Storage: the list of daily challenges *)

Lemma challengesOf_saved (c : DailyChallenge) (d : Device) :
  challengesOf (execState (saveDailyChallenge c) d)
  = filter (fun x => negb (String.eqb (challengeId x) (challengeId c))) (challengesOf d)
    ++ [c].
Proof.
  destruct d as [[ps cs us] now tz]. unfold challengesOf. run_async.
  destruct cs; reflexivity.
Qed.

Lemma filter_filter_same {A : Type} (f : A -> bool) (xs : list A) :
  filter f (filter f xs) = filter f xs.
Proof.
  induction xs as [|x xs IH]; cbn [filter]; [reflexivity |].
  destruct (f x) eqn:E; cbn [filter]; [rewrite E, IH | rewrite IH]; reflexivity.
Qed.

Lemma filter_none {A : Type} (f : A -> bool) (xs : list A) :
  filter f (filter (fun x => negb (f x)) xs) = [].
Proof.
  induction xs as [|x xs IH]; cbn [filter]; [reflexivity |].
  destruct (f x) eqn:E; cbn [negb filter]; [exact IH | rewrite E; exact IH].
Qed.

(** X4.  [saveDailyChallenge] is an insert-or-replace by id: afterwards the
    list holds the challenge exactly once under its id, the challenges with
    other ids are kept in their order, the history and the statistics are
    untouched, and saving the same challenge again changes nothing. *)
Theorem saveDailyChallenge_upsert (c : DailyChallenge) (d : Device) :
  let d' := execState (saveDailyChallenge c) d in
  let sameId := fun x => String.eqb (challengeId x) (challengeId c) in
  filter sameId (challengesOf d') = [c]
  /\ filter (fun x => negb (sameId x)) (challengesOf d')
     = filter (fun x => negb (sameId x)) (challengesOf d)
  /\ PERFORMANCES (store d') = PERFORMANCES (store d)
  /\ USER_STATS (store d') = USER_STATS (store d)
  /\ execState (saveDailyChallenge c) d' = d'.
Proof.
  intros d' sameId. subst d'.
  assert (Hself : sameId c = true) by (apply String.eqb_refl).
  rewrite challengesOf_saved. fold sameId.
  rewrite !filter_app. cbn [filter]. rewrite Hself. cbn [negb].
  rewrite filter_none, filter_filter_same, app_nil_r.
  repeat split.
  - destruct d as [[ps cs us] now tz]. run_async. destruct cs; reflexivity.
  - destruct d as [[ps cs us] now tz]. run_async. destruct cs; reflexivity.
  - destruct d as [[ps cs us] now tz]. run_async.
    assert (Hagain : forall xs,
              filter (fun x => negb (sameId x)) (filter (fun x => negb (sameId x)) xs ++ [c])
              = filter (fun x => negb (sameId x)) xs).
    { intro xs. rewrite filter_app, filter_filter_same. cbn [filter].
      rewrite Hself. cbn [negb]. apply app_nil_r. }
    destruct cs as [cs|]; cbn; fold sameId.
    + rewrite Hagain. reflexivity.
    + rewrite String.eqb_refl. reflexivity.
Qed.

(** ** Storage: today's challenge *)

Import Calendar ChallengesScreen.

Lemma todaysChallenge_find (d : Device) :
  todaysChallenge d
  = find (fun c => (dayOf d c =? toDateString (tzOffset d) (clock d))%Z) (challengesOf d).
Proof.
  destruct d as [[ps cs us] now tz]. unfold todaysChallenge, challengesOf, dayOf.
  run_async. destruct cs; reflexivity.
Qed.

(** The challenge with task [t] pushed, as [markChallengeTaskComplete]
    rebuilds it. *)
Lemma markChallengeTaskComplete_challenges (t : TaskType) (d : Device) :
  challengesOf (execState (markChallengeTaskComplete t) d)
  = match todaysChallenge d with
    | None => challengesOf d
    | Some c =>
        if includes (completedTasks c) t then challengesOf d
        else filter (fun x => negb (String.eqb (challengeId x) (challengeId c)))
                    (challengesOf d)
             ++ [mkChallenge (challengeId c) (challengeDate c) (tasks c)
                   (Nat.eqb (length (completedTasks c ++ [t])) (length (tasks c)))
                   (completedTasks c ++ [t])]
    end.
Proof.
  destruct d as [[ps cs us] now tz]. unfold todaysChallenge, challengesOf.
  run_async. destruct cs as [cs|]; cbn; [| reflexivity].
  match goal with
  | |- context [find ?f cs] => destruct (find f cs) as [c|]
  end; cbn; [| reflexivity].
  destruct (includes (completedTasks c) t); reflexivity.
Qed.

Lemma savePerformance_challenges (p : UserPerformance) (d : Device) :
  challengesOf (execState (savePerformance p) d)
  = challengesOf (execState (markChallengeTaskComplete (taskType p)) d)
  /\ todaysChallenge (execState (savePerformance p) d)
     = todaysChallenge (execState (markChallengeTaskComplete (taskType p)) d).
Proof.
  assert (Hcs : challengesOf (execState (savePerformance p) d)
                = challengesOf (execState (markChallengeTaskComplete (taskType p)) d)).
  { rewrite savePerformance_runs, updateUserStats_runs.
    rewrite !markChallengeTaskComplete_challenges, !todaysChallenge_find.
    reflexivity. }
  split; [exact Hcs |].
  rewrite !todaysChallenge_find, Hcs.
  destruct (savePerformance_zone p d) as [Hz Hc].
  destruct (markChallengeTaskComplete_frame (taskType p) d) as [_ [_ [Hc' Hz']]].
  unfold dayOf. rewrite Hz, Hc, Hz', Hc'. reflexivity.
Qed.

Lemma NoDup_map_injective {A B : Type} (f : A -> B) (xs : list A) (x y : A) :
  NoDup (map f xs) -> In x xs -> In y xs -> f x = f y -> x = y.
Proof.
  induction xs as [|a xs IH]; cbn [map]; intros Hnd Hx Hy Hf; [contradiction |].
  inversion Hnd as [|? ? Hnotin Hnd']; subst.
  destruct Hx as [-> | Hx], Hy as [-> | Hy]; trivial.
  - exfalso. apply Hnotin. rewrite Hf. apply in_map. exact Hy.
  - exfalso. apply Hnotin. rewrite <- Hf. apply in_map. exact Hx.
  - apply IH; assumption.
Qed.

Lemma find_app_last {A : Type} (f : A -> bool) (xs : list A) (x : A) :
  (forall y, In y xs -> f y = false) -> f x = true -> find f (xs ++ [x]) = Some x.
Proof.
  intros Hnone Hx. induction xs as [|a xs IH]; cbn [app find].
  - rewrite Hx. reflexivity.
  - rewrite (Hnone a) by (left; reflexivity).
    apply IH. intros y Hy. apply Hnone. right. exact Hy.
Qed.

Lemma NoDup_map_filter {A B : Type} (f : A -> B) (g : A -> bool) (xs : list A) :
  NoDup (map f xs) -> NoDup (map f (filter g xs)).
Proof.
  induction xs as [|a xs IH]; cbn [map filter]; intro Hnd; [constructor |].
  inversion Hnd as [|? ? Hnotin Hnd']; subst.
  destruct (g a); cbn [map]; [| apply IH; exact Hnd'].
  constructor; [| apply IH; exact Hnd'].
  intro Hin. apply Hnotin. apply in_map_iff in Hin. destruct Hin as [y [Hy Hin]].
  apply filter_In in Hin. rewrite <- Hy. apply in_map. tauto.
Qed.

(** Replacing today's challenge by one of the same id and date. *)
Lemma replace_today (d : Device) (c c' : DailyChallenge) (today : Z) :
  NoDup (map (dayOf d) (challengesOf d)) ->
  find (fun x => (dayOf d x =? today)%Z) (challengesOf d) = Some c ->
  challengeId c' = challengeId c ->
  challengeDate c' = challengeDate c ->
  let rest := filter (fun x => negb (String.eqb (challengeId x) (challengeId c)))
                     (challengesOf d) in
  find (fun x => (dayOf d x =? today)%Z) (rest ++ [c']) = Some c'
  /\ NoDup (map (dayOf d) (rest ++ [c'])).
Proof.
  intros Hnd Hfind Hid Hdate rest.
  apply find_some in Hfind. destruct Hfind as [Hin Hday]. apply Z.eqb_eq in Hday.
  assert (Hday' : dayOf d c' = today) by (unfold dayOf in *; rewrite Hdate; exact Hday).
  assert (Hrest : forall y, In y rest -> dayOf d y <> today).
  { intros y Hy Hy'. apply filter_In in Hy. destruct Hy as [Hy Hneq].
    assert (y = c) by (apply (NoDup_map_injective (dayOf d) (challengesOf d)); congruence).
    subst y. rewrite String.eqb_refl in Hneq. discriminate. }
  split.
  - apply find_app_last.
    + intros y Hy. apply Z.eqb_neq. apply Hrest. exact Hy.
    + apply Z.eqb_eq. exact Hday'.
  - rewrite map_app. cbn [map]. apply NoDup_app.
    + apply NoDup_map_filter. exact Hnd.
    + repeat constructor. intros [].
    + intros z Hz [<- | []]. apply in_map_iff in Hz. destruct Hz as [y [Hy Hin']].
      apply (Hrest y Hin'). congruence.
Qed.

Lemma savePerformance_today (p : UserPerformance) (d : Device) :
  onePerDay d ->
  onePerDay (execState (savePerformance p) d)
  /\ todaysChallenge (execState (savePerformance p) d)
     = match todaysChallenge d with
       | None => None
       | Some c =>
           if includes (completedTasks c) (taskType p) then Some c
           else Some (mkChallenge (challengeId c) (challengeDate c) (tasks c)
                        (Nat.eqb (length (completedTasks c ++ [taskType p]))
                                 (length (tasks c)))
                        (completedTasks c ++ [taskType p]))
       end.
Proof.
  intro Hone.
  destruct (savePerformance_challenges p d) as [Hcs Htoday].
  destruct (savePerformance_zone p d) as [Hz Hc].
  unfold onePerDay, dayOf in *.
  rewrite Htoday, Hcs, Hz.
  rewrite todaysChallenge_find, markChallengeTaskComplete_challenges.
  destruct (markChallengeTaskComplete_frame (taskType p) d) as [_ [_ [Hc' Hz']]].
  unfold dayOf. rewrite Hz', Hc'.
  pose proof (todaysChallenge_find d) as Hfind. unfold dayOf in Hfind.
  destruct (todaysChallenge d) as [c|] eqn:Hc0.
  - destruct (includes (completedTasks c) (taskType p)).
    + split; [exact Hone | symmetry; exact Hfind].
    + destruct (replace_today d c
                  (mkChallenge (challengeId c) (challengeDate c) (tasks c)
                     (Nat.eqb (length (completedTasks c ++ [taskType p]))
                              (length (tasks c)))
                     (completedTasks c ++ [taskType p]))
                  (toDateString (tzOffset d) (clock d)) Hone (eq_sym Hfind)
                  eq_refl eq_refl) as [Hf Hnd].
      split; [exact Hnd | exact Hf].
  - split; [exact Hone | symmetry; exact Hfind].
Qed.

(** X5.  The challenge screen creates at most one challenge per calendar
    day: when no two stored challenges share a day, this is still so after
    the screen is loaded and after a performance is saved. *)
Theorem one_challenge_per_day (d : Device) :
  onePerDay d ->
  (forall shuffled, onePerDay (execState (loadChallengeData shuffled) d))
  /\ (forall p, onePerDay (execState (savePerformance p) d)).
Proof.
  intro Hone. split.
  - intro shuffled.
    pose proof (todaysChallenge_find d) as Hfind.
    unfold onePerDay, dayOf, todaysChallenge in *.
    destruct d as [[ps cs us] now tz]. unfold challengesOf in *.
    unfold loadChallengeData. run_async. cbn in Hfind, Hone.
    destruct cs as [cs|]; cbn in *.
    + destruct (find _ cs) as [c|] eqn:Hc; cbn.
      * destruct us; exact Hone.
      * assert (Hnew : NoDup (map (fun c => toDateString tz (challengeDate c))
                  (filter (fun c => negb (String.eqb (challengeId c) (challengeIdAt now))) cs
                   ++ [Challenges.generateDailyChallenge shuffled (challengeIdAt now) now]))).
        { rewrite map_app. cbn [map]. apply NoDup_app.
          - apply NoDup_map_filter. exact Hone.
          - repeat constructor. intros [].
          - intros z Hz [<- | []]. apply in_map_iff in Hz.
            destruct Hz as [y [Hy Hin]]. apply filter_In in Hin.
            destruct Hin as [Hin _].
            pose proof (find_none _ _ Hc y Hin) as Hno. cbn in Hno.
            apply Z.eqb_neq in Hno. apply Hno. exact Hy. }
        destruct us; exact Hnew.
    + destruct us; cbn; repeat constructor; intros [].
  - intro p. apply savePerformance_today. exact Hone.
Qed.

Lemma one_challenge_per_day_witness :
  onePerDay (execState (loadChallengeData Challenges.allTasks)
                       (challengeDevice 1700000000000)).
Proof.
  destruct (one_challenge_per_day (challengeDevice 1700000000000)) as [Hload _].
  - unfold onePerDay. cbn. repeat constructor. intros [].
  - apply Hload.
Defined.

Lemma saveDailyChallenge_frame (c : DailyChallenge) (d : Device) :
  PERFORMANCES (store (execState (saveDailyChallenge c) d)) = PERFORMANCES (store d)
  /\ USER_STATS (store (execState (saveDailyChallenge c) d)) = USER_STATS (store d)
  /\ clock (execState (saveDailyChallenge c) d) = clock d
  /\ tzOffset (execState (saveDailyChallenge c) d) = tzOffset d.
Proof.
  destruct d as [[ps cs us] now tz]. run_async. destruct cs; repeat split.
Qed.

Lemma loadChallengeData_runs (shuffled : list TaskType) (d : Device) :
  runState (loadChallengeData shuffled) d =
  match todaysChallenge d with
  | Some c => ((c, statsOf d), d)
  | None =>
      let c := Challenges.generateDailyChallenge shuffled (challengeIdAt (clock d))
                 (clock d) in
      ((c, statsOf d), execState (saveDailyChallenge c) d)
  end.
Proof.
  unfold todaysChallenge, statsOf.
  destruct d as [[ps cs us] now tz]. unfold loadChallengeData. run_async.
  destruct cs as [cs|]; cbn.
  - destruct (find _ cs) as [c0|]; cbn; destruct us; reflexivity.
  - destruct us; reflexivity.
Qed.

(** X6.  Loading the challenge screen leaves a challenge for today in the
    store and shows it; it keeps a challenge that is already there, with its
    completed tasks; the history and the statistics are not touched; and
    loading the screen again, whatever the shuffle, shows the same challenge
    and changes nothing. *)
Theorem loadChallengeData_today (shuffled : list TaskType) (d : Device) :
  let shown := fst (evalState (loadChallengeData shuffled) d) in
  let d' := execState (loadChallengeData shuffled) d in
  todaysChallenge d' = Some shown
  /\ (forall c, todaysChallenge d = Some c -> shown = c /\ d' = d)
  /\ (todaysChallenge d = None ->
      tasks shown = firstn 3 shuffled /\ untouched shown
      /\ challengeDate shown = clock d)
  /\ PERFORMANCES (store d') = PERFORMANCES (store d)
  /\ USER_STATS (store d') = USER_STATS (store d)
  /\ (forall again,
        execState (loadChallengeData again) d' = d'
        /\ fst (evalState (loadChallengeData again) d') = shown).
Proof.
  intros shown d'. subst shown d'. unfold evalState, execState.
  assert (Hkeep : forall dev c sh,
            todaysChallenge dev = Some c ->
            snd (runState (loadChallengeData sh) dev) = dev
            /\ fst (fst (runState (loadChallengeData sh) dev)) = c).
  { intros dev c sh Hc. rewrite loadChallengeData_runs, Hc. split; reflexivity. }
  rewrite loadChallengeData_runs.
  destruct (todaysChallenge d) as [c|] eqn:Hc; cbn [fst snd].
  - split; [exact Hc |].
    split; [intros c0 H0; split; congruence |].
    split; [intro H0; discriminate |].
    split; [reflexivity |]. split; [reflexivity |].
    intro again. apply Hkeep. exact Hc.
  - set (new := Challenges.generateDailyChallenge shuffled (challengeIdAt (clock d))
                  (clock d)).
    destruct (saveDailyChallenge_frame new d) as [Hp [Hs [Hclock Hzone]]].
    assert (Htoday : todaysChallenge (execState (saveDailyChallenge new) d) = Some new).
    { rewrite todaysChallenge_find, challengesOf_saved. unfold dayOf.
      rewrite Hclock, Hzone. apply find_app_last.
      - intros y Hy. apply filter_In in Hy. destruct Hy as [Hy _].
        rewrite todaysChallenge_find in Hc.
        apply (find_none _ _ Hc y Hy).
      - apply Z.eqb_refl. }
    split; [exact Htoday |].
    split; [intros c0 H0; discriminate |].
    split; [intros _; repeat split |].
    split; [exact Hp |]. split; [exact Hs |].
    intro again. apply Hkeep. exact Htoday.
Qed.

Lemma loadChallengeData_today_witness :
  tasks (fst (evalState (loadChallengeData [stroop_test; decision_task; tapping_speed;
                                            tower_of_hanoi; spatial_memory; reaction_time;
                                            sound_discrimination])
                        (freshDevice 1700000000000)))
  = [stroop_test; decision_task; tapping_speed].
Proof.
  destruct (loadChallengeData_today
              [stroop_test; decision_task; tapping_speed; tower_of_hanoi;
               spatial_memory; reaction_time; sound_discrimination]
              (freshDevice 1700000000000)) as [_ [_ [Hnew _]]].
  destruct Hnew as [Htasks _]; [reflexivity | exact Htasks].
Defined.

(** X7.  When today's untouched challenge has three distinct tasks and one
    performance of each is saved, in any order, the challenge lists them as
    completed in that order and its [completed] flag is set by the third,
    not before. *)
Theorem challenge_completed_by_its_tasks
  (d : Device) (c : DailyChallenge) (p1 p2 p3 : UserPerformance) :
  onePerDay d ->
  todaysChallenge d = Some c ->
  untouched c ->
  NoDup (tasks c) ->
  Permutation [taskType p1; taskType p2; taskType p3] (tasks c) ->
  let d1 := execState (savePerformance p1) d in
  let d2 := execState (savePerformance p2) d1 in
  let d3 := execState (savePerformance p3) d2 in
  option_map progress (todaysChallenge d1) = Some (tasks c, [taskType p1], false)
  /\ option_map progress (todaysChallenge d2)
     = Some (tasks c, [taskType p1; taskType p2], false)
  /\ option_map progress (todaysChallenge d3)
     = Some (tasks c, [taskType p1; taskType p2; taskType p3], true).
Proof.
  intros Hone Hc [Hnone Hflag] Hnd Hperm d1 d2 d3.
  assert (Hlen : length (tasks c) = 3%nat).
  { rewrite <- (Permutation_length Hperm). reflexivity. }
  assert (Hdist : NoDup [taskType p1; taskType p2; taskType p3]).
  { apply (Permutation_NoDup (Permutation_sym Hperm)). exact Hnd. }
  assert (H12 : taskType p1 <> taskType p2 /\ taskType p1 <> taskType p3
                /\ taskType p2 <> taskType p3).
  { inversion Hdist as [|? ? Hn1 Hd1]; subst.
    inversion Hd1 as [|? ? Hn2 Hd2]; subst. cbn in Hn1, Hn2.
    repeat split; intro E; [apply Hn1 | apply Hn1 | apply Hn2]; rewrite E; tauto. }
  destruct H12 as [H12 [H13 H23]].
  assert (Hmiss : forall xs t, ~ In t xs -> includes xs t = false).
  { intros xs t Hnot. destruct (includes xs t) eqn:E; trivial.
    apply includes_In in E. contradiction. }
  destruct (savePerformance_today p1 d Hone) as [Hone1 Ht1].
  rewrite Hc, Hnone in Ht1. cbn [includes existsb app length] in Ht1.
  rewrite Hlen in Ht1. cbn [Nat.eqb] in Ht1.
  destruct (savePerformance_today p2 d1 Hone1) as [Hone2 Ht2].
  fold d1 in Ht1. rewrite Ht1 in Ht2. cbn [completedTasks challengeId challengeDate tasks] in Ht2.
  rewrite (Hmiss [taskType p1] (taskType p2)) in Ht2
    by (intros [E | []]; apply H12; exact E).
  cbn [app length] in Ht2. rewrite Hlen in Ht2. cbn [Nat.eqb] in Ht2.
  destruct (savePerformance_today p3 d2 Hone2) as [_ Ht3].
  fold d2 in Ht2. rewrite Ht2 in Ht3. cbn [completedTasks challengeId challengeDate tasks] in Ht3.
  rewrite (Hmiss [taskType p1; taskType p2] (taskType p3)) in Ht3
    by (intros [E | [E | []]]; [apply H13 | apply H23]; exact E).
  cbn [app length] in Ht3. rewrite Hlen in Ht3. cbn [Nat.eqb] in Ht3.
  fold d3 in Ht3. rewrite Ht1, Ht2, Ht3. repeat split.
Qed.

Lemma challenge_completed_by_its_tasks_witness :
  let now := 1700000000000%Z in
  option_map progress
    (todaysChallenge
       (execState (savePerformance (session tapping_speed 72 now))
          (execState (savePerformance (session reaction_time 64 now))
             (execState (savePerformance (session stroop_test 90 now))
                        (challengeDevice now)))))
  = Some ([tapping_speed; stroop_test; reaction_time],
          [stroop_test; reaction_time; tapping_speed], true).
Proof.
  intro now.
  destruct (challenge_completed_by_its_tasks (challengeDevice now)
              (Challenges.generateDailyChallenge Challenges.allTasks "challenge-1" now)
              (session stroop_test 90 now) (session reaction_time 64 now)
              (session tapping_speed 72 now)) as [_ [_ H3]].
  - unfold onePerDay. cbn. repeat constructor. intros [].
  - reflexivity.
  - split; reflexivity.
  - cbn. repeat constructor; cbn; intuition discriminate.
  - cbn. apply perm_trans with [stroop_test; tapping_speed; reaction_time].
    + apply perm_skip. apply perm_swap.
    + apply perm_swap.
  - exact H3.
Defined.

Lemma markChallengeTaskComplete_countInvariant_witness :
  Forall countInvariant
    (challengesOf (execState (markChallengeTaskComplete decision_task)
                             (challengeDevice 1700000000000))).
Proof.
  apply (markChallengeTaskComplete_countInvariant decision_task
           (challengeDevice 1700000000000)).
  cbn. constructor; [| constructor].
  split; cbn; [constructor | split; discriminate].
Defined.

(** X9.  On a day for which no challenge is stored, marking a task changes
    nothing at all, and a saved performance leaves every stored challenge as
    it is. *)
Theorem no_challenge_today_no_change (d : Device) :
  todaysChallenge d = None ->
  (forall t, execState (markChallengeTaskComplete t) d = d)
  /\ (forall p, DAILY_CHALLENGES (store (execState (savePerformance p) d))
                = DAILY_CHALLENGES (store d)).
Proof.
  intro Hnone.
  assert (Hmark : forall t dev,
            todaysChallenge dev = None -> execState (markChallengeTaskComplete t) dev = dev).
  { intros t dev. unfold todaysChallenge.
    destruct dev as [[ps cs us] now tz]. run_async.
    destruct cs as [cs|]; cbn; [| reflexivity].
    destruct (find _ cs); cbn; [discriminate | reflexivity]. }
  split.
  - intro t. apply Hmark. exact Hnone.
  - intro p. rewrite savePerformance_runs, updateUserStats_runs.
    rewrite Hmark; [reflexivity |].
    rewrite todaysChallenge_find in *. exact Hnone.
Qed.

Lemma no_challenge_today_no_change_witness :
  DAILY_CHALLENGES
    (store (execState (savePerformance (session stroop_test 90 1700200000000))
                      (setClock 1700200000000 (challengeDevice 1700000000000))))
  = DAILY_CHALLENGES (store (challengeDevice 1700000000000)).
Proof.
  destruct (no_challenge_today_no_change
              (setClock 1700200000000 (challengeDevice 1700000000000))) as [_ H].
  - reflexivity.
  - apply H.
Defined.

(** ** Decision task: the ranges of the derived metrics *)

Lemma fraction_unit (n m : nat) :
  (n <= m)%nat ->
  0 <= inject_Z (Z.of_nat n) / inject_Z (Z.of_nat m)
  /\ inject_Z (Z.of_nat n) / inject_Z (Z.of_nat m) <= 1.
Proof.
  intro Hle. destruct m as [|m].
  - assert (n = 0%nat) by lia. subst n. split; discriminate.
  - assert (Hm : 0 < inject_Z (Z.of_nat (S m))).
    { change 0 with (inject_Z 0). rewrite <- Zlt_Qlt. lia. }
    assert (Hn : 0 <= inject_Z (Z.of_nat n)).
    { change 0 with (inject_Z 0). rewrite <- Zle_Qle. lia. }
    assert (Hnm : inject_Z (Z.of_nat n) <= inject_Z (Z.of_nat (S m))).
    { rewrite <- Zle_Qle. lia. }
    split.
    + apply Qle_shift_div_l; [exact Hm | lra].
    + apply Qle_shift_div_r; [exact Hm | lra].
Qed.

Lemma leftRate_unit (ts : list Trial) : 0 <= leftRate ts /\ leftRate ts <= 1.
Proof.
  unfold leftRate, len. apply fraction_unit. apply filter_length_le.
Qed.

Lemma adaptationStep_bounds (ts : list Trial) (acc : Q) (transition : Z) :
  acc <= adaptationStep ts acc transition
  /\ adaptationStep ts acc transition <= acc + 1.
Proof.
  unfold adaptationStep.
  destruct ((0 <? _)%nat && (0 <? _)%nat); [| split; lra].
  destruct (leftRate_unit (DecisionTask.afterTrials ts transition)) as [Ha0 Ha1].
  destruct (leftRate_unit (beforeTrials ts transition)) as [Hb0 Hb1].
  pose proof (Qabs_nonneg (leftRate (DecisionTask.afterTrials ts transition)
                           - leftRate (beforeTrials ts transition))) as Hn.
  assert (Hu : Qabs (leftRate (DecisionTask.afterTrials ts transition)
                     - leftRate (beforeTrials ts transition)) <= 1).
  { apply Qabs_Qle_condition. split; lra. }
  split; lra.
Qed.

Lemma adaptationScore_unit (ts : list Trial) :
  0 <= adaptationScore ts /\ adaptationScore ts <= 1.
Proof.
  unfold adaptationScore, phaseTransitions. cbn [fold_left].
  destruct (adaptationStep_bounds ts 0 8) as [L1 U1].
  destruct (adaptationStep_bounds ts (adaptationStep ts 0 8) 31) as [L2 U2].
  destruct (adaptationStep_bounds ts (adaptationStep ts (adaptationStep ts 0 8) 31) 41)
    as [L3 U3].
  change (len [8%Z; 31%Z; 41%Z]) with 3.
  split.
  - apply Qle_shift_div_l; [reflexivity | lra].
  - apply Qle_shift_div_r; [reflexivity | lra].
Qed.

Lemma riskTaking_unit (ts : list Trial) : 0 <= riskTaking ts /\ riskTaking ts <= 1.
Proof.
  unfold riskTaking. destruct (0 <? _)%nat.
  - apply leftRate_unit.
  - split; discriminate.
Qed.

(** X10.  For every trial log the adaptation rate and the risk-taking score
    lie between 0 and 1, and the counts of left and right choices add up to
    the number of trials. *)
Theorem derived_metrics_in_range (s : Component) :
  (exists a, adaptationRate (calculateMetrics s) = Some a /\ 0 <= a /\ a <= 1)
  /\ (exists r, riskTakingScore (calculateMetrics s) = Some r /\ 0 <= r /\ r <= 1)
  /\ (exists l r, leftDoorChoices (calculateMetrics s) = Some l
                  /\ rightDoorChoices (calculateMetrics s) = Some r
                  /\ l + r == len (trials s)).
Proof.
  split; [| split].
  - exists (adaptationScore (trials s)). split; [reflexivity |].
    apply adaptationScore_unit.
  - exists (riskTaking (trials s)). split; [reflexivity |].
    apply riskTaking_unit.
  - eexists. eexists. split; [reflexivity |]. split; [reflexivity |].
    unfold len. rewrite <- inject_Z_plus, <- Nat2Z.inj_add.
    assert (Hsplit : forall ts : list Trial,
              (length (filter (fun t => is_left (choice t)) ts)
               + length (filter (fun t => is_right (choice t)) ts))%nat = length ts).
    { induction ts as [|t ts IH]; cbn [filter length]; [reflexivity |].
      destruct (choice t); cbn [is_left is_right length]; lia. }
    rewrite Hsplit. reflexivity.
Qed.

Lemma total_bounds (xs : list Q) (hi : Q) :
  Forall (fun x => 0 <= x /\ x <= hi) xs ->
  0 <= total xs /\ total xs <= hi * inject_Z (Z.of_nat (length xs)).
Proof.
  unfold total. induction 1 as [|x xs [Hx0 Hx1] _ [IH0 IH1]]; cbn [fold_right length].
  - split; [discriminate | change (inject_Z (Z.of_nat 0)) with 0; lra].
  - rewrite Nat2Z.inj_succ, <- Z.add_1_r, inject_Z_plus.
    change (inject_Z 1) with 1. split; lra.
Qed.

Lemma meanReward_bounds (ts : list Trial) :
  ts <> [] ->
  Forall (fun t => (0 <= reward t <= highReward)%Z) ts ->
  0 <= meanReward ts /\ meanReward ts <= inject_Z highReward.
Proof.
  intros Hne Hall. unfold meanReward, len.
  assert (Hlen : 0 < inject_Z (Z.of_nat (length ts))).
  { change 0 with (inject_Z 0). rewrite <- Zlt_Qlt.
    destruct ts; [contradiction | cbn [length]; lia]. }
  assert (Hbounds : Forall (fun x => 0 <= x /\ x <= inject_Z highReward)
                      (map (fun t => inject_Z (reward t)) ts)).
  { apply Forall_map. apply (Forall_impl _ (P := fun t => (0 <= reward t <= highReward)%Z));
      [| exact Hall].
    intros t [H0 H1]. split.
    - change 0 with (inject_Z 0). rewrite <- Zle_Qle. exact H0.
    - rewrite <- Zle_Qle. exact H1. }
  destruct (total_bounds _ _ Hbounds) as [T0 T1]. rewrite length_map in T1.
  rewrite (reduce_sum_total (fun t => inject_Z (reward t)) ts).
  split.
  - apply Qle_shift_div_l; [exact Hlen | lra].
  - apply Qle_shift_div_r; [exact Hlen | exact T1].
Qed.

Lemma Forall_firstn_kept {A : Type} (P : A -> Prop) (n : nat) (xs : list A) :
  Forall P xs -> Forall P (firstn n xs).
Proof.
  intro H. revert n. induction H as [|x xs Hx _ IH]; intros [|n]; cbn [firstn];
    try constructor; auto.
Qed.

Lemma Forall_skipn_kept {A : Type} (P : A -> Prop) (n : nat) (xs : list A) :
  Forall P xs -> Forall P (skipn n xs).
Proof.
  intro H. revert n. induction H as [|x xs Hx Hxs IH]; intros [|n]; cbn [skipn];
    try constructor; auto.
Qed.

Lemma learning_bounds (ts : list Trial) (l : Q) :
  learning ts = Some l ->
  0 <= l /\ (Forall (fun t => (0 <= reward t <= highReward)%Z) ts -> l <= 1).
Proof.
  unfold learning. destruct ts as [|t ts]; [discriminate |].
  intro H. injection H as <-.
  split; [apply Q.le_max_l |].
  intro Hall.
  assert (Hfirst : slice_first 10 (t :: ts) <> []) by (cbn; discriminate).
  assert (Hlast : slice_last 10 (t :: ts) <> []).
  { unfold slice_last. intro E. apply (f_equal (@length Trial)) in E.
    rewrite length_skipn in E. cbn [length] in E. lia. }
  destruct (meanReward_bounds _ Hfirst (Forall_firstn_kept _ 10 _ Hall)) as [E0 E1].
  destruct (meanReward_bounds _ Hlast
              (Forall_skipn_kept _ (length (t :: ts) - 10) _ Hall)) as [L0 L1].
  change (inject_Z highReward) with 10 in *.
  apply Q.max_lub; [discriminate |].
  apply Qle_shift_div_r; [reflexivity |].
  change (meanReward (slice_last 10 (t :: ts))
          - meanReward (slice_first 10 (t :: ts)) <= 1 * 10).
  lra.
Qed.

(** X11.  The learning score is absent only for an empty log; otherwise it is
    never negative, and when every recorded reward lies between 0 and the
    high reward it is at most 1. *)
Theorem learningScore_in_range (s : Component) :
  (learningScore (calculateMetrics s) = None <-> trials s = [])
  /\ (forall l, learningScore (calculateMetrics s) = Some l ->
        0 <= l
        /\ (Forall (fun t => (0 <= reward t <= highReward)%Z) (trials s) -> l <= 1)).
Proof.
  cbn [calculateMetrics learningScore]. split.
  - unfold learning. destruct (trials s); split; try reflexivity; discriminate.
  - intros l H. apply learning_bounds. exact H.
Qed.

Lemma learningScore_in_range_witness :
  exists l, learningScore (calculateMetrics (sessionEnded stoppedAtForty 80)) = Some l
            /\ l <= 1.
Proof.
  destruct (learningScore_in_range (sessionEnded stoppedAtForty 80)) as [_ H].
  eexists. split; [reflexivity |].
  apply (H _ eq_refl).
  cbn [sessionEnded trials]. unfold stoppedAtForty.
  apply Forall_map. apply Forall_forall. intros n _. cbn. unfold highReward. lia.
Defined.

(** ** Decision task: the phases *)

(** X12.  The four phases split the trials 1..50: a trial in that range has
    the one phase whose range contains it, and any other trial number falls
    back to the first phase, Initial Learning. *)
Theorem getCurrentPhase_partition (t : Z) :
  ((1 <= t <= 50)%Z ->
     In (getCurrentPhase t) gamePhases
     /\ (startTrial (getCurrentPhase t) <= t <= endTrial (getCurrentPhase t))%Z
     /\ (forall phase, In phase gamePhases ->
           (startTrial phase <= t <= endTrial phase)%Z -> phase = getCurrentPhase t))
  /\ ((t < 1 \/ 50 < t)%Z ->
        getCurrentPhase t = mkPhase "Initial Learning" 1 7 (8 # 10) (2 # 10)).
Proof.
  unfold getCurrentPhase, gamePhases. cbn [find startTrial endTrial nth].
  split.
  - intro Ht. decide_bounds; cbn [startTrial endTrial];
      (split; [cbn; tauto |]); (split; [lia |]);
      intros phase Hin Hrange;
      repeat (destruct Hin as [<- | Hin]; [cbn in Hrange; try lia; try reflexivity |]);
      destruct Hin.
  - intro Ht. decide_bounds; reflexivity.
Qed.

Lemma getCurrentPhase_partition_witness :
  (startTrial (getCurrentPhase 31) <= 31 <= endTrial (getCurrentPhase 31))%Z
  /\ DecisionTask.name (getCurrentPhase 51) = "Initial Learning"%string.
Proof.
  destruct (getCurrentPhase_partition 31) as [Hin _].
  destruct (getCurrentPhase_partition 51) as [_ Hout].
  split.
  - apply Hin. lia.
  - rewrite Hout; [reflexivity | lia].
Defined.

(** ** Tower of Hanoi: the rules of the game *)

Section HanoiFacts.
Import TowerOfHanoi.

Lemma topDisk_none (ds : list Disk) : topDisk ds = None <-> ds = [].
Proof.
  unfold topDisk. split.
  - intro H. apply nth_error_None in H. destruct ds; [reflexivity | cbn in H; lia].
  - intros ->. reflexivity.
Qed.

Lemma topDisk_last (ds : list Disk) (d : Disk) :
  topDisk ds = Some d -> ds = removelast ds ++ [d].
Proof.
  unfold topDisk. destruct ds as [|x xs]; [discriminate |].
  destruct (@exists_last _ (x :: xs)) as [front [y E]]; [discriminate |].
  rewrite E, length_app. cbn [length].
  replace (length front + 1 - 1)%nat with (length front) by lia.
  rewrite nth_error_app2, Nat.sub_diag by lia. cbn.
  intro H. injection H as ->. rewrite removelast_last. reflexivity.
Qed.

Lemma sorted_snoc_inv (ds : list Disk) (d : Disk) :
  StronglySorted above (ds ++ [d]) ->
  StronglySorted above ds /\ Forall (fun x => above x d) ds.
Proof.
  induction ds as [|x ds IH]; cbn [app]; intro H.
  - split; constructor.
  - inversion H as [|? ? Hs Hall]; subst.
    destruct (IH Hs) as [Hs' Hd].
    apply Forall_app in Hall. destruct Hall as [Hall Hlast].
    split; constructor; trivial.
    inversion Hlast; trivial.
Qed.

Lemma sorted_snoc (ds : list Disk) (d : Disk) :
  StronglySorted above ds -> Forall (fun x => above x d) ds ->
  StronglySorted above (ds ++ [d]).
Proof.
  induction ds as [|x ds IH]; cbn [app]; intros Hs Hd.
  - repeat constructor.
  - inversion Hs as [|? ? Hs' Hall]; subst. inversion Hd; subst.
    constructor; [apply IH; assumption |].
    apply Forall_app. split; [exact Hall | repeat constructor; assumption].
Qed.

(** Taking the top disk of a well-stacked tower leaves it well stacked, and
    the disk may go on any tower whose top disk is larger. *)
Lemma lift_and_drop (from onto : list Disk) (d : Disk) :
  StronglySorted above from -> StronglySorted above onto ->
  topDisk from = Some d ->
  match topDisk onto with
  | None => True
  | Some t => (size d < size t)%Z
  end ->
  StronglySorted above (removelast from) /\ StronglySorted above (onto ++ [d]).
Proof.
  intros Hf Ho Htop Hlegal.
  apply topDisk_last in Htop. rewrite Htop in Hf.
  apply sorted_snoc_inv in Hf. destruct Hf as [Hf _].
  split; [exact Hf |].
  destruct (topDisk onto) as [t|] eqn:Ht.
  - apply topDisk_last in Ht. rewrite Ht in Ho |- *.
    destruct (sorted_snoc_inv _ _ Ho) as [Ho' Hall].
    apply sorted_snoc; [exact Ho |].
    apply Forall_app. split.
    + apply (Forall_impl _ (P := fun x => above x t)); [| exact Hall].
      unfold above. intros x Hx. lia.
    + repeat constructor. exact Hlegal.
  - apply topDisk_none in Ht. subst onto. repeat constructor.
Qed.

Lemma pull_app (front rest tail : list Disk) (d : Disk) :
  Permutation rest (d :: tail) -> Permutation (front ++ rest) (d :: front ++ tail).
Proof.
  intro H. apply Permutation_trans with (front ++ d :: tail).
  - apply Permutation_app_head. exact H.
  - symmetry. apply Permutation_middle.
Qed.

Lemma pull_here (rest : list Disk) (d : Disk) : Permutation (d :: rest) (d :: rest).
Proof. apply Permutation_refl. Qed.

Ltac pull_disk := repeat first [apply pull_here | eapply pull_app].

Ltac same_disks :=
  unfold allDisks; cbn [flat_map disks];
  rewrite <- ?app_assoc; cbn [app];
  eapply (Permutation_trans (l' := _ :: _)); [pull_disk | symmetry; pull_disk].

Lemma moveDisk_step (g : Game) (i j : nat) :
  wellFormed g -> (i < 3)%nat -> (j < 3)%nat ->
  exists g',
    moveDisk g i j = Some g'
    /\ wellFormed g'
    /\ Permutation (allDisks (towers g')) (allDisks (towers g))
    /\ (moves g <= moves g' <= moves g + 1)%Z
    /\ gameState g' = gameState g /\ difficulty g' = difficulty g.
Proof.
  intros [Hlen [Hst Hsel]] Hi Hj.
  destruct g as [st ts sel mv n fin]. cbn [towers moves gameState difficulty] in *.
  destruct ts as [|a [|b [|c [|]]]]; try discriminate.
  inversion Hst as [|? ? Ha Hst1]; subst.
  inversion Hst1 as [|? ? Hb Hst2]; subst.
  inversion Hst2 as [|? ? Hc _]; subst.
  assert (Hstay : exists g',
            Some (mkGame st [a; b; c] sel mv n fin) = Some g'
            /\ wellFormed g'
            /\ Permutation (allDisks (towers g')) (allDisks [a; b; c])
            /\ (mv <= moves g' <= mv + 1)%Z
            /\ gameState g' = st /\ difficulty g' = n).
  { eexists. split; [reflexivity |]. cbn.
    repeat split; trivial; try lia; apply Permutation_refl. }
  unfold moveDisk, canMoveDisk. cbn [towers].
  destruct i as [|[|[|i]]]; try lia; destruct j as [|[|[|j]]]; try lia;
    cbn [nth_error];
    match goal with
    | |- context [match topDisk (disks ?f) with Some _ => _ | None => Some false end] =>
        destruct (topDisk (disks f)) as [d|] eqn:Hd; [| exact Hstay]
    end;
    try (rewrite Z.ltb_irrefl; exact Hstay);
    match goal with
    | |- context [match topDisk (disks ?t) with
                  | Some _ => _
                  | None => Some true
                  end] =>
        pose proof (fun Hf Ho => lift_and_drop (disks _) (disks t) d Hf Ho Hd) as Hmove;
        destruct (topDisk (disks t)) as [top|] eqn:Ht;
        [ destruct (Z.ltb_spec (size d) (size top)) as [Hlt | Hge]; [| exact Hstay];
          destruct Hmove as [Hf' Ho']; [eassumption | eassumption | exact Hlt |]
        | destruct Hmove as [Hf' Ho']; [eassumption | eassumption | exact I |] ]
    end;
    cbn; (eexists; split; [reflexivity |]); cbn [towers moves gameState difficulty];
    apply topDisk_last in Hd;
    (split; [split; [reflexivity | split; [repeat constructor; assumption | exact I]] |]);
    (split; [rewrite Hd at 2; same_disks |]); repeat split; lia.
Qed.

Lemma handleTowerPress_step (g : Game) (pressed : nat) :
  wellFormed g -> (pressed < 3)%nat ->
  exists g',
    handleTowerPress g pressed = Some g'
    /\ wellFormed g'
    /\ Permutation (allDisks (towers g')) (allDisks (towers g))
    /\ (moves g <= moves g' <= moves g + 1)%Z
    /\ gameState g' = gameState g /\ difficulty g' = difficulty g.
Proof.
  intros Hwf Hp. pose proof Hwf as [Hlen [Hst Hsel]].
  unfold handleTowerPress.
  destruct (gameState g) eqn:Hstate;
    try (exists g; repeat split; trivial; try lia; apply Permutation_refl).
  destruct (selectedDisk g) as [[chosen which]|] eqn:Hchosen.
  - destruct (Nat.eqb chosen pressed).
    + eexists. split; [reflexivity |]. cbn.
      repeat split; trivial; try lia; apply Permutation_refl.
    + destruct (moveDisk_step g chosen pressed Hwf Hsel Hp)
        as [g' [Hmove [Hwf' [Hperm [Hmoves [Hstate' Hdiff]]]]]].
      exists g'. rewrite Hstate in Hstate'.
      split; [exact Hmove |]. split; [exact Hwf' |]. split; [exact Hperm |].
      split; [exact Hmoves |]. split; [exact Hstate' | exact Hdiff].
  - destruct (nth_error (towers g) pressed) as [tower|] eqn:Hnth.
    + destruct (topDisk (disks tower)).
      * eexists. split; [reflexivity |]. cbn.
        repeat split; trivial; try lia; apply Permutation_refl.
      * exists g. split; [reflexivity |]. split; [exact Hwf |].
        split; [apply Permutation_refl |]. repeat split; trivial; lia.
    + apply nth_error_None in Hnth. lia.
Qed.

Lemma insertBySize_smallest (d : Disk) (ds : list Disk) :
  Forall (fun x => above x d) ds -> insertBySize d ds = ds ++ [d].
Proof.
  induction 1 as [|x ds Hx _ IH]; cbn [insertBySize app]; [reflexivity |].
  unfold above in Hx. destruct (Z.ltb_spec (size x) (size d)); [lia |].
  rewrite IH. reflexivity.
Qed.

Lemma sortLargestFirst_sorted (ds : list Disk) :
  StronglySorted above ds -> sortLargestFirst ds = ds.
Proof.
  unfold sortLargestFirst.
  assert (G : forall done rest,
            StronglySorted above (done ++ rest) ->
            fold_left (fun sorted d => insertBySize d sorted) rest done = done ++ rest).
  { intros done rest. revert done.
    induction rest as [|d rest IH]; intros done Hs; cbn [fold_left].
    - rewrite app_nil_r. reflexivity.
    - replace (done ++ d :: rest) with ((done ++ [d]) ++ rest) in *
        by (rewrite <- app_assoc; reflexivity).
      rewrite insertBySize_smallest.
      + apply IH. exact Hs.
      + assert (Hprefix : StronglySorted above (done ++ [d])).
        { clear IH. revert Hs. generalize (done ++ [d]) as front.
          induction front as [|x front IHf]; cbn [app]; intro Hs; [constructor |].
          inversion Hs as [|? ? Hs' Hall]; subst.
          apply Forall_app in Hall. constructor; [apply IHf; exact Hs' | tauto]. }
        apply sorted_snoc_inv in Hprefix. tauto. }
  intro Hs. apply (G [] ds). exact Hs.
Qed.

Lemma initial_disks_sorted (n : nat) (k : nat) (colour : nat -> string) :
  StronglySorted above
    (map (fun i => mkDisk i (Z.of_nat n - Z.of_nat i) (colour i)) (seq k n)).
Proof.
  generalize n at 1 as total. revert k.
  induction n as [|n IH]; intros k total; cbn [seq map]; constructor.
  - apply IH.
  - apply Forall_map. apply Forall_forall. intros i Hi. apply in_seq in Hi.
    unfold above. cbn [size]. lia.
Qed.

(** X13.  Tower of Hanoi.  From the start of a game with [n] disks, whatever
    towers are pressed, in whatever order: no press raises an error, the
    screen keeps three towers, no disk ever lies on a smaller one, no disk is
    lost or added, the difficulty is kept, and the move counter is at most
    the number of presses. *)
Theorem hanoi_presses_keep_the_rules (n : nat) (presses : list nat) :
  Forall (fun p => (p < 3)%nat) presses ->
  exists g,
    pressAll (newGame n) presses = Some g
    /\ length (towers g) = 3%nat
    /\ stacked (towers g)
    /\ Permutation (allDisks (towers g)) (allDisks (towers (newGame n)))
    /\ difficulty g = n
    /\ (0 <= moves g <= Z.of_nat (length presses))%Z.
Proof.
  intro Hpresses.
  assert (Hstart : wellFormed (newGame n)).
  { unfold wellFormed, newGame, startGame, initializeGame, stacked.
    cbn [towers selectedDisk difficulty length]. split; [reflexivity |].
    split; [| exact I].
    pose proof (initial_disks_sorted n 0
                  (fun i => nth (i mod length diskColors) diskColors EmptyString)) as Hs.
    constructor; [| repeat constructor].
    cbn [disks]. rewrite sortLargestFirst_sorted; exact Hs. }
  assert (Hrun : forall g,
            wellFormed g ->
            exists g',
              pressAll g presses = Some g' /\ wellFormed g'
              /\ Permutation (allDisks (towers g')) (allDisks (towers g))
              /\ difficulty g' = difficulty g
              /\ (moves g <= moves g' <= moves g + Z.of_nat (length presses))%Z).
  { induction Hpresses as [|p rest Hp _ IH]; intros g Hwf; cbn [pressAll length].
    - exists g. split; [reflexivity |]. split; [exact Hwf |].
      split; [apply Permutation_refl |]. split; [reflexivity | lia].
    - destruct (handleTowerPress_step g p Hwf Hp)
        as [g1 [Hpress [Hwf1 [Hperm1 [Hmoves1 [_ Hdiff1]]]]]].
      rewrite Hpress.
      destruct (IH g1 Hwf1) as [g2 [Hrest [Hwf2 [Hperm2 [Hdiff2 Hmoves2]]]]].
      exists g2. split; [exact Hrest |]. split; [exact Hwf2 |].
      split; [apply Permutation_trans with (allDisks (towers g1)); assumption |].
      split; [congruence | lia]. }
  destruct (Hrun (newGame n) Hstart) as [g [Hg [[Hlen [Hst _]] [Hperm [Hdiff Hmoves]]]]].
  exists g. repeat split; trivial.
  - cbn in Hmoves. lia.
  - cbn in Hmoves. lia.
Qed.

Lemma hanoi_presses_keep_the_rules_witness :
  exists g,
    pressAll (newGame 3) [0; 2; 0; 1; 2; 1; 0; 2; 1; 0; 1; 2; 0; 2]%nat = Some g
    /\ stacked (towers g).
Proof.
  destruct (hanoi_presses_keep_the_rules 3 [0; 2; 0; 1; 2; 1; 0; 2; 1; 0; 1; 2; 0; 2]%nat)
    as [g [Hg [_ [Hst _]]]].
  - repeat constructor.
  - exists g. split; assumption.
Defined.

End HanoiFacts.

(** ** Records and progress: the best score *)

Lemma Math_max_spec (x : Q) (xs : list Q) :
  (forall y, In y (x :: xs) -> y <= PersonalRecords.Math_max x xs)
  /\ exists y, In y (x :: xs) /\ y == PersonalRecords.Math_max x xs.
Proof.
  unfold PersonalRecords.Math_max. revert x.
  induction xs as [|z xs IH]; intro x; cbn [fold_left].
  - split.
    + intros y [<- | []]. apply Qle_refl.
    + exists x. split; [left; reflexivity | reflexivity].
  - destruct (IH (Qmax x z)) as [Hub [y [Hin Heq]]]. split.
    + intros w [<- | [<- | Hw]].
      * apply Qle_trans with (Qmax x z); [apply Q.le_max_l | apply Hub; left; reflexivity].
      * apply Qle_trans with (Qmax x z); [apply Q.le_max_r | apply Hub; left; reflexivity].
      * apply Hub. right. exact Hw.
    + destruct Hin as [<- | Hin].
      * destruct (Q.max_spec x z) as [[_ Hm] | [_ Hm]].
        -- exists z. split; [right; left; reflexivity |]. rewrite <- Heq. symmetry. exact Hm.
        -- exists x. split; [left; reflexivity |]. rewrite <- Heq. symmetry. exact Hm.
      * exists y. split; [right; right; exact Hin | exact Heq].
Qed.

Lemma getPerformancesByTask_runs (t : TaskType) (d : Device) :
  evalState (getPerformancesByTask t) d = ofType t (historyOf d).
Proof.
  destruct d as [[ps cs us] now tz].
  unfold getPerformancesByTask, historyOf. run_async. destruct ps; reflexivity.
Qed.

(** X14.  The progress screen has no figures for a task type without a
    performance; otherwise [total] is the number of its performances, [best]
    is the highest of their scores and is the score of one of them, and
    [recent] is the first five of them as the screen holds them. *)
Theorem getTaskStats_figures (performances : list UserPerformance) (t : TaskType) :
  let mine := ofType t performances in
  (Progress.getTaskStats performances t = None <-> mine = [])
  /\ (forall st, Progress.getTaskStats performances t = Some st ->
        Progress.total st = length mine
        /\ (forall p, In p mine -> score p <= Progress.best st)
        /\ (exists p, In p mine /\ score p == Progress.best st)
        /\ Progress.recent st = firstn 5 mine
        /\ (length (Progress.recent st) <= 5)%nat).
Proof.
  intro mine. unfold Progress.getTaskStats. fold (ofType t performances). fold mine.
  destruct mine as [|first others] eqn:Hmine.
  - split; [split; reflexivity | intros st H; discriminate].
  - split; [split; discriminate |].
    intros st H. injection H as <-.
    cbn [Progress.total Progress.best Progress.recent].
    destruct (Math_max_spec (score first) (map score others)) as [Hub [y [Hin Heq]]].
    split; [reflexivity |]. split; [| split; [| split]].
    + intros p Hp. apply Hub. change (In (score p) (map score (first :: others))).
      apply in_map. exact Hp.
    + change (In y (map score (first :: others))) in Hin.
      apply in_map_iff in Hin. destruct Hin as [p [Hp Hin]].
      exists p. split; [exact Hin | rewrite Hp; exact Heq].
    + reflexivity.
    + apply (firstn_le_length 5 (first :: others)).
Qed.

Lemma getTaskStats_figures_witness :
  exists st,
    Progress.getTaskStats [session stroop_test 80 1; session tapping_speed 72 2;
                           session stroop_test 90 3] stroop_test = Some st
    /\ Progress.total st = 2%nat.
Proof.
  destruct (getTaskStats_figures [session stroop_test 80 1; session tapping_speed 72 2;
                                  session stroop_test 90 3] stroop_test) as [_ H].
  eexists. split; [reflexivity |].
  destruct (H _ eq_refl) as [Htotal _]. exact Htotal.
Defined.

(** X15.  After a performance is saved, the best score that its task screen
    loads is at least the score just saved and at least every earlier score
    of that task type, and it is the score of a stored performance of that
    type; the best score shown before does not matter. *)
Theorem loadBestScore_after_save (p : UserPerformance) (d : Device) (shownBefore : Q) :
  let t := taskType p in
  let best := evalState (Progress.loadBestScore t shownBefore)
                        (execState (savePerformance p) d) in
  score p <= best
  /\ (forall q, In q (evalState (getPerformancesByTask t) d) -> score q <= best)
  /\ exists q, In q (evalState (getPerformancesByTask t)
                               (execState (savePerformance p) d))
               /\ score q == best.
Proof.
  intros t best.
  assert (Hload : forall dev b,
            evalState (Progress.loadBestScore t b) dev =
            match ofType t (historyOf dev) with
            | [] => b
            | first :: others => PersonalRecords.Math_max (score first) (map score others)
            end).
  { intros dev b. rewrite <- getPerformancesByTask_runs.
    destruct dev as [[ps cs us] now tz].
    unfold Progress.loadBestScore, getPerformancesByTask. run_async.
    destruct ps as [ps|]; cbn.
    - destruct (filter _ ps); reflexivity.
    - reflexivity. }
  subst best. rewrite Hload, !getPerformancesByTask_runs, savePerformance_history.
  rewrite ofType_snoc. subst t.
  destruct (TaskType_eq_dec (taskType p) (taskType p)) as [_ | Hne]; [| contradiction].
  destruct (ofType (taskType p) (historyOf d) ++ [p]) as [|first others] eqn:Hall.
  - destruct (ofType (taskType p) (historyOf d)); discriminate.
  - destruct (Math_max_spec (score first) (map score others)) as [Hub [y [Hin Heq]]].
    change (In y (map score (first :: others))) in Hin.
    assert (Hscore : forall q, In q (first :: others) ->
                               score q <= PersonalRecords.Math_max (score first)
                                            (map score others)).
    { intros q Hq. apply Hub. change (In (score q) (map score (first :: others))).
      apply in_map. exact Hq. }
    rewrite <- Hall in Hscore.
    split; [apply Hscore; apply in_or_app; right; left; reflexivity |].
    split; [intros q Hq; apply Hscore; apply in_or_app; left; exact Hq |].
    apply in_map_iff in Hin. destruct Hin as [q [Hq Hin]].
    exists q. split; [exact Hin | rewrite Hq; exact Heq].
Qed.

Lemma loadBestScore_after_save_witness :
  90 <= evalState (Progress.loadBestScore stroop_test 0)
          (execState (savePerformance (session stroop_test 90 1700000000000))
                     (freshDevice 1700000000000)).
Proof.
  destruct (loadBestScore_after_save (session stroop_test 90 1700000000000)
              (freshDevice 1700000000000) 0) as [H _].
  exact H.
Defined.

(** ** Personal records *)

Section RecordFacts.
Import PersonalRecords.

Lemma runAtEnd_snoc (ps : list UserPerformance) (p : UserPerformance) (k : nat) :
  runAtEnd (ps ++ [p]) k <->
  k = 0%nat \/ (strong p /\ exists k', k = S k' /\ runAtEnd ps k').
Proof.
  split.
  - intros [front [run [Heq [Hlen Hall]]]].
    destruct run as [|r run0]; [left; symmetry; exact Hlen |].
    destruct (@exists_last _ (r :: run0)) as [run' [y Hrun]]; [discriminate |].
    rewrite Hrun in *. rewrite app_assoc in Heq.
    apply app_inj_tail in Heq. destruct Heq as [Hps ->].
    apply Forall_app in Hall. destruct Hall as [Hall Hy].
    right. split; [inversion Hy; assumption |].
    exists (length run'). split.
    + rewrite length_app in Hlen. cbn in Hlen. lia.
    + exists front, run'. repeat split; [exact Hps | exact Hall].
  - intros [-> | [Hp [k' [-> [front [run [Heq [Hlen Hall]]]]]]]].
    + exists (ps ++ [p]), []. rewrite app_nil_r. repeat split. constructor.
    + exists front, (run ++ [p]). repeat split.
      * rewrite Heq, app_assoc. reflexivity.
      * rewrite length_app. cbn. lia.
      * apply Forall_app. split; [exact Hall | repeat constructor; exact Hp].
Qed.

Lemma runOf_snoc (ps : list UserPerformance) (p : UserPerformance) (k : nat) :
  runOf (ps ++ [p]) k <-> runOf ps k \/ runAtEnd (ps ++ [p]) k.
Proof.
  split.
  - intros [front [run [back [Heq [Hlen Hall]]]]].
    destruct back as [|b back0].
    + right. exists front, run. rewrite app_nil_r in Heq. repeat split; assumption.
    + destruct (@exists_last _ (b :: back0)) as [back' [y Hback]]; [discriminate |].
      rewrite Hback in Heq. rewrite !app_assoc in Heq.
      apply app_inj_tail in Heq. destruct Heq as [Hps _].
      left. exists front, run, back'. rewrite app_assoc. repeat split; trivial.
  - intros [[front [run [back [Heq [Hlen Hall]]]]] | [front [run [Heq [Hlen Hall]]]]].
    + exists front, run, (back ++ [p]). rewrite Heq, <- !app_assoc.
      repeat split; assumption.
    + exists front, run, []. rewrite app_nil_r. repeat split; assumption.
Qed.

Lemma countRun_runs (ps : list UserPerformance) :
  let state := fold_left countRun ps (0%nat, 0%nat) in
  (forall k, (k <= fst state)%nat <-> runAtEnd ps k)
  /\ (forall k, (k <= snd state)%nat <-> runOf ps k).
Proof.
  induction ps as [|p ps IH] using rev_ind; cbn zeta.
  - cbn [fold_left fst snd]. split; intro k; split.
    + intro Hk. assert (k = 0%nat) by lia. subst k.
      exists [], []. repeat split. constructor.
    + intros [front [run [Heq [Hlen _]]]].
      destruct front, run; try discriminate. cbn in Hlen. lia.
    + intro Hk. assert (k = 0%nat) by lia. subst k.
      exists [], [], []. repeat split. constructor.
    + intros [front [run [back [Heq [Hlen _]]]]].
      destruct front, run; try discriminate. cbn in Hlen. lia.
  - rewrite fold_left_app. cbn [fold_left].
    destruct (fold_left countRun ps (0%nat, 0%nat)) as [cur best].
    cbn [fst snd] in IH. destruct IH as [IHcur IHbest].
    assert (Hend : forall k,
              runAtEnd (ps ++ [p]) k <->
              (k <= (if geb (score p) 70 then S cur else 0))%nat).
    { intro k. rewrite runAtEnd_snoc. unfold strong.
      destruct (geb (score p) 70) eqn:Hp.
      - apply geb_true in Hp. split.
        + intros [-> | [_ [k' [-> Hk']]]]; [lia |]. apply IHcur in Hk'. lia.
        + intro Hk. destruct k as [|k']; [left; reflexivity |].
          right. split; [exact Hp |]. exists k'. split; [reflexivity |].
          apply IHcur. lia.
      - apply geb_false in Hp. split.
        + intros [-> | [Hs _]]; [lia |]. exfalso. apply (Qlt_not_le _ _ Hp Hs).
        + intro Hk. left. lia. }
    unfold countRun. destruct (geb (score p) 70); cbn [fst snd]; split; intro k.
    + symmetry. apply Hend.
    + rewrite runOf_snoc, Hend, <- IHbest. lia.
    + symmetry. apply Hend.
    + rewrite runOf_snoc, Hend, <- IHbest. lia.
Qed.

Lemma runOf_rev (ps : list UserPerformance) (k : nat) : runOf (rev ps) k -> runOf ps k.
Proof.
  intros [front [run [back [Heq [Hlen Hall]]]]].
  exists (rev back), (rev run), (rev front).
  split; [| split].
  - rewrite <- (rev_involutive ps), Heq, !rev_app_distr, app_assoc. reflexivity.
  - rewrite length_rev. exact Hlen.
  - apply Forall_rev. exact Hall.
Qed.

(** X16.  The personal records.  For a list of performances that is not
    empty, the highest score is the score of one of them and no score is
    higher; the number of sessions is the length of the list; and the best
    streak is the length of the longest run of consecutive performances of
    70 points or more: the list has such a run of [k] performances exactly
    when [k] is at most the best streak.  For the empty list every record
    is 0. *)
Theorem calculateRecords_figures (performances : list UserPerformance) :
  let records := calculateRecords performances in
  totalSessions records = length performances
  /\ (forall k, (k <= bestStreak records)%nat <-> runOf performances k)
  /\ (forall p, In p performances -> score p <= highestScore records)
  /\ (performances <> [] ->
        exists p, In p performances /\ score p == highestScore records)
  /\ (performances = [] -> highestScore records == 0 /\ averageScore records = 0%Z).
Proof.
  intro records. subst records. unfold calculateRecords.
  destruct performances as [|first others] eqn:Hps.
  - cbn. split; [reflexivity |]. split; [| split; [| split]].
    + intro k. split.
      * intro Hk. assert (k = 0%nat) by lia. subst k.
        exists [], [], []. repeat split. constructor.
      * intros [front [run [back [Heq [Hlen _]]]]].
        destruct front, run; try discriminate. cbn in Hlen. lia.
    + intros p [].
    + intro H. contradiction.
    + intros _. split; reflexivity.
  - rewrite <- Hps.
    cbn [totalSessions bestStreak highestScore averageScore].
    destruct (Math_max_spec (score first) (map score others)) as [Hub [y [Hin Heq]]].
    destruct (countRun_runs (rev performances)) as [_ Hbest].
    split; [reflexivity |]. split; [| split; [| split]].
    + intro k. rewrite Hbest. split.
      * apply runOf_rev.
      * intro H. apply runOf_rev. rewrite rev_involutive. exact H.
    + intros p Hp. apply Hub. rewrite Hps in Hp.
      change (In (score p) (map score (first :: others))). apply in_map. exact Hp.
    + intros _. change (In y (map score (first :: others))) in Hin.
      apply in_map_iff in Hin. destruct Hin as [p [Hp Hin]].
      exists p. rewrite Hps. split; [exact Hin | rewrite Hp; exact Heq].
    + rewrite Hps. discriminate.
Qed.

Lemma calculateRecords_figures_witness :
  runOf [session stroop_test 80 1; session tapping_speed 72 2; session stroop_test 60 3]
        (bestStreak (calculateRecords
                       [session stroop_test 80 1; session tapping_speed 72 2;
                        session stroop_test 60 3])).
Proof.
  destruct (calculateRecords_figures
              [session stroop_test 80 1; session tapping_speed 72 2;
               session stroop_test 60 3]) as [_ [Hbest _]].
  apply Hbest. apply Nat.le_refl.
Defined.

End RecordFacts.

(** ** Analytics: the Brain & Body Score *)

Lemma brainBody_current (stats : UserStats) :
  Analytics.current (Analytics.calculateBrainBodyScore stats)
  = Math_round (Analytics.averageScore stats).
Proof.
  unfold Analytics.calculateBrainBodyScore.
  repeat match goal with
    | |- context [geb ?x ?c] => destruct (geb x c)
    end; reflexivity.
Qed.

(** X17.  The Brain & Body Score shown by the analytics screen is the
    overall score of the scoring service applied to the stored averages: the
    rounded mean of the averages that are above 0, and 0 when there is
    none. *)
Theorem brainBodyScore_is_overall_score (stats : UserStats) :
  Analytics.current (Analytics.calculateBrainBodyScore stats)
  = calculateOverallScore (Analytics.entries stats).
Proof.
  rewrite brainBody_current.
  unfold Analytics.averageScore, calculateOverallScore, Object_values,
    Analytics.entries, Analytics.averageValues.
  rewrite map_map. cbn [snd].
  destruct (filter _ (map (averageScores stats) Challenges.allTasks)) as [|v vs];
    reflexivity.
Qed.

Lemma averageScore_bounds (stats : UserStats) :
  (forall t, averageScores stats t <= 100) ->
  0 <= Analytics.averageScore stats /\ Analytics.averageScore stats <= 100.
Proof.
  intro Hmax. unfold Analytics.averageScore.
  set (scores := filter (fun score => gtb score 0) (Analytics.averageValues stats)).
  assert (Hall : Forall (fun x => 0 <= x /\ x <= 100) scores).
  { apply Forall_forall. intros x Hx. apply filter_In in Hx. destruct Hx as [Hin Hpos].
    apply gtb_true in Hpos. unfold Analytics.averageValues in Hin.
    apply in_map_iff in Hin. destruct Hin as [t [<- _]].
    split; [lra | apply Hmax]. }
  destruct scores as [|v vs] eqn:Hscores; cbn [length Nat.ltb Nat.leb].
  - split; discriminate.
  - destruct (total_bounds _ _ Hall) as [T0 T1].
    assert (Hlen : 0 < len (v :: vs)).
    { unfold len. change 0 with (inject_Z 0). rewrite <- Zlt_Qlt. cbn [length]. lia. }
    rewrite (reduce_sum_total (fun score => score)), map_id.
    split.
    + apply Qle_shift_div_l; [exact Hlen | lra].
    + apply Qle_shift_div_r; [exact Hlen | exact T1].
Qed.

Lemma Math_round_monotone (x y : Q) : x <= y -> (Math_round x <= Math_round y)%Z.
Proof.
  intro H. unfold Math_round. apply Qfloor_resp_le. lra.
Qed.

Ltac tenths :=
  unfold Qdiv;
  change (/ 10) with (1 # 10); change (/ 15) with (1 # 15);
  change (/ 20) with (1 # 20); change (/ 45) with (1 # 45).

(** X18.  When no stored average exceeds 100, the Brain & Body Score lies
    between 0 and 100, the tier between 1 and 5, and the progress to the next
    tier between 0 and 100; the tier is 5 exactly from an average of 90 on
    and 1 exactly below 45. *)
Theorem brainBodyScore_ranges (stats : UserStats) :
  (forall t, averageScores stats t <= 100) ->
  let shown := Analytics.calculateBrainBodyScore stats in
  (0 <= Analytics.current shown <= 100)%Z
  /\ (1 <= Analytics.tier shown <= 5)%Z
  /\ (0 <= Analytics.progress shown <= 100)%Z
  /\ (Analytics.tier shown = 5%Z <-> 90 <= Analytics.averageScore stats)
  /\ (Analytics.tier shown = 1%Z <-> Analytics.averageScore stats < 45).
Proof.
  intros Hmax shown.
  destruct (averageScore_bounds stats Hmax) as [H0 H100].
  assert (Hrange : forall x, 0 <= x -> x <= 100 -> (0 <= Math_round x <= 100)%Z).
  { intros x Hx0 Hx1. split.
    - apply (Math_round_monotone 0 x Hx0).
    - apply (Math_round_monotone x 100 Hx1). }
  split.
  - subst shown. rewrite brainBody_current. apply Hrange; assumption.
  - subst shown. unfold Analytics.calculateBrainBodyScore.
    set (avg := Analytics.averageScore stats) in *.
    split_rate avg; cbn [Analytics.tier Analytics.progress];
      (split; [lia |]); (split; [apply Hrange; tenths; lra |]);
      split; split; intro H; try discriminate; try reflexivity; try lra.
Qed.

Lemma brainBodyScore_ranges_witness :
  (1 <= Analytics.tier
          (Analytics.calculateBrainBodyScore
             (mkStats 160%Q 1 2 (setScore (setScore (fun _ => 0%Q) stroop_test 85%Q)
                                          tapping_speed 75%Q) 0)) <= 5)%Z.
Proof.
  destruct (brainBodyScore_ranges
              (mkStats 160 1 2 (setScore (setScore (fun _ => 0) stroop_test 85)
                                         tapping_speed 75) 0)) as [_ [H _]].
  - intro t. destruct t; cbn; discriminate.
  - exact H.
Defined.

(** ** Sound discrimination: the tones of a trial *)

Section SoundFacts.
Import SoundDiscrimination.

(** X19.  For a first draw in [0,1), [generateTrial] yields four tones: the
    base tone, one of the six available, three times, and a last tone that
    is available too.  The relation it reports is the true one: [higher]
    exactly when the last tone is above the base, [lower] exactly when it is
    below, [same] exactly when they are equal -- also when a change was
    drawn at the end of the scale, where the tone cannot move.  It draws two
    or three random values. *)
Theorem generateTrial_relation (draws : nat -> Q) (k : nat) :
  0 <= draws k -> draws k < 1 ->
  exists base last relation k',
    generateTrial draws k = Some ([base; base; base; last], relation, k')
    /\ In base availableFrequencies /\ In last availableFrequencies
    /\ (relation = higher <-> base < last)
    /\ (relation = lower <-> last < base)
    /\ (relation = same <-> last == base)
    /\ (k' = S (S k) \/ k' = S (S (S k))).
Proof.
  intros H0 H1. unfold generateTrial.
  change (len availableFrequencies) with 6.
  pose proof (Qfloor_le (draws k * 6)) as Hlo.
  pose proof (Qlt_floor (draws k * 6)) as Hhi.
  assert (Hindex : (0 <= Qfloor (draws k * 6) < 6)%Z).
  { split.
    - change 0%Z with (Qfloor 0). apply Qfloor_resp_le. lra.
    - apply Z.lt_nge. intro Hge. rewrite Zle_Qle in Hge.
      change (inject_Z 6) with 6 in Hge. lra. }
  clear Hlo Hhi.
  assert (Hcases : Qfloor (draws k * 6) = 0%Z \/ Qfloor (draws k * 6) = 1%Z
                   \/ Qfloor (draws k * 6) = 2%Z \/ Qfloor (draws k * 6) = 3%Z
                   \/ Qfloor (draws k * 6) = 4%Z \/ Qfloor (draws k * 6) = 5%Z) by lia.
  destruct Hcases as [E | [E | [E | [E | [E | E]]]]]; rewrite E;
    (destruct (gtb (draws (S k)) (6 # 10));
     [destruct (gtb (draws (S (S k))) (5 # 10)) |]);
    cbn; do 4 eexists; (split; [reflexivity |]);
    repeat split; intros; try discriminate; try reflexivity; cbn; auto 10;
    try (exfalso; vm_compute in *; discriminate).
Qed.

Lemma generateTrial_relation_witness :
  exists base last relation k',
    generateTrial (fun n => nth n [95 # 100; 7 # 10; 9 # 10] 0) 0
    = Some ([base; base; base; last], relation, k')
    /\ (relation = same <-> last == base).
Proof.
  destruct (generateTrial_relation (fun n => nth n [95 # 100; 7 # 10; 9 # 10] 0) 0)
    as [base [last [relation [k' [Htrial [_ [_ [_ [_ [Hsame _]]]]]]]]]].
  - cbn. discriminate.
  - cbn. reflexivity.
  - exists base, last, relation, k'. split; [exact Htrial | exact Hsame].
Defined.

Example generateTrial_at_the_top_of_the_scale :
  generateTrial (fun n => nth n [95 # 100; 7 # 10; 9 # 10] 0) 0
  = Some ([440; 440; 440; 440], same, 3%nat).
Proof. reflexivity. Qed.

End SoundFacts.

(** ** The names of the tones *)

Lemma ltb_false (x y : Q) : ltb x y = false <-> y <= x.
Proof.
  rewrite ltb_dec. destruct (Qlt_le_dec x y) as [Hlt | Hle].
  - split; [discriminate | intro Hle; exfalso; apply (Qlt_not_le _ _ Hlt Hle)].
  - split; [intros _; exact Hle | reflexivity].
Qed.

(** X20.  A frequency within 1 Hz of a predefined tone gets the name of that
    tone (the tones lie far enough apart for the first match to be the only
    one), so every predefined frequency is named after its key; a frequency
    that is 1 Hz or more from all of them gets the text made of its
    value. *)
Theorem getFrequencyName_nearest (toFixedHz : Q -> string) (frequency : Q) :
  (forall note tone,
      In (note, tone) AudioGenerator.FREQUENCIES ->
      Qabs (tone - frequency) < 1 ->
      AudioGenerator.getFrequencyName toFixedHz frequency = note)
  /\ (forall note tone,
        In (note, tone) AudioGenerator.FREQUENCIES ->
        AudioGenerator.getFrequencyName toFixedHz tone = note)
  /\ ((forall note tone,
         In (note, tone) AudioGenerator.FREQUENCIES -> 1 <= Qabs (tone - frequency)) ->
      AudioGenerator.getFrequencyName toFixedHz frequency = toFixedHz frequency).
Proof.
  assert (Hnear : forall x note tone,
            In (note, tone) AudioGenerator.FREQUENCIES ->
            Qabs (tone - x) < 1 ->
            AudioGenerator.getFrequencyName toFixedHz x = note).
  { intros x note tone Hin Hclose.
    unfold AudioGenerator.getFrequencyName, AudioGenerator.FREQUENCIES in *.
    cbn [find fst snd].
    pose proof Hclose as Hband. apply Qabs_Qlt_condition in Hband.
    cbn [In] in Hin.
    repeat (destruct Hin as [Hin | Hin];
            [injection Hin as <- <-;
             repeat (match goal with
                     | |- context [ltb (Qabs (?e - x)) 1] =>
                         let E := fresh "E" in
                         destruct (ltb (Qabs (e - x)) 1) eqn:E;
                         [ apply ltb_true in E;
                           first [ reflexivity
                                 | exfalso; apply Qabs_Qlt_condition in E; lra ]
                         | apply ltb_false in E; try (exfalso; lra) ]
                     end) |]).
    destruct Hin. }
  split; [exact (Hnear frequency) |].
  split.
  - intros note tone Hin. apply (Hnear tone note tone Hin).
    setoid_replace (tone - tone) with 0 by ring. reflexivity.
  - intro Hfar. unfold AudioGenerator.getFrequencyName.
    assert (Hnone : forall entries,
              (forall e, In e entries -> In e AudioGenerator.FREQUENCIES) ->
              find (fun entry => ltb (Qabs (snd entry - frequency)) 1) entries = None).
    { induction entries as [|[note tone] rest IH]; intro Hsub; cbn [find snd];
        [reflexivity |].
      assert (Hentry : ltb (Qabs (tone - frequency)) 1 = false).
      { apply ltb_false. apply (Hfar note). apply Hsub. left. reflexivity. }
      rewrite Hentry. apply IH. intros e He. apply Hsub. right. exact He. }
    rewrite (Hnone AudioGenerator.FREQUENCIES (fun e He => He)). reflexivity.
Qed.

Lemma getFrequencyName_nearest_witness :
  AudioGenerator.getFrequencyName (fun _ => "?"%string) (4405 # 10) = "A4"%string.
Proof.
  destruct (getFrequencyName_nearest (fun _ => "?"%string) (4405 # 10)) as [H _].
  apply (H "A4"%string 440).
  - cbn. tauto.
  - reflexivity.
Defined.

(** ** Decision task: a session up to the prompt *)

Section SessionFacts.
Import DecisionSession.

Lemma sumRewards_snoc (ts : list Trial) (t : Trial) :
  sumRewards (ts ++ [t]) = (sumRewards ts + reward t)%Z.
Proof.
  unfold sumRewards. induction ts as [|x ts IH]; cbn [app fold_right]; [lia |].
  rewrite IH. lia.
Qed.

Lemma rewardRule_kinds (t : Z) (c : DoorChoice) (first second : Q) :
  let r := rewardRule t c first second in
  (fst r = 10%Z /\ snd r = high) \/ (fst r = 2%Z /\ snd r = low)
  \/ (fst r = 0%Z /\ snd r = none /\ (31 <= t <= 40)%Z).
Proof.
  unfold rewardRule.
  destruct ((31 <=? t)%Z && (t <=? 40)%Z) eqn:Hf.
  - apply andb_true_iff in Hf. destruct Hf as [H1 H2]. apply Z.leb_le in H1, H2.
    destruct (Qlt_le_dec first (1 # 10)); [| cbn; tauto].
    destruct (Qlt_le_dec second _); cbn; tauto.
  - destruct (Qlt_le_dec first _); cbn; tauto.
Qed.

(** The screen after [n] trials of a session, for [n] up to 40. *)
Lemma session_after_trials (draws : nat -> Q) (now0 : Z) (xs : list (DoorChoice * Z * Z)) :
  (length xs <= 40)%nat ->
  let scr := playAll draws xs (startGame now0 (onReady now0)) in
  let s := cells scr in
  map trial (trials s) = map Z.of_nat (seq 1 (length xs))
  /\ map choice (trials s) = map (fun x => fst (fst x)) xs
  /\ Forall rewardOfRule (trials s)
  /\ DecisionTask.totalReward s = sumRewards (trials s)
  /\ ((length xs < 40)%nat ->
        gameState s = playing
        /\ currentTrial s = (Z.of_nat (length xs) + 1)%Z
        /\ currentPhase scr = Some (getCurrentPhase (currentTrial s))
        /\ showContinuePrompt scr = false)
  /\ (length xs = 40%nat ->
        gameState s = continue_prompt /\ currentTrial s = 40%Z
        /\ showContinuePrompt scr = true).
Proof.
  induction xs as [|[[c pressed] later] xs IH] using rev_ind; intro Hlen.
  - cbn. split; [reflexivity |]. split; [reflexivity |]. split; [constructor |].
    split; [reflexivity |]. split; [intros _; repeat split | intro H; discriminate].
  - rewrite length_app in Hlen. cbn [length] in Hlen.
    destruct IH as [Hnum [Hch [Hrew [Htot [Hplay _]]]]]; [lia |].
    destruct Hplay as [Hstate [Htrial [Hphase Hprompt]]]; [lia |].
    unfold playAll in *. rewrite fold_left_app. cbn [fold_left].
    set (before := fold_left (fun screen x => playTrial draws x screen) xs
                             (startGame now0 (onReady now0))) in *.
    assert (Hrange : (1 <= currentTrial (cells before) <= 50)%Z) by lia.
    unfold playTrial, choose. cbn [cells]. rewrite Hstate.
    unfold handleDoorChoice. rewrite Hstate.
    rewrite (resolveReward_rule draws _ c _ Hrange).
    pose proof (rewardRule_kinds (currentTrial (cells before)) c
                  (draws (drawn (cells before))) (draws (S (drawn (cells before)))))
      as Hkind.
    destruct (rewardRule _ c _ _) as [r ty]. cbn [fst snd] in Hkind.
    cbn [timer].
    rewrite length_app. cbn [length].
    assert (Hshape :
      map trial (trials (cells before)
                 ++ [mkTrial (currentTrial (cells before)) c r ty
                             (pressed - startTime (cells before))])
      = map Z.of_nat (seq 1 (length xs + 1))
      /\ map choice (trials (cells before)
                     ++ [mkTrial (currentTrial (cells before)) c r ty
                                 (pressed - startTime (cells before))])
         = map (fun x => fst (fst x)) (xs ++ [(c, pressed, later)])
      /\ Forall rewardOfRule
           (trials (cells before)
            ++ [mkTrial (currentTrial (cells before)) c r ty
                        (pressed - startTime (cells before))])
      /\ (DecisionTask.totalReward (cells before) + r)%Z
         = sumRewards (trials (cells before)
                       ++ [mkTrial (currentTrial (cells before)) c r ty
                                   (pressed - startTime (cells before))])).
    { rewrite !map_app, Hnum, Hch, sumRewards_snoc, Htot. cbn [map trial choice reward].
      rewrite seq_app, map_app. cbn [seq map fst].
      split; [| split; [reflexivity | split; [| reflexivity]]].
      - rewrite Htrial. f_equal. f_equal. lia.
      - apply Forall_app. split; [exact Hrew |]. constructor; [| constructor].
        unfold rewardOfRule. cbn [reward rewardType trial]. exact Hkind. }
    destruct Hshape as [S1 [S2 [S3 S4]]].
    destruct (Z.eqb_spec (currentTrial (cells before)) 40) as [H40 | H40].
    + cbn [promptCallback cells trials DecisionTask.totalReward gameState currentTrial
             showContinuePrompt].
      split; [exact S1 |]. split; [exact S2 |]. split; [exact S3 |].
      split; [exact S4 |]. split; [intro; lia | intros _; repeat split; exact H40].
    + destruct (Z.leb_spec totalTrials (currentTrial (cells before))) as [H50 | H50];
        [unfold totalTrials in H50; lia |].
      cbn [nextTrialCallback cells trials DecisionTask.totalReward gameState currentTrial
             showContinuePrompt currentPhase].
      split; [exact S1 |]. split; [exact S2 |]. split; [exact S3 |].
      split; [exact S4 |]. split; [| intro; lia].
      intros _. split; [reflexivity |]. split; [lia |]. split; [reflexivity | exact Hprompt].
Qed.

(** X21.  A decision-task session.  After [n] door choices, for [n] up to
    40, the log holds the trials 1..[n] in order with the doors that were
    chosen; every reward is 10 (high), 2 (low) or, inside trials 31-40 only,
    0 (none); and the total reward on the screen is the sum of the logged
    rewards.  Before the 40th choice the screen waits for the next trial and
    shows the phase of that trial; after the 40th it shows the prompt; and
    when the player continues it waits for trial 41 in the Recovery phase,
    with the log unchanged. *)
Theorem session_up_to_the_prompt
  (draws : nat -> Q) (now0 : Z) (xs : list (DoorChoice * Z * Z)) :
  (length xs <= 40)%nat ->
  let scr := playAll draws xs (startGame now0 (onReady now0)) in
  let s := cells scr in
  map trial (trials s) = map Z.of_nat (seq 1 (length xs))
  /\ map choice (trials s) = map (fun x => fst (fst x)) xs
  /\ Forall rewardOfRule (trials s)
  /\ DecisionTask.totalReward s = sumRewards (trials s)
  /\ ((length xs < 40)%nat ->
        gameState s = playing
        /\ currentTrial s = (Z.of_nat (length xs) + 1)%Z
        /\ currentPhase scr = Some (getCurrentPhase (currentTrial s))
        /\ showContinuePrompt scr = false)
  /\ (length xs = 40%nat ->
        gameState s = continue_prompt /\ showContinuePrompt scr = true
        /\ forall now,
             let resumed := continueGame now scr in
             gameState (cells resumed) = playing
             /\ currentTrial (cells resumed) = 41%Z
             /\ option_map DecisionTask.name (currentPhase resumed)
                = Some "Recovery"%string
             /\ showContinuePrompt resumed = false
             /\ trials (cells resumed) = trials s).
Proof.
  intros Hlen scr s.
  destruct (session_after_trials draws now0 xs Hlen)
    as [Hnum [Hch [Hrew [Htot [Hplay Hprompt]]]]].
  fold scr in Hnum, Hch, Hrew, Htot, Hplay, Hprompt. fold s in Hnum, Hch, Hrew, Htot.
  split; [exact Hnum |]. split; [exact Hch |]. split; [exact Hrew |].
  split; [exact Htot |]. split; [exact Hplay |].
  intro H40. destruct (Hprompt H40) as [Hstate [Htrial Hshown]].
  split; [exact Hstate |]. split; [exact Hshown |].
  intros now resumed. subst resumed. unfold continueGame.
  cbn [cells gameState currentTrial currentPhase showContinuePrompt trials].
  rewrite Htrial. repeat split.
Qed.

Lemma session_up_to_the_prompt_witness :
  gameState (cells (playAll (fun _ => 1 # 2)
                            (map (fun n => (left_door, 1000 * Z.of_nat n + 500,
                                            1000 * Z.of_nat n + 2000)%Z) (seq 1 40))
                            (startGame 0 (onReady 0))))
  = continue_prompt.
Proof.
  destruct (session_up_to_the_prompt (fun _ => 1 # 2) 0
              (map (fun n => (left_door, 1000 * Z.of_nat n + 500,
                              1000 * Z.of_nat n + 2000)%Z) (seq 1 40)))
    as [_ [_ [_ [_ [_ Hprompt]]]]].
  - cbn. lia.
  - destruct (Hprompt eq_refl) as [Hstate _]. exact Hstate.
Defined.

Lemma calculateMetrics_valid (s : Component) :
  (0 < DecisionTask.totalReward s)%Z ->
  Forall (fun t => (0 <= reward t <= highReward)%Z) (trials s) ->
  validMetrics (calculateMetrics s).
Proof.
  intros Hpos Hall f. destruct f; cbn; trivial.
  - change 0 with (inject_Z 0). rewrite <- Zlt_Qlt. exact Hpos.
  - apply adaptationScore_unit.
  - apply riskTaking_unit.
  - destruct (learning (trials s)) as [l|] eqn:Hl; [| exact I].
    destruct (learning_bounds _ _ Hl) as [H0 H1]. split; [exact H0 | apply H1; exact Hall].
Qed.

(** X22.  [finishGame] of the decision task.  When the total reward it reads
    is not negative and the logged rewards lie between 0 and the high reward,
    as in every session, the score is between 0 and 100; the best score on
    the screen becomes the larger of the old one and this score; and one
    performance of the decision task with this score is appended to the
    history. *)
Theorem finishGame_saves_a_score (s : Component) (bestScore : Z) (d : Device) :
  (0 <= DecisionTask.totalReward s)%Z ->
  Forall (fun t => (0 <= reward t <= highReward)%Z) (trials s) ->
  let result := evalState (finishGame s bestScore) d in
  let d' := execState (finishGame s bestScore) d in
  (0 <= fst result <= 100)%Z
  /\ fst result = calculateScore decision_task (calculateMetrics s)
  /\ snd result = Z.max bestScore (fst result)
  /\ exists p,
       historyOf d' = historyOf d ++ [p]
       /\ taskType p = decision_task
       /\ score p = inject_Z (fst result)
       /\ date p = clock d.
Proof.
  intros Htotal Hall result d'.
  assert (Hrun :
    evalState (finishGame s bestScore) d =
      (calculateScore decision_task (calculateMetrics s),
       if (bestScore <? calculateScore decision_task (calculateMetrics s))%Z
       then calculateScore decision_task (calculateMetrics s) else bestScore)
    /\ execState (finishGame s bestScore) d =
       execState (savePerformance
                    (mkPerformance (sessionIdAt (clock d)) decision_task
                       (inject_Z (calculateScore decision_task (calculateMetrics s)))
                       (clock d) (calculateMetrics s)))
                 d).
  { unfold finishGame, evalState, execState, Date_now.
    cbn [bind ret Monad_state runState gets MonadState_state get fst snd].
    destruct (runState (savePerformance _) d) as [u d1]. split; reflexivity. }
  destruct Hrun as [Heval Hexec].
  subst result d'. rewrite Heval, Hexec. cbn [fst snd].
  split; [| split; [reflexivity | split]].
  - rewrite calculateScore_raw.
    destruct (Z.eq_dec (DecisionTask.totalReward s) 0) as [Hzero | Hnonzero].
    + unfold rawScore, requiredFields, existsb, Spec.field, calculateMetrics.
      simpl. rewrite Hzero. cbn. lia.
    + assert (Hvalid : validMetrics (calculateMetrics s))
        by (apply calculateMetrics_valid; [lia | exact Hall]).
      pose proof (rawScore_nonneg decision_task _ Hvalid) as Hraw.
      destruct (rawScore decision_task (calculateMetrics s)) as [raw|]; [| lia].
      pose proof (Math_round_nonneg raw Hraw). lia.
  - destruct (Z.ltb_spec bestScore (calculateScore decision_task (calculateMetrics s)));
      lia.
  - eexists. split; [apply savePerformance_history |]. repeat split.
Qed.

Lemma finishGame_saves_a_score_witness :
  (0 <= fst (evalState (finishGame (sessionEnded stoppedAtForty 80) 0)
                       (freshDevice 1700000000000)) <= 100)%Z.
Proof.
  destruct (finishGame_saves_a_score (sessionEnded stoppedAtForty 80) 0
              (freshDevice 1700000000000)) as [H _].
  - cbn. lia.
  - cbn [sessionEnded trials]. unfold stoppedAtForty.
    apply Forall_map. apply Forall_forall. intros n _. cbn. unfold highReward. lia.
  - exact H.
Defined.

End SessionFacts.

(** ** Scoring: better performance never scores lower *)

Lemma clamp_monotone (x y : Q) :
  x <= y -> (Z.min (Math_round x) 100 <= Z.min (Math_round y) 100)%Z.
Proof.
  intro H. pose proof (Math_round_monotone x y H). lia.
Qed.

Lemma Qdiv_le_compat (a b c : Q) : 0 < c -> a <= b -> a / c <= b / c.
Proof.
  intros Hc Hab. apply Qle_shift_div_l; [exact Hc |].
  unfold Qdiv. rewrite <- Qmult_assoc, (Qmult_comm (/ c)), Qmult_inv_r, Qmult_1_r.
  - exact Hab.
  - intro E. rewrite E in Hc. apply (Qlt_irrefl 0 Hc).
Qed.

Lemma positive_truthy (q : Q) : 0 < q -> falsy (Some q) = false.
Proof.
  intro H. cbn. destruct (Qeq_bool q 0) eqn:E; [| reflexivity].
  apply Qeq_bool_iff in E. rewrite E in H. exfalso. apply (Qlt_irrefl 0 H).
Qed.

(** X23.  Within a session of a given length more taps never give a lower
    tapping score; a shorter average reaction time never gives a lower
    reaction-time score; and in the Tower of Hanoi neither fewer moves nor a
    shorter solving time ever give a lower score. *)
Theorem better_performance_never_scores_lower :
  (forall taps taps' ms,
      0 < taps -> taps <= taps' -> 0 < ms ->
      (calculateScore tapping_speed (tappingBag taps ms)
       <= calculateScore tapping_speed (tappingBag taps' ms))%Z)
  /\ (forall rt rt',
        0 < rt -> rt <= rt' ->
        (calculateScore reaction_time (Bags.reactionBag rt')
         <= calculateScore reaction_time (Bags.reactionBag rt))%Z)
  /\ (forall used used' time time' minimum,
        0 < used -> used <= used' -> 0 < time -> time <= time' -> 0 < minimum ->
        (calculateScore tower_of_hanoi (Bags.hanoiBag used' time' minimum)
         <= calculateScore tower_of_hanoi (Bags.hanoiBag used time minimum))%Z).
Proof.
  split; [| split].
  - intros taps taps' ms Ht Hle Hms.
    unfold calculateScore, calculateTappingScore, tappingBag.
    cbn [numberOfTaps duration val].
    rewrite !positive_truthy by lra. cbn [orb].
    apply clamp_monotone, tappingPoints_monotone.
    apply Qdiv_le_compat; [apply Qdiv_pos; lra | exact Hle].
  - intros rt rt' Hrt Hle.
    unfold calculateScore, calculateReactionTimeScore, Bags.reactionBag.
    cbn [averageReactionTime val].
    rewrite !positive_truthy by lra.
    apply clamp_monotone. apply Q.max_le_compat_l. tenths. lra.
  - intros used used' time time' minimum Hu Hule Ht Htle Hm.
    unfold calculateScore, calculateTowerOfHanoiScore, Bags.hanoiBag.
    cbn [moves solveTime minMoves val].
    rewrite !positive_truthy by lra. cbn [orb].
    apply clamp_monotone.
    assert (Heff : minimum / used' <= minimum / used).
    { apply Qle_shift_div_l; [lra |].
      apply Qle_trans with (minimum / used' * used').
      - apply Qmult_le_l.
        + apply Qdiv_pos; lra.
        + exact Hule.
      - unfold Qdiv. rewrite <- Qmult_assoc, (Qmult_comm (/ used')), Qmult_inv_r, Qmult_1_r.
        + apply Qle_refl.
        + intro E. lra. }
    assert (Hbonus : Qmax 0 ((120000 - time') / 1200) <= Qmax 0 ((120000 - time) / 1200)).
    { apply Q.max_le_compat_l. unfold Qdiv. change (/ 1200) with (1 # 1200). lra. }
    generalize dependent (minimum / used'). generalize dependent (minimum / used).
    intros. lra.
Qed.

Lemma better_performance_never_scores_lower_witness :
  (calculateScore reaction_time (Bags.reactionBag 450)
   <= calculateScore reaction_time (Bags.reactionBag 300))%Z.
Proof.
  destruct better_performance_never_scores_lower as [_ [Hreaction _]].
  apply Hreaction; [reflexivity | discriminate].
Defined.

(** ** Spatial memory: the check of the input *)

Lemma everyFrom_prefix (userSeq sequence : list Z) (index : nat) :
  SpatialMemory.everyFrom index userSeq sequence = true <->
  exists rest, skipn index sequence = userSeq ++ rest.
Proof.
  revert index. induction userSeq as [|cell userSeq IH]; intro index;
    cbn [SpatialMemory.everyFrom app].
  - split; [intros _; exists (skipn index sequence); reflexivity | reflexivity].
  - destruct (nth_error sequence index) as [shown|] eqn:Hnth.
    + rewrite andb_true_iff, Z.eqb_eq, IH.
      assert (Hskip : skipn index sequence = shown :: skipn (S index) sequence).
      { clear IH. revert index Hnth.
        induction sequence as [|x sequence IHs]; intros [|index] Hnth;
          try discriminate; cbn in *.
        - congruence.
        - apply IHs. exact Hnth. }
      rewrite Hskip. split.
      * intros [-> [rest Hrest]]. exists rest. rewrite Hrest. reflexivity.
      * intros [rest Hrest]. injection Hrest as -> Hrest. split; [reflexivity |].
        exists rest. exact Hrest.
    + split; [discriminate |]. intros [rest Hrest].
      apply nth_error_None in Hnth. rewrite skipn_all2 in Hrest by exact Hnth.
      discriminate.
Qed.

(** X24.  The check of the spatial-memory input accepts exactly the inputs
    that repeat the shown sequence from its start: an input is correct when
    it is a prefix of the sequence, and, as the check runs when the input is
    as long as the sequence, when it is the sequence itself. *)
Theorem isCorrect_repeats_the_sequence (userSeq sequence : list Z) :
  (SpatialMemory.isCorrect userSeq sequence = true <->
   exists rest, sequence = userSeq ++ rest)
  /\ (length userSeq = length sequence ->
      (SpatialMemory.isCorrect userSeq sequence = true <-> userSeq = sequence)).
Proof.
  unfold SpatialMemory.isCorrect.
  pose proof (everyFrom_prefix userSeq sequence 0) as Hprefix. cbn [skipn] in Hprefix.
  split; [exact Hprefix |].
  intro Hlen. rewrite Hprefix. split.
  - intros [rest Hrest]. rewrite Hrest in Hlen. rewrite length_app in Hlen.
    destruct rest; [rewrite app_nil_r in Hrest; congruence | cbn in Hlen; lia].
  - intros ->. exists []. rewrite app_nil_r. reflexivity.
Qed.

Lemma isCorrect_repeats_the_sequence_witness :
  SpatialMemory.isCorrect [3; 7; 12]%Z [3; 7; 12]%Z = true.
Proof.
  destruct (isCorrect_repeats_the_sequence [3; 7; 12]%Z [3; 7; 12]%Z) as [_ H].
  apply H; reflexivity.
Defined.

(** ** Tower of Hanoi: the solved puzzle *)

Section HanoiSolved.
Import TowerOfHanoi.

Lemma newGame_wellFormed (n : nat) : wellFormed (newGame n).
Proof.
  unfold wellFormed, newGame, startGame, initializeGame, stacked.
  cbn [towers selectedDisk difficulty length]. split; [reflexivity |].
  split; [| exact I].
  pose proof (initial_disks_sorted n 0
                (fun i => nth (i mod length diskColors) diskColors EmptyString)) as Hs.
  constructor; [| repeat constructor].
  cbn [disks]. rewrite sortLargestFirst_sorted; exact Hs.
Qed.

Lemma pressAll_wellFormed (presses : list nat) (g g' : Game) :
  Forall (fun p => (p < 3)%nat) presses ->
  wellFormed g ->
  pressAll g presses = Some g' ->
  wellFormed g' /\ Permutation (allDisks (towers g')) (allDisks (towers g)).
Proof.
  intro Hpresses. revert g.
  induction Hpresses as [|p rest Hp _ IH]; intros g Hwf Hrun; cbn [pressAll] in Hrun.
  - injection Hrun as <-. split; [exact Hwf | apply Permutation_refl].
  - destruct (handleTowerPress_step g p Hwf Hp) as [g1 [Hpress [Hwf1 [Hperm1 _]]]].
    rewrite Hpress in Hrun. destruct (IH g1 Hwf1 Hrun) as [Hwf' Hperm'].
    split; [exact Hwf' |].
    apply Permutation_trans with (allDisks (towers g1)); assumption.
Qed.

(** Two well-stacked piles of the same disks are the same pile. *)
Lemma stacked_unique (xs ys : list Disk) :
  StronglySorted above xs -> StronglySorted above ys -> Permutation xs ys -> xs = ys.
Proof.
  revert ys. induction xs as [|x xs IH]; intros ys Hxs Hys Hperm.
  - apply Permutation_nil in Hperm. symmetry. exact Hperm.
  - destruct ys as [|y ys].
    + apply Permutation_sym, Permutation_nil in Hperm. discriminate.
    + inversion Hxs as [|? ? Hxs' Hx]; subst. inversion Hys as [|? ? Hys' Hy]; subst.
      assert (Hhead : x = y).
      { assert (Hin_y : In y (x :: xs))
          by (apply (Permutation_in _ (Permutation_sym Hperm)); left; reflexivity).
        assert (Hin_x : In x (y :: ys))
          by (apply (Permutation_in _ Hperm); left; reflexivity).
        destruct Hin_y as [E | Hin_y]; [exact E |].
        destruct Hin_x as [E | Hin_x]; [symmetry; exact E |].
        rewrite Forall_forall in Hx, Hy.
        pose proof (Hx y Hin_y) as H1. pose proof (Hy x Hin_x) as H2.
        unfold above in H1, H2. lia. }
      subst y. f_equal. apply IH; trivial.
      apply (Permutation_cons_inv Hperm).
Qed.

(** X25.  The Tower of Hanoi is solved when the code says so.  After any
    presses on the three towers of a game with [n] disks, if the third tower
    holds [n] disks -- the test that sets the timer of [finishGame] -- then it
    holds exactly the stack that the game started with on the first tower,
    and the other two towers are empty. *)
Theorem hanoi_solved_is_the_whole_stack (n : nat) (presses : list nat) (g : Game) :
  Forall (fun p => (p < 3)%nat) presses ->
  pressAll (newGame n) presses = Some g ->
  option_map (fun t => length (disks t)) (nth_error (towers g) 2) = Some n ->
  map disks (towers g)
  = [ []; []; match towers (newGame n) with
              | first :: _ => disks first
              | [] => []
              end ].
Proof.
  intros Hpresses Hrun Hthird.
  destruct (pressAll_wellFormed presses (newGame n) g Hpresses
              (newGame_wellFormed n) Hrun) as [[Hlen [Hst _]] Hperm].
  destruct (newGame_wellFormed n) as [_ [Hst0 _]].
  destruct (towers g) as [|a [|b [|c [|]]]]; try discriminate.
  cbn [nth_error option_map] in Hthird. injection Hthird as Hc.
  assert (Hcount : length (allDisks (towers (newGame n))) = n).
  { unfold newGame, startGame, initializeGame, allDisks.
    cbn [towers flat_map disks difficulty]. rewrite !app_nil_r.
    rewrite sortLargestFirst_sorted.
    - rewrite length_map, length_seq. reflexivity.
    - apply initial_disks_sorted. }
  pose proof (Permutation_length Hperm) as Hsame. rewrite Hcount in Hsame.
  unfold allDisks in Hsame. cbn [flat_map] in Hsame.
  rewrite !length_app in Hsame. cbn [length] in Hsame.
  assert (Ha : disks a = []) by (destruct (disks a); [reflexivity | cbn in Hsame; lia]).
  assert (Hb : disks b = []) by (destruct (disks b); [reflexivity | cbn in Hsame; lia]).
  cbn [map]. rewrite Ha, Hb. f_equal. f_equal. f_equal.
  inversion Hst as [|? ? _ Hst1]; subst. inversion Hst1 as [|? ? _ Hst2]; subst.
  inversion Hst2 as [|? ? Hsc _]; subst.
  unfold newGame, startGame, initializeGame in *. cbn [towers] in *.
  inversion Hst0 as [|? ? Hs0 _]; subst.
  apply stacked_unique; [exact Hsc | exact Hs0 |].
  unfold allDisks in Hperm. cbn [flat_map disks] in Hperm.
  rewrite Ha, Hb in Hperm. cbn [app] in Hperm. rewrite !app_nil_r in Hperm.
  exact Hperm.
Qed.

Lemma hanoi_solved_is_the_whole_stack_witness :
  exists g,
    pressAll (newGame 3) [0; 2; 0; 1; 2; 1; 0; 2; 1; 0; 1; 2; 0; 2]%nat = Some g
    /\ map (fun ds => map size ds) (map disks (towers g)) = [[]; []; [3; 2; 1]%Z].
Proof.
  eexists. split; [vm_compute; reflexivity |].
  rewrite (hanoi_solved_is_the_whole_stack 3
             [0; 2; 0; 1; 2; 1; 0; 2; 1; 0; 1; 2; 0; 2]%nat).
  - reflexivity.
  - repeat constructor.
  - vm_compute. reflexivity.
  - reflexivity.
Defined.

End HanoiSolved.
